(** * ArcticVend: the order-to-fulfillment pipeline

    A shallow embedding of the kiosk's order pipeline: the [order_queue] and
    [shelf_mappings] tables of [models.py], the queue files of [utils.py], the
    two order calls of [shopify_client.py] and the five handlers of [app.py]
    that create, claim, verify, complete and re-status an order.

    Conventions.
    - A handler is a function from what it reads from outside the program
      ([Env]: clock, uuid, network, disk, environment variables) and the store
      ([World]) to a response and the new store.
    - [try: ... except Exception] is an error monad ([result]); what was
      committed before the exception stays, what was not is discarded.
    - A [datetime] is its position on the time line (a [Z]); where the source
      renders one with [strftime] or [isoformat] the model keeps the datetime.
      The clock is read once per request.
    - The database answers every query; a commit fails only on a constraint.
      A table is the list of its rows in insertion order. A query without
      [order_by] walks the table by rowid (SQLite, the configured database):
      for [order_queue], whose key is a string, that is the insertion order;
      for [shelf_mappings], whose INTEGER PRIMARY KEY is the rowid, it is the
      order of [shelf_number]. *)

From Stdlib Require Import ZArith List String Ascii Bool Lia PrimFloat DecimalString.
From Stdlib Require Import FloatOps SpecFloat Sorted.

Set Warnings "-register-all".

Import ListNotations.

Open Scope string_scope.
Open Scope list_scope.
Open Scope Z_scope.

(** ** Python values *)

Module Py.

(** What [json.loads], [response.json()] and [request.json] give. A dict is
    the list of its entries in insertion order, keys distinct. *)
Inductive json : Type :=
| JNull
| JBool (b : bool)
| JInt (n : Z)
| JFloat (f : float)
| JStr (s : string)
| JArr (l : list json)
| JObj (kvs : list (string * json)).

(** The exceptions the modelled code can meet; all derive from [Exception]. *)
Inductive exn : Type :=
| KeyError (key : string)
| TypeError
| ValueError
| AttributeError
| JSONDecodeError
| NotFound                     (* werkzeug's 404, raised by get_or_404 *)
| IntegrityError (constraint : string)
| DBAPIError.                  (* the driver refuses a bound value *)

Inductive result (A : Type) : Type :=
| Ok (a : A)
| Raise (e : exn).
Arguments Ok {A} a.
Arguments Raise {A} e.

Definition bind {A B} (c : result A) (k : A -> result B) : result B :=
  match c with
  | Ok a => k a
  | Raise e => Raise e
  end.

Notation "x <- c ;; k" := (bind c (fun x => k))
  (at level 61, c at next level, right associativity).

Fixpoint assoc {A} (k : string) (kvs : list (string * A)) : option A :=
  match kvs with
  | [] => None
  | (k', v) :: rest => if String.eqb k' k then Some v else assoc k rest
  end.

(** [v[key]] for a string key. *)
Definition getitem (v : json) (key : string) : result json :=
  match v with
  | JObj kvs =>
      match assoc key kvs with
      | Some x => Ok x
      | None => Raise (KeyError key)
      end
  | _ => Raise TypeError
  end.

(** [v.get(key)]: only a dict has the method. *)
Definition dict_get (v : json) (key : string) : result json :=
  match v with
  | JObj kvs =>
      match assoc key kvs with
      | Some x => Ok x
      | None => Ok JNull
      end
  | _ => Raise AttributeError
  end.

Definition chars (s : string) : list json :=
  map (fun c => JStr (String c EmptyString)) (list_ascii_of_string s).

(** [for x in v]: a list gives its elements, a dict its keys, a str its
    characters; nothing else is iterable. *)
Definition iter (v : json) : result (list json) :=
  match v with
  | JArr l => Ok l
  | JObj kvs => Ok (map (fun kv => JStr (fst kv)) kvs)
  | JStr s => Ok (chars s)
  | _ => Raise TypeError
  end.

(** [range(v)] as the number of iterations; [bool] is an [int]. *)
Definition py_range (v : json) : result nat :=
  match v with
  | JInt n => Ok (Z.to_nat n)
  | JBool b => Ok (if b then 1%nat else 0%nat)
  | _ => Raise TypeError
  end.

(** Truth value of a JSON value. *)
Definition truthy (v : json) : bool :=
  match v with
  | JNull => false
  | JBool b => b
  | JInt n => negb (n =? 0)
  | JFloat f => negb (PrimFloat.eqb f 0%float)
  | JStr s => negb (String.eqb s "")
  | JArr l => match l with [] => false | _ => true end
  | JObj kvs => match kvs with [] => false | _ => true end
  end.

(** Truth value of a nullable string column. *)
Definition truthy_str (s : option string) : bool :=
  match s with
  | None => false
  | Some s => negb (String.eqb s "")
  end.

(** *** [int(str)] *)

Definition is_space (c : ascii) : bool :=
  let n := nat_of_ascii c in
  (Nat.eqb n 32 || (Nat.leb 9 n && Nat.leb n 13))%bool.

Fixpoint lstrip (cs : list ascii) : list ascii :=
  match cs with
  | c :: rest => if is_space c then lstrip rest else cs
  | [] => []
  end.

Definition strip (cs : list ascii) : list ascii :=
  rev (lstrip (rev (lstrip cs))).

Definition digit_of (c : ascii) : option Z :=
  let n := Z.of_nat (nat_of_ascii c) in
  if ((48 <=? n) && (n <=? 57))%bool then Some (n - 48) else None.

(** Decimal digits, single underscores allowed between two digits. *)
Fixpoint int_digits (acc : Z) (after_digit : bool) (cs : list ascii) : option Z :=
  match cs with
  | [] => if after_digit then Some acc else None
  | c :: rest =>
      match digit_of c with
      | Some d => int_digits (10 * acc + d) true rest
      | None =>
          if (Ascii.eqb c "_" && after_digit)%bool
          then int_digits acc false rest
          else None
      end
  end.

(** [int(s)]; [None] stands for [ValueError]. *)
Definition py_int (s : string) : option Z :=
  match strip (list_ascii_of_string s) with
  | "+"%char :: rest => int_digits 0 false rest
  | "-"%char :: rest => option_map Z.opp (int_digits 0 false rest)
  | cs => int_digits 0 false cs
  end.

Definition str_of_int (n : Z) : string :=
  NilZero.string_of_int (Z.to_int n).

Section Str.

(** [repr] of a float, a list or a dict: the part of [str] that is not
    written out here. *)
Variable py_repr : json -> string.

(** [str(v)]. *)
Definition py_str (v : json) : string :=
  match v with
  | JStr s => s
  | JInt n => str_of_int n
  | JNull => "None"
  | JBool true => "True"
  | JBool false => "False"
  | _ => py_repr v
  end.

End Str.

(** *** Text columns holding JSON

    [order_queue.items] is a Text column written with [json.dumps] and read
    with [json.loads]. The model keeps the value [json.loads] gives on the
    text, or [NotJson] when it raises (NULL, or text that is not JSON). *)
Inductive json_text : Type :=
| Dumps (v : json)
| NotJson.

Definition json_dumps (v : json) : json_text := Dumps v.

Definition json_loads (t : json_text) : result json :=
  match t with
  | Dumps v => Ok v
  | NotJson => Raise JSONDecodeError
  end.

End Py.
Import Py.


(** ** models.py *)

Module ShelfMapping.

Record t : Type := mk {
  shelf_number : Z;              (* primary key, CHECK 1..40 *)
  sku : option string;
  product_name : option string;
  current_stock : Z;
  active : bool;
  last_updated : Z
}.

End ShelfMapping.

Module OrderQueue.

Record t : Type := mk {
  id : string;                         (* primary key *)
  order_type : option string;
  shopify_order_id : option string;    (* unique *)
  shopify_order_number : json;         (* kept as assigned *)
  items : json_text;
  status : option string;
  pickup_code : option string;
  test_order : bool;
  created_at : Z;
  processed_at : option Z;
  completed_at : option Z
}.

Definition with_status (s : option string) (o : t) : t :=
  mk (id o) (order_type o) (shopify_order_id o) (shopify_order_number o)
     (items o) s (pickup_code o) (test_order o) (created_at o)
     (processed_at o) (completed_at o).

Definition with_processed_at (d : option Z) (o : t) : t :=
  mk (id o) (order_type o) (shopify_order_id o) (shopify_order_number o)
     (items o) (status o) (pickup_code o) (test_order o) (created_at o)
     d (completed_at o).

Definition with_completed_at (d : option Z) (o : t) : t :=
  mk (id o) (order_type o) (shopify_order_id o) (shopify_order_number o)
     (items o) (status o) (pickup_code o) (test_order o) (created_at o)
     (processed_at o) d.

End OrderQueue.

Module ProductMetadata.

Record t : Type := mk {
  sku : string;                  (* primary key *)
  box_size : option string;      (* CHECK 'small', 'medium', 'large' *)
  dimensions_cm : json;
  max_stack : option Z;
  created_at : Z;
  updated_at : Z
}.

End ProductMetadata.

(** ** The queries and commits the handlers issue

    A table is the list of its rows in insertion order. A query without
    [order_by] returns the rows by rowid: in insertion order for
    [order_queue], by [shelf_number] for [shelf_mappings]; [order_by] is
    stable. *)

Module Db.

Import OrderQueue.

Definition opt_eqb (a b : option string) : bool :=
  match a, b with
  | Some x, Some y => String.eqb x y
  | None, None => true
  | _, _ => false
  end.

Definition has_id (key : string) (o : OrderQueue.t) : bool :=
  String.eqb (id o) key.

(** [CheckConstraint("status IN ('pending', 'processing', 'completed',
    'failed')")]; NULL passes a CHECK. *)
Definition valid_status (s : option string) : bool :=
  match s with
  | None => true
  | Some s =>
      existsb (String.eqb s) ["pending"; "processing"; "completed"; "failed"]
  end.

(** [CheckConstraint("order_type IN ('kiosk', 'wolt')")]. *)
Definition valid_order_type (s : option string) : bool :=
  match s with
  | None => true
  | Some s => existsb (String.eqb s) ["kiosk"; "wolt"]
  end.

(** The primary key holds: no two rows share an id. *)
Fixpoint pk_unique (tbl : list OrderQueue.t) : bool :=
  match tbl with
  | [] => true
  | o :: rest => (negb (existsb (has_id (id o)) rest) && pk_unique rest)%bool
  end.

(** [OrderQueue.query.get_or_404(order_id)]. *)
Definition get_or_404 (order_id : string) (tbl : list OrderQueue.t)
  : result OrderQueue.t :=
  match find (has_id order_id) tbl with
  | Some o => Ok o
  | None => Raise NotFound
  end.

(** [filter_by(status='pending')]. *)
Definition is_pending (o : OrderQueue.t) : bool :=
  opt_eqb (status o) (Some "pending").

(** [order_by(OrderQueue.created_at)]: a stable sort, ascending. *)
Fixpoint insert_by_created_at (o : OrderQueue.t) (sorted : list OrderQueue.t)
  : list OrderQueue.t :=
  match sorted with
  | [] => [o]
  | x :: rest =>
      if created_at o <=? created_at x then o :: sorted
      else x :: insert_by_created_at o rest
  end.

Fixpoint order_by_created_at (rows : list OrderQueue.t) : list OrderQueue.t :=
  match rows with
  | [] => []
  | o :: rest => insert_by_created_at o (order_by_created_at rest)
  end.

(** [.first()]. *)
Definition first {A} (rows : list A) : option A := hd_error rows.

(** [filter_by(pickup_code=code, status='pending', order_type='wolt')];
    [column == None] is [column IS NULL]. *)
Definition matches_pickup (code : option string) (o : OrderQueue.t) : bool :=
  (opt_eqb (pickup_code o) code
   && opt_eqb (status o) (Some "pending")
   && opt_eqb (order_type o) (Some "wolt"))%bool.

(** A scan of [shelf_mappings]: [shelf_number] is an INTEGER PRIMARY KEY,
    hence the rowid, and the rows come lowest shelf number first, whenever
    they were inserted. *)
Fixpoint insert_by_shelf_number (s : ShelfMapping.t)
  (sorted : list ShelfMapping.t) : list ShelfMapping.t :=
  match sorted with
  | [] => [s]
  | x :: rest =>
      if ShelfMapping.shelf_number s <=? ShelfMapping.shelf_number x
      then s :: sorted
      else x :: insert_by_shelf_number s rest
  end.

Fixpoint by_shelf_number (rows : list ShelfMapping.t) : list ShelfMapping.t :=
  match rows with
  | [] => []
  | s :: rest => insert_by_shelf_number s (by_shelf_number rest)
  end.

(** The order of that scan. *)
Definition lower_shelf (a b : ShelfMapping.t) : Prop :=
  ShelfMapping.shelf_number a <= ShelfMapping.shelf_number b.

(** [filter_by(sku=sku, active=True)] on [shelf_mappings]. *)
Definition is_active_shelf_of (sku : option string) (s : ShelfMapping.t)
  : bool :=
  (opt_eqb (ShelfMapping.sku s) sku && ShelfMapping.active s)%bool.

(** [ShelfMapping.query.filter_by(sku=sku, active=True).first()]: of the
    active rows with that SKU, the one with the lowest shelf number. *)
Definition first_active_shelf (shelves : list ShelfMapping.t)
  (sku : option string) : option ShelfMapping.t :=
  first (filter (is_active_shelf_of sku) (by_shelf_number shelves)).

(** A Python value bound to a String column, in a query or in an UPDATE: a
    str or None goes through. What a driver does with a number, a list or a
    dict depends on the database; the model takes the strict reading, an
    error. *)
Definition bind_text (v : json) : result (option string) :=
  match v with
  | JStr s => Ok (Some s)
  | JNull => Ok None
  | _ => Raise DBAPIError
  end.

(** [db.session.commit()] after attributes of a loaded row were set: an
    UPDATE of the row with that primary key. The handlers write [status] and
    the two timestamps only, so [valid_status] is the constraint at stake.
    [replaced] is the UPDATE, [commit_update] the commit. *)
Definition replaced (o : OrderQueue.t) (tbl : list OrderQueue.t)
  : list OrderQueue.t :=
  map (fun r => if has_id (id o) r then o else r) tbl.

Definition commit_update (o : OrderQueue.t) (tbl : list OrderQueue.t)
  : result (list OrderQueue.t) :=
  if valid_status (status o)
  then Ok (replaced o tbl)
  else Raise (IntegrityError "valid_status").

(** [db.session.add(o); db.session.commit()]: an INSERT. *)
Definition commit_insert (o : OrderQueue.t) (tbl : list OrderQueue.t)
  : result (list OrderQueue.t) :=
  if existsb (has_id (id o)) tbl then
    Raise (IntegrityError "order_queue.id")
  else if
    match shopify_order_id o with
    | Some r => existsb (fun x => opt_eqb (shopify_order_id x) (Some r)) tbl
    | None => false
    end
  then Raise (IntegrityError "order_queue.shopify_order_id")
  else if negb (valid_order_type (order_type o)) then
    Raise (IntegrityError "valid_order_type")
  else if negb (valid_status (status o)) then
    Raise (IntegrityError "valid_status")
  else Ok (tbl ++ [o]).

End Db.

(** ** utils.py *)

Module Utils.

(** A datetime rendered by [strftime]: kept as the format and the datetime. *)
Record stamp : Type := { format : string; moment : Z }.

(** [f"K{timestamp}"]. *)
Inductive order_number : Type :=
| K (timestamp : stamp).

Definition get_next_order_number (now : Z) : order_number :=
  K {| format := "%Y%m%d%H%M%S"; moment := now |}.

(** The dict handed to [save_order_to_queue]. A key that one of the two
    callers leaves out is an option field; datetimes written with
    [isoformat] are kept as datetimes. *)
Record QueueData : Type := {
  q_order_id : string;
  q_order_type : string;
  q_shopify_order_id : option string;
  q_shopify_order_number : json;
  q_items : json;
  q_shelf_numbers : option (list Z);
  q_pickup_code : option (option string);
  q_created_at : Z;
  q_processing_at : option Z;
  q_test_order : option bool
}.

(** [./orders/{status}/{timestamp}_{order_id}.json]. *)
Record path : Type := {
  directory : string;
  timestamp : stamp;
  order_id : string
}.

Definition path_eqb (a b : path) : bool :=
  (String.eqb (directory a) (directory b)
   && String.eqb (format (timestamp a)) (format (timestamp b))
   && (moment (timestamp a) =? moment (timestamp b))
   && String.eqb (order_id a) (order_id b))%bool.

(** The [./orders] tree: one entry per file, newest first. *)
Definition tree : Type := list (path * QueueData).

(** [save_order_to_queue(order_data, status)]: writes (or overwrites) the
    file and returns its path; when the write raises, logs and returns
    [None]. [disk_ok] says whether the write goes through. *)
Definition save_order_to_queue (disk_ok : bool) (now : Z)
  (order_data : QueueData) (status : string) (fs : tree)
  : option path * tree :=
  let filepath :=
    {| directory := status;
       timestamp := {| format := "%Y%m%d_%H%M%S"; moment := now |};
       order_id := q_order_id order_data |} in
  if disk_ok
  then (Some filepath,
        (filepath, order_data)
          :: filter (fun e => negb (path_eqb (fst e) filepath)) fs)
  else (None, fs).

(** [load_order_from_queue(filepath)]: the content of the file, [None] when
    opening it raises. *)
Definition load_order_from_queue (filepath : path) (fs : tree)
  : option QueueData :=
  option_map snd (find (fun e => path_eqb (fst e) filepath) fs).

(** [create_order_directories()]: the directories it makes under
    [./orders]. Nothing else in the program makes a directory, and nothing
    removes one. *)
Definition create_order_directories : list string :=
  ["pending"; "processing"; "completed"; "archive"].

(** Whether [./orders/{status}] is a directory when [./orders] holds the
    directories of [create_order_directories] and no other, for a status
    that is a plain name (not empty, no separator, not a dot name). *)
Definition order_directory (status : string) : bool :=
  existsb (String.eqb status) create_order_directories.

(** [move_order_file(src_path, dest_status)]: [os.rename] to the same file
    name under [./orders/{dest_status}], replacing a file already there.
    [os.rename] raises, and the function returns [None] with every file
    where it was, when the source does not exist or when the destination
    directory does not; [isdir status] says whether [./orders/{status}] is a
    directory. *)
Definition move_order_file (isdir : string -> bool) (src_path : path)
  (dest_status : string) (fs : tree) : option path * tree :=
  let dest_path :=
    {| directory := dest_status;
       timestamp := timestamp src_path;
       order_id := order_id src_path |} in
  match load_order_from_queue src_path fs with
  | None => (None, fs)
  | Some data =>
      if isdir dest_status
      then
        (Some dest_path,
         (dest_path, data)
           :: filter (fun e => (negb (path_eqb (fst e) src_path)
                                && negb (path_eqb (fst e) dest_path))%bool) fs)
      else (None, fs)
  end.

(** [int(x)] on a float: truncation towards zero; [nan] raises ValueError
    and an infinity OverflowError. *)
Inductive int_outcome : Type :=
| IntOk (n : Z)
| IntValueError
| IntTypeError
| IntOverflowError.

Definition int_of_float (f : float) : int_outcome :=
  match Prim2SF f with
  | S754_zero _ => IntOk 0
  | S754_finite negative m e =>
      let magnitude :=
        if 0 <=? e then Z.pos m * 2 ^ e else Z.pos m / 2 ^ (- e) in
      IntOk (if negative then - magnitude else magnitude)
  | S754_infinity _ => IntOverflowError
  | S754_nan => IntValueError
  end.

(** [int(x)] on any value. *)
Definition int_of (x : json) : int_outcome :=
  match x with
  | JInt n => IntOk n
  | JBool b => IntOk (if b then 1 else 0)
  | JStr s =>
      match py_int s with
      | Some n => IntOk n
      | None => IntValueError
      end
  | JFloat f => int_of_float f
  | JNull | JArr _ | JObj _ => IntTypeError
  end.

(** [validate_shelf_number(shelf_number)]. ValueError and TypeError are
    caught and give [False]; an OverflowError is not caught and leaves the
    function ([None]). *)
Definition validate_shelf_number (shelf_number : json) : option bool :=
  match int_of shelf_number with
  | IntOk shelf => Some ((1 <=? shelf) && (shelf <=? 40))%bool
  | IntValueError | IntTypeError => Some false
  | IntOverflowError => None
  end.

(** A str where the code counts its characters: the sequence of its code
    points. [re.sub] replaces and a slice cuts by character, not by byte of
    an encoding. *)
Definition str : Type := list N.

(** The str of a text written in ASCII. *)
Definition str_of_ascii (text : string) : str :=
  map N_of_ascii (list_ascii_of_string text).

(** The characters [sanitize_filename] replaces, by code point: less-than
    (60), greater-than (62), colon (58), double quote (34), slash (47),
    backslash (92), bar (124), question mark (63) and star (42). *)
Definition unsafe_char (c : N) : bool :=
  existsb (N.eqb c) [60; 62; 58; 34; 47; 92; 124; 63; 42]%N.

(** [sanitize_filename(filename)]: [re.sub] with an underscore (95), then
    the first 100 characters. *)
Definition sanitize_filename (filename : str) : str :=
  firstn 100 (map (fun c => if unsafe_char c then 95%N else c) filename).

(** The loop of [retry_operation] over the attempts left. [func k] is what
    the call of attempt [k] does; [slept] collects the arguments of
    [time.sleep], which raises ValueError on a negative one. Falling out of
    the loop returns [None]. *)
Fixpoint retry_loop {A} (func : nat -> result A) (max_retries delay : Z)
  (attempts : list nat) (slept : list Z) : result (option A) * list Z :=
  match attempts with
  | [] => (Ok None, slept)
  | attempt :: rest =>
      match func attempt with
      | Ok a => (Ok (Some a), slept)
      | Raise e =>
          if Z.of_nat attempt =? max_retries - 1 then (Raise e, slept)
          else
            let wait_time := delay * 2 ^ Z.of_nat attempt in
            if wait_time <? 0 then (Raise ValueError, slept)
            else retry_loop func max_retries delay rest (slept ++ [wait_time])
      end
  end.

(** [retry_operation(func, max_retries=3, delay=1)]: what it returns or
    raises, and the sleeps it took. *)
Definition retry_operation {A} (func : nat -> result A)
  (max_retries delay : Z) : result (option A) * list Z :=
  retry_loop func max_retries delay (seq 0 (Z.to_nat max_retries)) [].

End Utils.

(** ** shopify_client.py *)

Module Shopify.

(** The requests the two order methods send. A line item of [PostOrders] is
    (variant id, quantity, price); the price goes out as [str(price)]. *)
Inductive call : Type :=
| PostOrders (line_items : list (Z * Z * float)) (location_id : Z)
             (order_type : string)
| GetOrder (order_id : string)
| PostFulfillments (order_id : string) (line_items : list (json * json))
                   (location_id : Z).

(** What [requests] gives back: an exception, or a response whose body
    [response.json()] decodes. *)
Inductive response : Type :=
| Failed
| Response (status_code : Z) (body : json_text).

Record Client : Type := {
  location_id : string;            (* SHOPIFY_LOCATION_ID *)
  requests : call -> response      (* the network, as the client meets it *)
}.

Record CartItem : Type := {
  sku : option string;
  title : option string;
  price : float;
  quantity : Z
}.

(** The loop of [create_order] over [cart_items.items()]. *)
Fixpoint order_line_items (cart_items : list (string * CartItem))
  : result (list (Z * Z * float)) :=
  match cart_items with
  | [] => Ok []
  | (product_id, item) :: rest =>
      match py_int product_id with
      | None => Raise ValueError
      | Some variant_id =>
          line_items <- order_line_items rest ;;
          Ok ((variant_id, quantity item, price item) :: line_items)
      end
  end.

(** [create_order(cart_items, order_type)]: the requests sent and the
    order returned, [None] on any failure. *)
Definition create_order (c : Client) (cart_items : list (string * CartItem))
  (order_type : string) : list call * option json :=
  match order_line_items cart_items with
  | Raise _ => ([], None)
  | Ok line_items =>
      match py_int (location_id c) with
      | None => ([], None)
      | Some location =>
          let post := PostOrders line_items location order_type in
          ([post],
           match requests c post with
           | Failed => None
           | Response status_code body =>
               if status_code =? 201 then
                 match
                   (b <- json_loads body ;;
                    order <- getitem b "order" ;;
                    _ <- getitem order "order_number" ;;  (* logged *)
                    Ok order)
                 with
                 | Ok order => Some order
                 | Raise _ => None
                 end
               else None
           end)
      end
  end.

(** The loop of [fulfill_order] over [order['line_items']]. *)
Fixpoint fulfillment_line_items (items : list json)
  : result (list (json * json)) :=
  match items with
  | [] => Ok []
  | item :: rest =>
      i <- getitem item "id" ;;
      q <- getitem item "quantity" ;;
      line_items <- fulfillment_line_items rest ;;
      Ok ((i, q) :: line_items)
  end.

(** [fulfill_order(order_id)]: the requests sent and the boolean returned;
    every exception is caught and turned into [False]. *)
Definition fulfill_order (c : Client) (order_id : string)
  : list call * bool :=
  let get := GetOrder order_id in
  match requests c get with
  | Failed => ([get], false)
  | Response status_code body =>
      if negb (status_code =? 200) then ([get], false)
      else
        match
          (b <- json_loads body ;;
           order <- getitem b "order" ;;
           l <- getitem order "line_items" ;;
           items <- iter l ;;
           fulfillment_line_items items)
        with
        | Raise _ => ([get], false)
        | Ok line_items =>
            match py_int (location_id c) with
            | None => ([get], false)
            | Some location =>
                let post := PostFulfillments order_id line_items location in
                ([get; post],
                 match requests c post with
                 | Failed => false
                 | Response status_code _ => status_code =? 201
                 end)
            end
        end
  end.

(** [get_order(order_id)]: the request sent and the order, [None] on any
    failure. *)
Definition get_order (c : Client) (order_id : string)
  : list call * option json :=
  let get := GetOrder order_id in
  ([get],
   match requests c get with
   | Failed => None
   | Response status_code body =>
       if status_code =? 200 then
         match (b <- json_loads body ;; getitem b "order") with
         | Ok order => Some order
         | Raise _ => None
         end
       else None
   end).

(** *** The product cache *)

(** [_product_cache] (product id -> product, in insertion order) and
    [_cache_timestamp]. Datetimes count microseconds here. *)
Record Cache : Type := {
  product_cache : list (string * json);
  cache_timestamp : option Z
}.

(** [self._cache_duration]: 5 minutes. *)
Definition cache_duration : Z := 300.

(** [timedelta.seconds]: the seconds of the difference within its day. *)
Definition timedelta_seconds (microseconds : Z) : Z :=
  (microseconds mod 86400000000) / 1000000.

(** [_is_cache_valid()]. *)
Definition _is_cache_valid (now : Z) (cache : Cache) : bool :=
  match cache_timestamp cache, product_cache cache with
  | None, _ => false
  | Some _, [] => false
  | Some stamp, _ :: _ => timedelta_seconds (now - stamp) <? cache_duration
  end.

(** [clear_cache()]. *)
Definition clear_cache (cache : Cache) : Cache :=
  {| product_cache := []; cache_timestamp := None |}.

(** [d[key] = v] on a dict. *)
Fixpoint dict_set (key : string) (v : json) (kvs : list (string * json))
  : list (string * json) :=
  match kvs with
  | [] => [(key, v)]
  | (k, old) :: rest =>
      if String.eqb k key then (k, v) :: rest
      else (k, old) :: dict_set key v rest
  end.

(** [s.split('/')[-1]]: what follows the last slash. *)
Fixpoint last_segment (s : string) : string :=
  match s with
  | EmptyString => EmptyString
  | String c rest =>
      if existsb (Ascii.eqb "/") (list_ascii_of_string rest)
      then last_segment rest
      else if Ascii.eqb c "/" then rest else s
  end.

(** [x > 0]. *)
Definition positive (x : json) : result bool :=
  match x with
  | JInt n => Ok (0 <? n)
  | JFloat f => Ok (PrimFloat.ltb 0 f)
  | JBool b => Ok b
  | _ => Raise TypeError
  end.

(** [x[0]]. *)
Definition first_item (x : json) : result json :=
  match x with
  | JArr (v :: _) => Ok v
  | JStr (String c _) => Ok (JStr (String c EmptyString))
  | JObj _ => Raise (KeyError "0")
  | _ => Raise TypeError
  end.

(** The GraphQL request of [get_products], by the location it asks for. *)
Inductive query : Type :=
| ProductsWithInventory (location_gid : string).

Section Products.

(** [float(x)] for [x] that is not a float, [None] when it raises: not
    written out here. *)
Variable py_float : json -> option float.

Definition float_of (x : json) : result float :=
  match x with
  | JFloat f => Ok f
  | _ =>
      match py_float x with
      | Some f => Ok f
      | None => Raise ValueError
      end
  end.

(** One turn of the loop of [get_products]: the product of an inventory
    level that has stock, [None] for one that has not. *)
Definition product_of_edge (edge : json) : result (option (string * json)) :=
  node <- getitem edge "node" ;;
  available <- getitem node "available" ;;
  in_stock <- positive available ;;
  if in_stock then
    item <- getitem node "item" ;;
    variant <- getitem item "variant" ;;
    product <- getitem variant "product" ;;
    images <- getitem product "images" ;;
    edges <- getitem images "edges" ;;
    image_url <-
      (if truthy edges then
         images' <- getitem product "images" ;;
         edges' <- getitem images' "edges" ;;
         image <- first_item edges' ;;
         image_node <- getitem image "node" ;;
         getitem image_node "url"
       else Ok JNull) ;;
    variant_id <- getitem variant "id" ;;
    product_id <-
      match variant_id with
      | JStr gid => Ok (last_segment gid)
      | _ => Raise AttributeError
      end ;;
    sku <- getitem item "sku" ;;
    title <- getitem product "title" ;;
    variant_title <- getitem variant "title" ;;
    description <- getitem product "description" ;;
    price_text <- getitem variant "price" ;;
    price <- float_of price_text ;;
    Ok (Some (product_id,
              JObj [ ("id", JStr product_id);
                     ("sku", sku);
                     ("title", title);
                     ("variant_title", variant_title);
                     ("description", description);
                     ("price", JFloat price);
                     ("available", available);
                     ("image_url", image_url) ]))
  else Ok None.

(** The loop of [get_products]: the products collected and the cache as
    the loop leaves it, also when a turn raises. *)
Fixpoint collect_products (edges : list json) (products : list json)
  (cached : list (string * json))
  : result (list json) * list (string * json) :=
  match edges with
  | [] => (Ok products, cached)
  | edge :: rest =>
      match product_of_edge edge with
      | Raise e => (Raise e, cached)
      | Ok None => collect_products rest products cached
      | Ok (Some (product_id, product_data)) =>
          collect_products rest (products ++ [product_data])
            (dict_set product_id product_data cached)
      end
  end.

(** [get_products()]: the requests sent, the products returned and the
    cache afterwards. [graphql] is the network for the query. *)
Definition get_products (now : Z) (location : string)
  (graphql : query -> response) (cache : Cache)
  : list query * list json * Cache :=
  if _is_cache_valid now cache
  then ([], map snd (product_cache cache), cache)
  else
    let post := ProductsWithInventory location in
    match graphql post with
    | Failed => ([post], [], cache)
    | Response status_code body =>
        if negb (status_code =? 200) then ([post], [], cache)
        else
          match json_loads body with
          | Raise _ => ([post], [], cache)
          | Ok (JObj kvs as data) =>
              match assoc "errors" kvs with
              | Some _ => ([post], [], cache)
              | None =>
                  match
                    (d <- getitem data "data" ;;
                     l <- getitem d "location" ;;
                     levels <- getitem l "inventoryLevels" ;;
                     edges <- getitem levels "edges" ;;
                     iter edges)
                  with
                  | Raise _ => ([post], [], cache)
                  | Ok inventory_levels =>
                      match
                        collect_products inventory_levels []
                          (product_cache cache)
                      with
                      | (Ok products, cached) =>
                          ([post], products,
                           {| product_cache := cached;
                              cache_timestamp := Some now |})
                      | (Raise _, cached) =>
                          ([post], [],
                           {| product_cache := cached;
                              cache_timestamp := cache_timestamp cache |})
                      end
                  end
              end
          | Ok _ => ([post], [], cache)   (* no data['data'] on a non-dict *)
          end
    end.

End Products.

End Shopify.

(** ** app.py *)

Module App.

Import OrderQueue Db Utils.

(** What a handler reads from outside the program during one request. *)
Record Env : Type := {
  now : Z;                           (* datetime.now() *)
  utcnow : Z;                        (* datetime.utcnow(), the column default *)
  uuid4 : string;                    (* str(uuid.uuid4()) *)
  disk_ok : bool;                    (* whether a file write goes through *)
  shopify_client : Shopify.Client
}.

(** The store: both tables, the [./orders] tree, and the requests sent to
    the Catalog Service so far, oldest first. *)
Record World : Type := {
  orders : list OrderQueue.t;
  shelves : list ShelfMapping.t;
  files : Utils.tree;
  remote : list Shopify.call
}.

Definition set_orders (tbl : list OrderQueue.t) (w : World) : World :=
  {| orders := tbl; shelves := shelves w; files := files w;
     remote := remote w |}.

Definition set_files (fs : Utils.tree) (w : World) : World :=
  {| orders := orders w; shelves := shelves w; files := fs;
     remote := remote w |}.

Definition sent (calls : list Shopify.call) (w : World) : World :=
  {| orders := orders w; shelves := shelves w; files := files w;
     remote := (remote w ++ calls) |}.

(** The part of the Flask session the checkout reads. *)
Record Session : Type := {
  cart : list (string * Shopify.CartItem);   (* product_id -> item *)
  test_mode : bool
}.

Definition translations_is : list (string * string) :=
  [ ("welcome", "Velkomin/n");
    ("tap_to_start", "Smelltu til að byrja");
    ("products", "Vörur");
    ("cart", "Karfa");
    ("checkout", "Greiða");
    ("total", "Samtals");
    ("add_to_cart", "Setja í körfu");
    ("remove", "Fjarlægja");
    ("order_complete", "Pöntun tókst");
    ("order_number", "Pöntunarnúmer");
    ("pickup_code", "Sóttkóði");
    ("enter_code", "Sláðu inn kóða");
    ("invalid_code", "Ógildur kóði");
    ("back", "Til baka");
    ("continue", "Halda áfram");
    ("price", "Verð");
    ("quantity", "Magn");
    ("empty_cart", "Tóm karfa");
    ("error", "Villa");
    ("try_again", "Reyndu aftur") ].

Definition translations_en : list (string * string) :=
  [ ("welcome", "Welcome");
    ("tap_to_start", "Tap to Start");
    ("products", "Products");
    ("cart", "Cart");
    ("checkout", "Checkout");
    ("total", "Total");
    ("add_to_cart", "Add to Cart");
    ("remove", "Remove");
    ("order_complete", "Order Complete");
    ("order_number", "Order Number");
    ("pickup_code", "Pickup Code");
    ("enter_code", "Enter Code");
    ("invalid_code", "Invalid Code");
    ("back", "Back");
    ("continue", "Continue");
    ("price", "Price");
    ("quantity", "Quantity");
    ("empty_cart", "Empty Cart");
    ("error", "Error");
    ("try_again", "Try Again") ].

Definition TRANSLATIONS : list (string * list (string * string)) :=
  [ ("is", translations_is); ("en", translations_en) ].

(** [get_translation(key, lang='is')]. *)
Definition get_translation (key lang : string) : string :=
  let table :=
    match assoc lang TRANSLATIONS with
    | Some t => t
    | None => translations_is
    end in
  match assoc key table with
  | Some text => text
  | None => key
  end.

(** What a kiosk route answers: a redirect with the message it flashed
    (text, category), or one of the two result pages. *)
Inductive page : Type :=
| Redirect (endpoint : string) (flashed : string * string)
| OrderComplete (number : Utils.order_number) (order_id : string)
| PickupConfirmed (number : json).

(** What an API route answers. [Error] is [{'status': 'error', 'message':
    str(e)}] with code 500, the others have code 200. *)
Inductive api : Type :=
| NoOrders
| NextOrder (order_id : string) (order_type : option string)
            (shelf_numbers : list Z) (items : json)
| Success
| Error (e : exn).

Definition status_code (r : api) : Z :=
  match r with
  | Error _ => 500
  | _ => 200
  end.

Definition opt_json (s : option string) : json :=
  match s with
  | Some s => JStr s
  | None => JNull
  end.

(** A cart item as the dict it is when the checkout reads the cart from the
    session: the session cookie is written with sorted keys. *)
Definition item_dict (item : Shopify.CartItem) : json :=
  JObj [ ("price", JFloat (Shopify.price item));
         ("quantity", JInt (Shopify.quantity item));
         ("sku", opt_json (Shopify.sku item));
         ("title", opt_json (Shopify.title item)) ].

(** The shelf loop of [complete_order]: one entry per cart line. *)
Fixpoint cart_shelf_numbers (shelf_table : list ShelfMapping.t)
  (items : list Shopify.CartItem) (shelf_numbers : list Z) : list Z :=
  match items with
  | [] => shelf_numbers
  | item :: rest =>
      match first_active_shelf shelf_table (Shopify.sku item) with
      | Some shelf =>
          cart_shelf_numbers shelf_table rest
            (shelf_numbers ++ [ShelfMapping.shelf_number shelf])
      | None => cart_shelf_numbers shelf_table rest shelf_numbers
      end
  end.

(** The shelf loop of [api_next_order]: [range(item['quantity'])] entries
    per item that has an active shelf. *)
Fixpoint next_shelf_numbers (shelf_table : list ShelfMapping.t)
  (items : list json) (shelf_numbers : list Z) : result (list Z) :=
  match items with
  | [] => Ok shelf_numbers
  | item :: rest =>
      sku <- getitem item "sku" ;;
      key <- bind_text sku ;;
      match first_active_shelf shelf_table key with
      | Some shelf =>
          q <- getitem item "quantity" ;;
          n <- py_range q ;;
          next_shelf_numbers shelf_table rest
            (shelf_numbers ++ repeat (ShelfMapping.shelf_number shelf) n)
      | None => next_shelf_numbers shelf_table rest shelf_numbers
      end
  end.

Section Handlers.

Variable py_repr : json -> string.

(** [POST /kiosk/complete_order]. *)
Definition complete_order (env : Env) (session : Session) (w : World)
  : page * Session * World :=
  let failed := Redirect "kiosk_checkout" (get_translation "error" "is", "error") in
  match cart session with
  | [] =>
      (Redirect "kiosk_products" (get_translation "empty_cart" "is", "warning"),
       session, w)
  | _ :: _ =>
      let (calls, created) :=
        Shopify.create_order (shopify_client env) (cart session) "kiosk" in
      let w := sent calls w in
      match created with
      | None => (failed, session, w)
      | Some order_data =>
          if negb (truthy order_data) then (failed, session, w)
          else
            let order_id := uuid4 env in
            let order_number := get_next_order_number (now env) in
            let shelf_numbers :=
              cart_shelf_numbers (shelves w) (map snd (cart session)) [] in
            match
              (i <- dict_get order_data "id" ;;
               n <- dict_get order_data "order_number" ;;
               Ok (py_str py_repr i, n))
            with
            | Raise _ => (failed, session, w)
            | Ok (remote_id, remote_number) =>
                let queue_data :=
                  {| q_order_id := order_id;
                     q_order_type := "kiosk";
                     q_shopify_order_id := Some remote_id;
                     q_shopify_order_number := remote_number;
                     q_items := JArr (map item_dict (map snd (cart session)));
                     q_shelf_numbers := Some shelf_numbers;
                     q_pickup_code := None;
                     q_created_at := now env;
                     q_processing_at := None;
                     q_test_order := Some (test_mode session) |} in
                let (_, fs) :=
                  save_order_to_queue (disk_ok env) (now env) queue_data
                    "pending" (files w) in
                let w := set_files fs w in
                let db_order :=
                  OrderQueue.mk order_id (Some "kiosk") (Some remote_id)
                    remote_number
                    (json_dumps (JArr (map item_dict (map snd (cart session)))))
                    (Some "pending") None (test_mode session) (utcnow env)
                    None None in
                match commit_insert db_order (orders w) with
                | Raise _ => (failed, session, w)
                | Ok tbl =>
                    (OrderComplete order_number order_id,
                     {| cart := []; test_mode := test_mode session |},
                     set_orders tbl w)
                end
            end
      end
  end.

End Handlers.

(** [POST /kiosk/verify_pickup]. *)
Definition verify_pickup (env : Env) (pickup_code : option string) (w : World)
  : page * World :=
  let failed := Redirect "wolt_pickup" (get_translation "error" "is", "error") in
  match first (filter (matches_pickup pickup_code) (orders w)) with
  | None =>
      (Redirect "wolt_pickup" (get_translation "invalid_code" "is", "error"), w)
  | Some order =>
      let order := with_status (Some "processing") order in
      match commit_update order (orders w) with
      | Raise _ => (failed, w)
      | Ok tbl =>
          let w := set_orders tbl w in
          match json_loads (items order) with
          | Raise _ => (failed, w)
          | Ok decoded =>
              let queue_data :=
                {| q_order_id := id order;
                   q_order_type := "wolt";
                   q_shopify_order_id := shopify_order_id order;
                   q_shopify_order_number := shopify_order_number order;
                   q_items := decoded;
                   q_shelf_numbers := None;
                   q_pickup_code := Some pickup_code;
                   q_created_at := created_at order;
                   q_processing_at := Some (now env);
                   q_test_order := None |} in
              let (_, fs) :=
                save_order_to_queue (disk_ok env) (now env) queue_data
                  "processing" (files w) in
              (PickupConfirmed (shopify_order_number order), set_files fs w)
          end
      end
  end.

(** The block "Get shelf numbers for items" of [api_next_order]: the decoded
    items and their shelf numbers. *)
Definition items_and_shelf_numbers (shelf_table : list ShelfMapping.t)
  (order : OrderQueue.t) : result (json * list Z) :=
  decoded <- json_loads (items order) ;;
  each <- iter decoded ;;
  shelf_numbers <- next_shelf_numbers shelf_table each [] ;;
  Ok (decoded, shelf_numbers).

(** [GET /api/orders/next]. *)
Definition api_next_order (env : Env) (w : World) : api * World :=
  match first (order_by_created_at (filter is_pending (orders w))) with
  | None => (NoOrders, w)
  | Some order =>
      let order :=
        with_processed_at (Some (now env))
          (with_status (Some "processing") order) in
      match commit_update order (orders w) with
      | Raise e => (Error e, w)
      | Ok tbl =>
          let w := set_orders tbl w in
          match items_and_shelf_numbers (shelves w) order with
          | Raise e => (Error e, w)
          | Ok (decoded, shelf_numbers) =>
              (NextOrder (id order) (order_type order) shelf_numbers decoded, w)
          end
      end
  end.

(** [POST /api/orders/<order_id>/complete]. The boolean [fulfill_order]
    returns is dropped, as in the source. *)
Definition api_complete_order (env : Env) (order_id : string) (w : World)
  : api * World :=
  match get_or_404 order_id (orders w) with
  | Raise e => (Error e, w)
  | Ok order =>
      let w :=
        match shopify_order_id order with
        | Some remote_id =>
            if truthy_str (shopify_order_id order)
            then sent (fst (Shopify.fulfill_order (shopify_client env) remote_id)) w
            else w
        | None => w
        end in
      let order :=
        with_completed_at (Some (now env))
          (with_status (Some "completed") order) in
      match commit_update order (orders w) with
      | Raise e => (Error e, w)
      | Ok tbl => (Success, set_orders tbl w)
      end
  end.

(** The requests [api_complete_order] sends for a row: those of
    [fulfill_order] when [shopify_order_id] is a non-empty string. *)
Definition fulfillment_calls (env : Env) (o : OrderQueue.t)
  : list Shopify.call :=
  match shopify_order_id o with
  | Some remote_id =>
      if truthy_str (shopify_order_id o)
      then fst (Shopify.fulfill_order (shopify_client env) remote_id)
      else []
  | None => []
  end.

(** [POST /api/orders/<order_id>/status] with the decoded JSON body. *)
Definition api_update_order_status (env : Env) (order_id : string)
  (body : json) (w : World) : api * World :=
  match
    (order <- get_or_404 order_id (orders w) ;;
     status <- dict_get body "status" ;;
     _ <- dict_get body "message" ;;
     column <- bind_text status ;;
     let order := with_status column order in
     let order :=
       if opt_eqb column (Some "completed")
       then with_completed_at (Some (now env)) order
       else if opt_eqb column (Some "processing")
       then with_processed_at (Some (now env)) order
       else order in
     commit_update order (orders w))
  with
  | Raise e => (Error e, w)
  | Ok tbl => (Success, set_orders tbl w)
  end.

(** *** Sequences of requests *)

Inductive request : Type :=
| CompleteOrder (session : Session)
| VerifyPickup (pickup_code : option string)
| ApiNextOrder
| ApiCompleteOrder (order_id : string)
| ApiUpdateOrderStatus (order_id : string) (body : json).

(** The store after one request. *)
Definition handle (py_repr : json -> string) (env : Env) (r : request)
  (w : World) : World :=
  match r with
  | CompleteOrder session => snd (complete_order py_repr env session w)
  | VerifyPickup code => snd (verify_pickup env code w)
  | ApiNextOrder => snd (api_next_order env w)
  | ApiCompleteOrder order_id => snd (api_complete_order env order_id w)
  | ApiUpdateOrderStatus order_id body =>
      snd (api_update_order_status env order_id body w)
  end.

(** The store after a sequence of requests, each with its environment. *)
Fixpoint run (py_repr : json -> string) (rs : list (Env * request))
  (w : World) : World :=
  match rs with
  | [] => w
  | (env, r) :: rest => run py_repr rest (handle py_repr env r w)
  end.

(** *** Cart routes *)

Definition add_quantity (n : Z) (item : Shopify.CartItem) : Shopify.CartItem :=
  {| Shopify.sku := Shopify.sku item;
     Shopify.title := Shopify.title item;
     Shopify.price := Shopify.price item;
     Shopify.quantity := Shopify.quantity item + n |}.

(** The update of [session['cart']] in [add_to_cart]: the quantity of a
    product already in the cart grows, a new product goes to the end. *)
Fixpoint cart_add (product_id : string) (item : Shopify.CartItem)
  (cart_items : list (string * Shopify.CartItem))
  : list (string * Shopify.CartItem) :=
  match cart_items with
  | [] => [(product_id, item)]
  | (key, present) :: rest =>
      if String.eqb key product_id
      then (key, add_quantity (Shopify.quantity item) present) :: rest
      else (key, present) :: cart_add product_id item rest
  end.

Section Cart.

(** [float(s)] on a str, [None] for ValueError: not written out here. *)
Variable py_float : string -> option float.

(** [POST /kiosk/add_to_cart], for a form that carries [product_id]; the
    other fields are what [request.form.get] gives. The answer is always
    the redirect to the product page: the result is the message flashed, if
    any, and the session afterwards. *)
Definition add_to_cart (product_id : string)
  (sku title price quantity : option string) (session : Session)
  : option (string * string) * Session :=
  let failed := Some (get_translation "error" "is", "error") in
  match price with
  | None => (failed, session)                      (* float(None) *)
  | Some price_text =>
      match py_float price_text with
      | None => (failed, session)
      | Some price_value =>
          match
            match quantity with
            | None => Some 1                        (* int(1) *)
            | Some quantity_text => py_int quantity_text
            end
          with
          | None => (failed, session)
          | Some quantity_value =>
              let item :=
                {| Shopify.sku := sku; Shopify.title := title;
                   Shopify.price := price_value;
                   Shopify.quantity := quantity_value |} in
              (None,
               {| cart := cart_add product_id item (cart session);
                  test_mode := test_mode session |})
          end
      end
  end.

End Cart.

(** [POST /kiosk/remove_from_cart]: the cart afterwards. *)
Definition remove_from_cart (product_id : option string) (session : Session)
  : Session :=
  match product_id with
  | None => session
  | Some key =>
      {| cart := filter (fun entry => negb (String.eqb (fst entry) key))
                        (cart session);
         test_mode := test_mode session |}
  end.

(** *** Admin routes *)

(** [check_shelf_compatibility(shelf_number, box_size)]. *)
Definition check_shelf_compatibility (shelf_number : Z)
  (box_size : option string) : bool :=
  if opt_eqb box_size (Some "small")
  then ((1 <=? shelf_number) && (shelf_number <=? 15))%bool
  else if opt_eqb box_size (Some "medium")
  then ((16 <=? shelf_number) && (shelf_number <=? 30))%bool
  else if opt_eqb box_size (Some "large")
  then ((31 <=? shelf_number) && (shelf_number <=? 40))%bool
  else false.

(** What [POST /admin/shelves/assign] answers: the redirect to the login
    page, the success body (200), the compatibility error (400), or the
    error body of the [except] branch (500). *)
Inductive assign_answer : Type :=
| ToLogin
| Assigned (shelf_number : Z)
| NotCompatible
| AssignError (e : exn).

(** [CheckConstraint('shelf_number BETWEEN 1 AND 40')]. *)
Definition shelf_number_range (shelf_number : Z) : bool :=
  ((1 <=? shelf_number) && (shelf_number <=? 40))%bool.

(** The block "Check if shelf exists" of [assign_shelf]: the row with that
    number gets the SKU, the name, [active] and the time; without such a row
    a new one is added, with no stock. *)
Definition upsert_shelf (env : Env) (shelf_number : Z)
  (sku product_name : option string) (shelf_table : list ShelfMapping.t)
  : list ShelfMapping.t :=
  let is_shelf (s : ShelfMapping.t) :=
    ShelfMapping.shelf_number s =? shelf_number in
  match first (filter is_shelf shelf_table) with
  | Some _ =>
      map (fun s =>
             if is_shelf s
             then ShelfMapping.mk (ShelfMapping.shelf_number s) sku
                    product_name (ShelfMapping.current_stock s) true (now env)
             else s) shelf_table
  | None =>
      shelf_table ++
      [ShelfMapping.mk shelf_number sku product_name 0 true (utcnow env)]
  end.

(** The metadata [assign_shelf] creates for a SKU that has none. *)
Definition default_metadata (env : Env) (sku : string) : ProductMetadata.t :=
  ProductMetadata.mk sku (Some "medium")
    (JObj [("width", JInt 20); ("height", JInt 20); ("depth", JInt 20)])
    (Some 10) (utcnow env) (utcnow env).

(** The POST branch of [assign_shelf]: the answer and both tables
    afterwards. Metadata created for the SKU is kept only when the request
    reaches its commit; creating it for a missing SKU (a NULL primary key)
    raises at the flush before the shelf query. *)
Definition assign_shelf (env : Env) (admin_logged_in : bool)
  (form_shelf_number form_sku form_product_name : option string)
  (shelf_table : list ShelfMapping.t) (metadata : list ProductMetadata.t)
  : assign_answer * list ShelfMapping.t * list ProductMetadata.t :=
  if negb admin_logged_in then (ToLogin, shelf_table, metadata)
  else
    match form_shelf_number with
    | None => (AssignError TypeError, shelf_table, metadata)
    | Some text =>
        match py_int text with
        | None => (AssignError ValueError, shelf_table, metadata)
        | Some shelf_number =>
            let found :=
              first (filter (fun m => opt_eqb (Some (ProductMetadata.sku m))
                                              form_sku) metadata) in
            let box_size :=
              match found with
              | Some meta => ProductMetadata.box_size meta
              | None => Some "medium"
              end in
            if negb (check_shelf_compatibility shelf_number box_size)
            then (NotCompatible, shelf_table, metadata)
            else
              match
                match found, form_sku with
                | Some _, _ => Ok metadata
                | None, Some sku => Ok (metadata ++ [default_metadata env sku])
                | None, None => Raise (IntegrityError "product_metadata.sku")
                end
              with
              | Raise e => (AssignError e, shelf_table, metadata)
              | Ok metadata' =>
                  if shelf_number_range shelf_number
                  then (Assigned shelf_number,
                        upsert_shelf env shelf_number form_sku
                          form_product_name shelf_table,
                        metadata')
                  else (AssignError (IntegrityError "shelf_number_range"),
                        shelf_table, metadata)
              end
        end
    end.

(** What [POST /admin/orders/<order_id>/fulfill] answers: a redirect, with
    the message it flashed when it got that far. *)
Inductive admin_page : Type :=
| AdminRedirect (endpoint : string) (flashed : option (string * string)).

Section Admin.

Variable py_repr : json -> string.

(** [POST /admin/orders/<order_id>/fulfill], the admin route named
    [fulfill_order] in app.py. *)
Definition fulfill_order (env : Env) (admin_logged_in : bool)
  (order_id : string) (w : World) : admin_page * World :=
  if negb admin_logged_in then (AdminRedirect "admin_login" None, w)
  else
    let failed :=
      AdminRedirect "admin_orders" (Some ("Error fulfilling order", "error")) in
    match get_or_404 order_id (orders w) with
    | Raise _ => (failed, w)
    | Ok order =>
        let w :=
          match shopify_order_id order with
          | Some remote_id =>
              if truthy_str (shopify_order_id order)
              then sent (fst (Shopify.fulfill_order (shopify_client env)
                                remote_id)) w
              else w
          | None => w
          end in
        let order :=
          with_completed_at (Some (now env))
            (with_status (Some "completed") order) in
        match commit_update order (orders w) with
        | Raise _ => (failed, w)
        | Ok tbl =>
            (AdminRedirect "admin_orders"
               (Some ("Order " ++ py_str py_repr (shopify_order_number order)
                      ++ " fulfilled successfully", "success")%string),
             set_orders tbl w)
        end
    end.

End Admin.

End App.

(** ** Sample data

    A small store and its surroundings, for the concrete runs below. *)

Module Sample.

Import App.

Definition skyr : Shopify.CartItem :=
  {| Shopify.sku := Some "X"; Shopify.title := Some "Skyr";
     Shopify.price := 100%float; Shopify.quantity := 2 |}.

(** Shelf 7 holds SKU X. *)
Definition shelf_7 : ShelfMapping.t :=
  ShelfMapping.mk 7 (Some "X") (Some "Skyr") 4 true 0.

Definition offline : Shopify.call -> Shopify.response :=
  fun _ => Shopify.Failed.

(** A Catalog Service that creates order 555 (number K1), shows it with one
    line item, and accepts its fulfillment. *)
Definition online : Shopify.call -> Shopify.response :=
  fun c =>
    match c with
    | Shopify.PostOrders _ _ _ =>
        Shopify.Response 201
          (Dumps (JObj [("order", JObj [("id", JStr "555");
                                        ("order_number", JStr "K1")])]))
    | Shopify.GetOrder _ =>
        Shopify.Response 200
          (Dumps (JObj [("order",
                         JObj [("line_items",
                                JArr [JObj [("id", JInt 1);
                                            ("quantity", JInt 2)]])])]))
    | Shopify.PostFulfillments _ _ _ => Shopify.Response 201 NotJson
    end.

Definition env_at (clock : Z) (network : Shopify.call -> Shopify.response)
  : Env :=
  {| now := clock; utcnow := clock;
     uuid4 := "3f2b8c1e-0000-4000-8000-000000000001";
     disk_ok := true;
     shopify_client :=
       {| Shopify.location_id := "109514817905";
          Shopify.requests := network |} |}.

(** A kiosk order holding two units of X. *)
Definition kiosk_order (key : string) (remote_id : string)
  (state : string) (created : Z) : OrderQueue.t :=
  OrderQueue.mk key (Some "kiosk") (Some remote_id) (JStr "K1")
    (json_dumps (JArr [item_dict skyr])) (Some state) None false created
    None None.

(** A delivery-partner order awaiting pickup. *)
Definition wolt_order (key : string) (code : string) (state : string)
  (created : Z) : OrderQueue.t :=
  OrderQueue.mk key (Some "wolt") (Some "777") (JStr "W9")
    (json_dumps (JArr [item_dict skyr])) (Some state) (Some code) false
    created None None.

Definition store (rows : list OrderQueue.t) : World :=
  {| orders := rows; shelves := [shelf_7]; files := []; remote := [] |}.

(** One inventory level of the answer to the inventory query. *)
Definition level (variant available : json) (sku : string) : json :=
  JObj [("node",
         JObj [("available", available);
               ("item",
                JObj [("sku", JStr sku);
                      ("variant",
                       JObj [("id", variant);
                             ("title", JStr "Default");
                             ("price", JStr "100.00");
                             ("product",
                              JObj [("title", JStr "Skyr");
                                    ("description", JStr "");
                                    ("images",
                                     JObj [("edges", JArr [])])])])])])].

(** The answer of the Catalog Service with these inventory levels. *)
Definition levels (edges : list json) : json :=
  JObj [("data",
         JObj [("location",
                JObj [("inventoryLevels", JObj [("edges", JArr edges)])])])].

(** One level with three units of SKU X, and one without stock. *)
Definition inventory : json :=
  levels [ level (JStr "gid://shopify/ProductVariant/41") (JInt 3) "X";
           level (JStr "gid://shopify/ProductVariant/40") (JInt 0) "W" ].

(** Two levels of the same variant, with three and with five units. *)
Definition inventory_twice : json :=
  levels [ level (JStr "gid://shopify/ProductVariant/41") (JInt 3) "X";
           level (JStr "gid://shopify/ProductVariant/41") (JInt 5) "X" ].

End Sample.

(** ** The spec's own words

    Definitions that follow the specification rather than the source, for
    comparison with the code above. *)

Module Spec.

(** Shelf Resolver (section 4.2): for each line item, the shelf of the active
    assignment of its SKU once per unit of quantity, nothing when there is
    none; items in input order. *)
Definition resolve (shelf_table : list ShelfMapping.t)
  (items : list Shopify.CartItem) : list Z :=
  flat_map
    (fun item =>
       match Db.first_active_shelf shelf_table (Shopify.sku item) with
       | Some shelf =>
           repeat (ShelfMapping.shelf_number shelf)
                  (Z.to_nat (Shopify.quantity item))
       | None => []
       end)
    items.

(** A stored item read as a line item: the item is an object whose ['sku']
    entry is the line's SKU (a string, or null when the line has none) and
    whose ['quantity'] entry is the line's quantity. Its other entries, and
    the order of its entries, are free. *)
Definition reads_as (item : json) (line : Shopify.CartItem) : Prop :=
  getitem item "sku" = Ok (App.opt_json (Shopify.sku line))
  /\ getitem item "quantity" = Ok (JInt (Shopify.quantity line)).

(** The claimed row: [processing], stamped with the time of the claim. *)
Definition claimed (now : Z) (o : OrderQueue.t) : OrderQueue.t :=
  OrderQueue.with_processed_at (Some now)
    (OrderQueue.with_status (Some "processing") o).

(** The completed row. *)
Definition completed (now : Z) (o : OrderQueue.t) : OrderQueue.t :=
  OrderQueue.with_completed_at (Some now)
    (OrderQueue.with_status (Some "completed") o).

(** The two status moves of the requests that create or claim an order:
    none, or [pending] to [processing]. *)
Definition forward (s s' : option string) : Prop :=
  s' = s \/ (s = Some "pending" /\ s' = Some "processing").

(** [tbl'] comes after [tbl]: a row of [tbl] is still there with a status
    that moved [forward]; a row that is new is [pending] or [processing]. *)
Definition advances (tbl tbl' : list OrderQueue.t) : Prop :=
  forall key,
    match find (Db.has_id key) tbl with
    | Some o =>
        exists o',
          find (Db.has_id key) tbl' = Some o'
          /\ forward (OrderQueue.status o) (OrderQueue.status o')
    | None =>
        forall o',
          find (Db.has_id key) tbl' = Some o' ->
          OrderQueue.status o' = Some "pending"
          \/ OrderQueue.status o' = Some "processing"
    end.

(** Checkout, pickup verification and claim: the requests that never set
    [completed] or a status of the caller's choice. *)
Definition creates_or_claims (r : App.request) : bool :=
  match r with
  | App.CompleteOrder _ | App.VerifyPickup _ | App.ApiNextOrder => true
  | App.ApiCompleteOrder _ | App.ApiUpdateOrderStatus _ _ => false
  end.

(** The request is a status update of order [key]. *)
Definition sets_status (key : string) (r : App.request) : bool :=
  match r with
  | App.ApiUpdateOrderStatus order_id _ => String.eqb order_id key
  | _ => false
  end.

(** The request is a completion of order [key]. *)
Definition completes (key : string) (r : App.request) : bool :=
  match r with
  | App.ApiCompleteOrder order_id => String.eqb order_id key
  | _ => false
  end.

(** The status moves of an order that no status update names: [forward],
    or to [completed] when a completion named the order. *)
Definition moved (completion : bool) (s s' : option string) : Prop :=
  forward s s' \/ (completion = true /\ s' = Some "completed").

(** No two entries of the list are the same string; NULLs do not count. *)
Fixpoint unique_some (l : list (option string)) : bool :=
  match l with
  | [] => true
  | None :: rest => unique_some rest
  | Some r :: rest =>
      (negb (existsb (Db.opt_eqb (Some r)) rest) && unique_some rest)%bool
  end.

(** The two CHECK constraints of [order_queue], on a row. *)
Definition row_valid (o : OrderQueue.t) : bool :=
  (Db.valid_status (OrderQueue.status o)
   && Db.valid_order_type (OrderQueue.order_type o))%bool.

(** The constraints of [order_queue]: the primary key, the unique remote
    order id, and the two CHECKs. *)
Definition table_ok (tbl : list OrderQueue.t) : bool :=
  (Db.pk_unique tbl
   && unique_some (map OrderQueue.shopify_order_id tbl)
   && forallb row_valid tbl)%bool.

(** The sum of a list of durations. *)
Definition total (durations : list Z) : Z := fold_right Z.add 0 durations.

(** The sleeps before attempt [k]: [delay], doubled each time. *)
Definition backoff (delay : Z) (k : nat) : list Z :=
  map (fun attempt => delay * 2 ^ Z.of_nat attempt) (seq 0 k).

(** A product with stock, as [get_products] builds it, under id [key]. *)
Definition stocked (key : string) (product : json) : Prop :=
  getitem product "id" = Ok (JStr key)
  /\ exists available,
       getitem product "available" = Ok available
       /\ Shopify.positive available = Ok true.

(** The product's ['id'] is [key]. *)
Definition has_product_id (key : string) (product : json) : bool :=
  match getitem product "id" with
  | Ok (JStr k) => String.eqb k key
  | _ => false
  end.

(** The last product of the list whose id is [key]. *)
Fixpoint last_with_id (key : string) (products : list json) : option json :=
  match products with
  | [] => None
  | product :: rest =>
      match last_with_id key rest with
      | Some later => Some later
      | None => if has_product_id key product then Some product else None
      end
  end.

End Spec.

(** * Properties *)

Import OrderQueue Db Utils App.

(** ** Rows and keys *)

Section TableFacts.

Implicit Types (o x : OrderQueue.t) (tbl : list OrderQueue.t).

Lemma has_id_true key o : has_id key o = true <-> id o = key.
Proof. unfold has_id. apply String.eqb_eq. Qed.

Lemma has_id_false key o : has_id key o = false <-> id o <> key.
Proof. unfold has_id. apply String.eqb_neq. Qed.

Lemma has_id_refl o : has_id (id o) o = true.
Proof. apply has_id_true. reflexivity. Qed.

Lemma existsb_has_id_false key tbl :
  existsb (has_id key) tbl = false <-> forall x, In x tbl -> id x <> key.
Proof.
  induction tbl as [|r tbl IH]; simpl.
  - split; [intros _ x [] | reflexivity].
  - rewrite orb_false_iff, IH, has_id_false. split.
    + intros [Hr Hrest] x [<- | Hx]; auto.
    + intros H. split; [apply H; left; reflexivity | intros x Hx; apply H; right; exact Hx].
Qed.

(** Under the primary key, the row found under a row's id is that row. *)
Lemma find_by_own_id tbl o :
  pk_unique tbl = true -> In o tbl -> find (has_id (id o)) tbl = Some o.
Proof.
  induction tbl as [|r tbl IH]; simpl; [intros _ [] |].
  rewrite andb_true_iff, negb_true_iff, existsb_has_id_false.
  intros [Hr Hrest] [-> | Hin].
  - rewrite has_id_refl. reflexivity.
  - destruct (has_id (id o) r) eqn:E.
    + apply has_id_true in E. exfalso. apply (Hr o Hin). symmetry. exact E.
    + apply IH; assumption.
Qed.

Lemma find_has_id key tbl o :
  find (has_id key) tbl = Some o -> In o tbl /\ id o = key.
Proof.
  intros H. apply find_some in H. rewrite has_id_true in H. exact H.
Qed.

Lemma find_has_id_none key tbl :
  find (has_id key) tbl = None <-> forall x, In x tbl -> id x <> key.
Proof.
  split.
  - intros H x Hx. apply has_id_false. exact (find_none _ _ H x Hx).
  - induction tbl as [|r tbl IH]; simpl; [reflexivity |].
    intros H. destruct (has_id key r) eqn:E.
    + apply has_id_true in E. exfalso. apply (H r); auto.
    + apply IH. intros x Hx. apply H. right. exact Hx.
Qed.

Lemma replaced_ids o tbl : map id (replaced o tbl) = map id tbl.
Proof.
  unfold replaced. rewrite map_map. apply map_ext_in. intros r _.
  destruct (has_id (id o) r) eqn:E; [| reflexivity].
  apply has_id_true in E. symmetry. exact E.
Qed.

Lemma existsb_has_id_ids key tbl tbl' :
  map id tbl = map id tbl' ->
  existsb (has_id key) tbl = existsb (has_id key) tbl'.
Proof.
  revert tbl'. induction tbl as [|r tbl IH]; intros [|r' tbl'] H;
    simpl in *; try discriminate; [reflexivity |].
  injection H as Hr Hrest. unfold has_id at 1 3. rewrite Hr.
  f_equal. apply IH. exact Hrest.
Qed.

Lemma pk_unique_ids tbl tbl' :
  map id tbl = map id tbl' -> pk_unique tbl = pk_unique tbl'.
Proof.
  revert tbl'. induction tbl as [|r tbl IH]; intros [|r' tbl'] H;
    simpl in *; try discriminate; [reflexivity |].
  injection H as Hr Hrest. rewrite Hr.
  rewrite (existsb_has_id_ids (id r') tbl tbl' Hrest), (IH tbl' Hrest).
  reflexivity.
Qed.

Lemma pk_unique_replaced o tbl :
  pk_unique (replaced o tbl) = pk_unique tbl.
Proof. apply pk_unique_ids, replaced_ids. Qed.

Lemma pk_unique_app_one tbl o :
  pk_unique tbl = true -> existsb (has_id (id o)) tbl = false ->
  pk_unique (tbl ++ [o]) = true.
Proof.
  induction tbl as [|r tbl IH]; simpl; [reflexivity |].
  rewrite !andb_true_iff, !negb_true_iff, orb_false_iff.
  intros [Hr Hrest] [Ho Hex]. split.
  - rewrite existsb_app, Hr. simpl. rewrite orb_false_r.
    apply has_id_false. apply has_id_false in Ho. congruence.
  - apply IH; assumption.
Qed.

(** Where no other row shares the id, the UPDATE touches one row. *)
Lemma replaced_other o tbl :
  (forall x, In x tbl -> id x <> id o) -> replaced o tbl = tbl.
Proof.
  intros H. unfold replaced. rewrite <- (map_id tbl) at 2.
  apply map_ext_in. intros r Hr.
  destruct (has_id (id o) r) eqn:E; [| reflexivity].
  apply has_id_true in E. exfalso. exact (H r Hr E).
Qed.

Lemma pk_unique_middle before o after :
  pk_unique (before ++ o :: after) = true ->
  (forall x, In x before -> id x <> id o) /\
  (forall x, In x after -> id x <> id o).
Proof.
  induction before as [|r before IH]; simpl;
    rewrite andb_true_iff, negb_true_iff, existsb_has_id_false.
  - intros [Hr _]. split; [intros x [] | exact Hr].
  - intros [Hr Hrest]. destruct (IH Hrest) as [Hb Ha]. split; [| exact Ha].
    intros x [<- | Hx]; [| auto].
    intros E. apply (Hr o); [apply in_elt | congruence].
Qed.

Lemma replaced_middle before o after o' :
  pk_unique (before ++ o :: after) = true -> id o' = id o ->
  replaced o' (before ++ o :: after) = before ++ o' :: after.
Proof.
  intros Hpk Hid. destruct (pk_unique_middle _ _ _ Hpk) as [Hb Ha].
  unfold replaced. rewrite map_app. simpl.
  fold (replaced o' before). fold (replaced o' after).
  rewrite !replaced_other by (rewrite Hid; assumption).
  unfold has_id. rewrite Hid, String.eqb_refl. reflexivity.
Qed.

(** The row found under a key after the UPDATE. *)
Lemma find_replaced key o tbl :
  find (has_id key) (replaced o tbl) =
  option_map (fun r => if has_id (id o) r then o else r)
             (find (has_id key) tbl).
Proof.
  induction tbl as [|r tbl IH]; [reflexivity |].
  unfold replaced in *. simpl.
  destruct (has_id (id o) r) eqn:E.
  - assert (has_id key o = has_id key r) as ->.
    { unfold has_id. apply has_id_true in E. rewrite E. reflexivity. }
    destruct (has_id key r); simpl; [rewrite E; reflexivity | exact IH].
  - destruct (has_id key r); simpl; [rewrite E; reflexivity | exact IH].
Qed.

Lemma find_app_one key tbl o x :
  find (has_id key) tbl = Some x -> find (has_id key) (tbl ++ [o]) = Some x.
Proof.
  induction tbl as [|r tbl IH]; simpl; [discriminate |].
  destruct (has_id key r); auto.
Qed.

End TableFacts.

(** ** Shelf resolution *)

Lemma opt_eqb_eq (a b : option string) : opt_eqb a b = true <-> a = b.
Proof.
  destruct a as [a|], b as [b|]; simpl;
    try (split; [discriminate | intros H; discriminate H]);
    [| split; reflexivity].
  rewrite String.eqb_eq. split; [intros -> | intros [= ->]]; reflexivity.
Qed.

Lemma bind_text_opt_json (s : option string) : bind_text (App.opt_json s) = Ok s.
Proof. destruct s; reflexivity. Qed.

Lemma first_filter_none {A} (f : A -> bool) (l : list A) :
  (forall x, In x l -> f x = false) -> first (filter f l) = None.
Proof.
  induction l as [|x l IH]; simpl; intros H; [reflexivity |].
  rewrite (H x (or_introl eq_refl)). apply IH.
  intros y Hy. apply H. right. exact Hy.
Qed.

Lemma first_filter_some {A} (f : A -> bool) (l : list A) (x : A) :
  first (filter f l) = Some x -> In x l /\ f x = true.
Proof.
  unfold first. destruct (filter f l) as [|y rest] eqn:E; [discriminate |].
  intros [= ->]. apply filter_In. rewrite E. left. reflexivity.
Qed.

Lemma first_filter_exists {A} (f : A -> bool) (l : list A) (x : A) :
  In x l -> f x = true -> exists y, first (filter f l) = Some y.
Proof.
  intros Hin Hf.
  destruct (filter f l) as [|y rest] eqn:E; [| exists y; reflexivity].
  assert (In x (filter f l)) as H by (apply filter_In; auto).
  rewrite E in H. destruct H.
Qed.

Lemma first_filter_none_all {A} (f : A -> bool) (l : list A) :
  first (filter f l) = None -> forall x, In x l -> f x = false.
Proof.
  intros Hnone x Hin. destruct (f x) eqn:E; [| reflexivity].
  destruct (first_filter_exists f l x Hin E) as [y Hy]. congruence.
Qed.

Lemma insert_by_shelf_number_in s sorted x :
  In x (insert_by_shelf_number s sorted) <-> x = s \/ In x sorted.
Proof.
  induction sorted as [|y sorted IH]; simpl.
  - split; [intros [<- | []]; auto | intros [-> | []]; auto].
  - destruct (ShelfMapping.shelf_number s <=? ShelfMapping.shelf_number y);
      simpl.
    + split; [intros [<- | H]; auto | intros [-> | H]; auto].
    + rewrite IH. split.
      * intros [<- | [-> | H]]; auto.
      * intros [-> | [<- | H]]; auto.
Qed.

Lemma by_shelf_number_in rows x : In x (by_shelf_number rows) <-> In x rows.
Proof.
  induction rows as [|s rows IH]; simpl; [reflexivity |].
  rewrite insert_by_shelf_number_in, IH. split; intros [H | H]; auto.
Qed.

Lemma insert_by_shelf_number_sorted s sorted :
  StronglySorted lower_shelf sorted ->
  StronglySorted lower_shelf (insert_by_shelf_number s sorted).
Proof.
  induction 1 as [|y sorted Hsorted IH Hy]; simpl.
  - repeat constructor.
  - destruct (ShelfMapping.shelf_number s <=? ShelfMapping.shelf_number y)
      eqn:L.
    + apply Z.leb_le in L. constructor; [constructor; assumption |].
      constructor; [exact L |].
      apply Forall_forall. intros x Hx. unfold lower_shelf.
      rewrite Forall_forall in Hy. specialize (Hy x Hx).
      unfold lower_shelf in Hy. lia.
    + apply Z.leb_gt in L. constructor; [exact IH |].
      apply Forall_forall. intros x Hx.
      apply insert_by_shelf_number_in in Hx. destruct Hx as [-> | Hx].
      * unfold lower_shelf. lia.
      * rewrite Forall_forall in Hy. exact (Hy x Hx).
Qed.

Lemma by_shelf_number_sorted rows :
  StronglySorted lower_shelf (by_shelf_number rows).
Proof.
  induction rows as [|s rows IH]; simpl; [constructor |].
  apply insert_by_shelf_number_sorted. exact IH.
Qed.

Lemma first_of_sorted (f : ShelfMapping.t -> bool) sorted s :
  StronglySorted lower_shelf sorted ->
  first (filter f sorted) = Some s ->
  forall x, In x sorted -> f x = true -> lower_shelf s x.
Proof.
  induction 1 as [|y sorted Hsorted IH Hy]; simpl; [discriminate |].
  destruct (f y) eqn:Fy.
  - intros [= <-] x [<- | Hx] _; [unfold lower_shelf; lia |].
    rewrite Forall_forall in Hy. exact (Hy x Hx).
  - intros Hfirst x [<- | Hx] Fx; [congruence |].
    exact (IH Hfirst x Hx Fx).
Qed.

Lemma is_active_shelf_of_iff sku s :
  is_active_shelf_of sku s = true
  <-> ShelfMapping.sku s = sku /\ ShelfMapping.active s = true.
Proof.
  unfold is_active_shelf_of. rewrite andb_true_iff, opt_eqb_eq. reflexivity.
Qed.

(** What the shelf query answers: the active row of the SKU with the lowest
    shelf number, and nothing only when the SKU has no active row. *)
Lemma first_active_shelf_lowest shelf_table sku :
  match first_active_shelf shelf_table sku with
  | Some shelf =>
      In shelf shelf_table
      /\ ShelfMapping.sku shelf = sku
      /\ ShelfMapping.active shelf = true
      /\ (forall other,
             In other shelf_table -> ShelfMapping.sku other = sku ->
             ShelfMapping.active other = true ->
             ShelfMapping.shelf_number shelf
             <= ShelfMapping.shelf_number other)
  | None =>
      forall shelf,
        In shelf shelf_table -> ShelfMapping.sku shelf = sku ->
        ShelfMapping.active shelf = false
  end.
Proof.
  unfold first_active_shelf.
  destruct (first (filter (is_active_shelf_of sku)
                          (by_shelf_number shelf_table))) as [shelf|] eqn:E.
  - destruct (first_filter_some _ _ _ E) as [Hin Hf].
    apply (proj1 (by_shelf_number_in _ _)) in Hin.
    apply (proj1 (is_active_shelf_of_iff _ _)) in Hf.
    destruct Hf as [Hsku Hactive].
    split; [exact Hin | split; [exact Hsku | split; [exact Hactive |]]].
    intros other Hother Hs Ha.
    apply (first_of_sorted _ _ _ (by_shelf_number_sorted shelf_table) E).
    + apply by_shelf_number_in. exact Hother.
    + apply is_active_shelf_of_iff. auto.
  - intros shelf Hin Hsku.
    destruct (ShelfMapping.active shelf) eqn:A; [| reflexivity].
    assert (is_active_shelf_of sku shelf = false) as H.
    { apply (first_filter_none_all _ _ E). apply by_shelf_number_in. exact Hin. }
    assert (is_active_shelf_of sku shelf = true) as H'
        by (apply is_active_shelf_of_iff; auto).
    congruence.
Qed.

(** The loop of [api_next_order] appends the spec's resolution to what it
    has collected so far, whatever else the items hold. *)
Lemma next_shelf_numbers_lines shelf_table items lines :
  Forall2 Spec.reads_as items lines ->
  forall acc,
    next_shelf_numbers shelf_table items acc
    = Ok (acc ++ Spec.resolve shelf_table lines).
Proof.
  induction 1 as [|item line items lines [Hsku Hquantity] _ IH];
    intros acc.
  - simpl. rewrite app_nil_r. reflexivity.
  - cbn [next_shelf_numbers Spec.resolve flat_map].
    rewrite Hsku. cbn [bind]. rewrite bind_text_opt_json. cbn [bind].
    destruct (first_active_shelf shelf_table (Shopify.sku line)) as [shelf|].
    + rewrite Hquantity. cbn [bind py_range].
      rewrite IH, app_assoc. reflexivity.
    + apply IH.
Qed.

(** The items of the checkout are line items. *)
Lemma item_dict_reads_as lines :
  Forall2 Spec.reads_as (map item_dict lines) lines.
Proof.
  induction lines as [|line lines IH]; simpl; constructor;
    [split; reflexivity | exact IH].
Qed.

(** C7. Shelf resolution, as [GET /api/orders/next] runs it over a
    sequence of items, each an object with a ['sku'] and a ['quantity']
    entry among whatever else it holds: the result is the concatenation, in
    item order, of one block per item -- the shelf number of the active
    assignment of the item's SKU repeated quantity times when there is one,
    the empty block when there is none. The assignment used is a row of the
    shelf table that is active and carries the item's SKU, the one with the
    lowest shelf number when several do; none means that no active row
    carries the SKU. *)
Theorem shelf_resolution_per_unit :
  (forall shelf_table items lines,
      Forall2 Spec.reads_as items lines ->
      next_shelf_numbers shelf_table items []
      = Ok (flat_map
              (fun line =>
                 match first_active_shelf shelf_table (Shopify.sku line) with
                 | Some shelf =>
                     repeat (ShelfMapping.shelf_number shelf)
                            (Z.to_nat (Shopify.quantity line))
                 | None => []
                 end)
              lines))
  /\
  (forall shelf_table sku,
      match first_active_shelf shelf_table sku with
      | Some shelf =>
          In shelf shelf_table
          /\ ShelfMapping.sku shelf = sku
          /\ ShelfMapping.active shelf = true
          /\ (forall other,
                 In other shelf_table -> ShelfMapping.sku other = sku ->
                 ShelfMapping.active other = true ->
                 ShelfMapping.shelf_number shelf
                 <= ShelfMapping.shelf_number other)
      | None =>
          forall shelf,
            In shelf shelf_table -> ShelfMapping.sku shelf = sku ->
            ShelfMapping.active shelf = false
      end).
Proof.
  split.
  - intros shelf_table items lines Hlines.
    rewrite (next_shelf_numbers_lines shelf_table items lines Hlines).
    reflexivity.
  - exact first_active_shelf_lowest.
Qed.

(** Items as the order queue stores them, keys in the order of the session
    cookie. SKU A was given shelf 12 and later shelf 7 as well; SKU B has no
    shelf, SKU C an inactive one. *)
Lemma shelf_resolution_per_unit_witness :
  let shelf_table :=
    [ ShelfMapping.mk 12 (Some "A") (Some "Alpha") 5 true 0;
      ShelfMapping.mk 30 (Some "C") (Some "Gamma") 0 false 1;
      ShelfMapping.mk 7 (Some "A") (Some "Alpha") 5 true 2 ] in
  let stored (sku : string) (quantity : Z) :=
    JObj [ ("price", JFloat 100); ("quantity", JInt quantity);
           ("sku", JStr sku); ("title", JStr "Box") ] in
  next_shelf_numbers shelf_table [stored "A" 3; stored "B" 2; stored "C" 1] []
  = Ok [7; 7; 7].
Proof.
  intros shelf_table stored.
  refine (proj1 shelf_resolution_per_unit shelf_table
            [stored "A" 3; stored "B" 2; stored "C" 1]
            [ {| Shopify.sku := Some "A"; Shopify.title := None;
                 Shopify.price := 0%float; Shopify.quantity := 3 |};
              {| Shopify.sku := Some "B"; Shopify.title := None;
                 Shopify.price := 0%float; Shopify.quantity := 2 |};
              {| Shopify.sku := Some "C"; Shopify.title := None;
                 Shopify.price := 0%float; Shopify.quantity := 1 |} ] _).
  repeat constructor.
Defined.

(** Quantity 3 of a SKU on shelf 7 gives three 7s; an unmapped SKU gives
    nothing. *)
Example resolve_three_on_shelf_7 :
  let shelf_table := [ShelfMapping.mk 7 (Some "A") (Some "Alpha") 5 true 0] in
  next_shelf_numbers shelf_table
    [JObj [("sku", JStr "A"); ("quantity", JInt 3)]] [] = Ok [7; 7; 7]
  /\ next_shelf_numbers shelf_table
       [JObj [("sku", JStr "B"); ("quantity", JInt 3)]] [] = Ok [].
Proof. split; reflexivity. Qed.

(** ** The oldest pending order *)

Lemma first_insert_by_created_at o sorted :
  first (insert_by_created_at o sorted) =
  match first sorted with
  | None => Some o
  | Some m => if created_at o <=? created_at m then Some o else Some m
  end.
Proof.
  destruct sorted as [|m rest]; simpl; [reflexivity |].
  destruct (created_at o <=? created_at m); reflexivity.
Qed.

Lemma first_order_by_in rows m :
  first (order_by_created_at rows) = Some m -> In m rows.
Proof.
  revert m. induction rows as [|o rows IH]; simpl; intros m; [discriminate |].
  rewrite first_insert_by_created_at.
  destruct (first (order_by_created_at rows)) as [m'|].
  - destruct (created_at o <=? created_at m'); intros [= <-]; auto.
  - intros [= <-]. auto.
Qed.

(** What the query of [api_next_order] selects is a pending row. *)
Lemma first_pending_in tbl o :
  first (order_by_created_at (filter is_pending tbl)) = Some o ->
  In o tbl /\ is_pending o = true.
Proof.
  intros H. apply first_order_by_in in H. apply filter_In in H. exact H.
Qed.



Lemma commit_update_claimed now o tbl :
  commit_update (Spec.claimed now o) tbl = Ok (replaced (Spec.claimed now o) tbl).
Proof. reflexivity. Qed.

Lemma commit_update_completed now o tbl :
  commit_update (Spec.completed now o) tbl
  = Ok (replaced (Spec.completed now o) tbl).
Proof. reflexivity. Qed.



(** ** Claimed, then failed *)

Lemma api_next_order_answer env w key t s i :
  fst (api_next_order env w) = NextOrder key t s i ->
  exists o, In o (orders w) /\ is_pending o = true /\ id o = key.
Proof.
  unfold api_next_order.
  destruct (first (order_by_created_at (filter is_pending (orders w))))
    as [o|] eqn:E; [| discriminate].
  apply first_pending_in in E. destruct E as [Hin Hp].
  fold (Spec.claimed (now env) o). rewrite commit_update_claimed.
  destruct (items_and_shelf_numbers _ _) as [[decoded shelf_numbers]|e];
    simpl; [| discriminate].
  intros [= <- _ _ _]. exists o. auto.
Qed.

(** C10. When [GET /api/orders/next] has committed the claim of order [o]
    and decoding its items or resolving their shelves then raises [e], the
    caller gets the error answer (code 500) while [o] stays [processing],
    stamped with the time of the claim: nothing is rolled back. The order is
    no longer pending, so the next poll does not hand it out either. Items
    that are not JSON, and a line item without the key 'sku', are two kinds
    of malformed items for which this happens. *)
Theorem claim_next_error_leaves_processing :
  forall env w o e,
    pk_unique (orders w) = true ->
    first (order_by_created_at (filter is_pending (orders w))) = Some o ->
    items_and_shelf_numbers (shelves w) o = Raise e ->
    let w' := snd (api_next_order env w) in
    fst (api_next_order env w) = Error e
    /\ status_code (Error e) = 500
    /\ find (has_id (id o)) (orders w') = Some (Spec.claimed (now env) o)
    /\ status (Spec.claimed (now env) o) = Some "processing"
    /\ (forall env' t s i,
           fst (api_next_order env' w') <> NextOrder (id o) t s i)
    /\ (items o = NotJson -> e = JSONDecodeError)
    /\ (forall title rest,
           items o = Dumps (JArr (JObj [("title", title)] :: rest)) ->
           e = KeyError "sku").
Proof.
  intros env w o e Hpk Hfirst Hraise w'.
  assert (api_next_order env w
          = (Error e,
             set_orders (replaced (Spec.claimed (now env) o) (orders w)) w))
    as Hrun.
  { unfold api_next_order. rewrite Hfirst.
    fold (Spec.claimed (now env) o). rewrite commit_update_claimed.
    replace (items_and_shelf_numbers
               (shelves (set_orders
                           (replaced (Spec.claimed (now env) o) (orders w)) w))
               (Spec.claimed (now env) o))
      with (items_and_shelf_numbers (shelves w) o) by reflexivity.
    rewrite Hraise. reflexivity. }
  destruct (first_pending_in _ _ Hfirst) as [Hin Hpending].
  assert (find (has_id (id o)) (orders w') = Some (Spec.claimed (now env) o))
    as Hfound.
  { subst w'. rewrite Hrun. simpl. rewrite find_replaced.
    rewrite (find_by_own_id _ _ Hpk Hin). simpl.
    replace (id (Spec.claimed (now env) o)) with (id o) by reflexivity.
    rewrite has_id_refl. reflexivity. }
  repeat split.
  - rewrite Hrun. reflexivity.
  - exact Hfound.
  - intros env' t s i Hanswer.
    apply api_next_order_answer in Hanswer.
    destruct Hanswer as (x & Hx & Hxp & Hid).
    assert (pk_unique (orders w') = true) as Hpk'.
    { subst w'. rewrite Hrun. simpl. rewrite pk_unique_replaced. exact Hpk. }
    pose proof (find_by_own_id _ _ Hpk' Hx) as Hfx.
    rewrite Hid, Hfound in Hfx. injection Hfx as <-.
    discriminate Hxp.
  - intros Hitems. unfold items_and_shelf_numbers in Hraise.
    rewrite Hitems in Hraise. simpl in Hraise. congruence.
  - intros title rest Hitems. unfold items_and_shelf_numbers in Hraise.
    rewrite Hitems in Hraise. simpl in Hraise. congruence.
Qed.

(** An order whose items column does not hold JSON is claimed and lost. *)
Lemma claim_next_error_leaves_processing_witness :
  let broken :=
    OrderQueue.mk "o1" (Some "wolt") (Some "777") (JStr "W9") NotJson
      (Some "pending") (Some "123456") false 10 None None in
  let w := Sample.store [broken] in
  let env := Sample.env_at 30 Sample.offline in
  fst (api_next_order env w) = Error JSONDecodeError
  /\ find (has_id "o1") (orders (snd (api_next_order env w)))
     = Some (Spec.claimed 30 broken).
Proof.
  intros broken w env.
  pose proof (claim_next_error_leaves_processing env w broken JSONDecodeError
                eq_refl eq_refl eq_refl) as H.
  exact (conj (proj1 H) (proj1 (proj2 (proj2 H)))).
Defined.

(** ** Completion *)

Lemma find_replaced_same key o o' tbl :
  find (has_id key) tbl = Some o -> id o' = id o ->
  find (has_id key) (replaced o' tbl) = Some o'.
Proof.
  intros Hfind Hid. rewrite find_replaced, Hfind. simpl.
  rewrite Hid, has_id_refl. reflexivity.
Qed.

(** What [api_complete_order] does with a row it finds: no look at the
    row's status anywhere. *)
Lemma api_complete_order_found env order_id w o :
  find (has_id order_id) (orders w) = Some o ->
  let r := api_complete_order env order_id w in
  fst r = Success
  /\ orders (snd r) = replaced (Spec.completed (now env) o) (orders w)
  /\ remote (snd r) = remote w ++ fulfillment_calls env o
  /\ files (snd r) = files w
  /\ shelves (snd r) = shelves w
  /\ find (has_id order_id) (orders (snd r))
     = Some (Spec.completed (now env) o).
Proof.
  intros Hfind r.
  assert (fst r = Success
          /\ orders (snd r) = replaced (Spec.completed (now env) o) (orders w)
          /\ remote (snd r) = remote w ++ fulfillment_calls env o
          /\ files (snd r) = files w
          /\ shelves (snd r) = shelves w) as H.
  { subst r. unfold api_complete_order, get_or_404, fulfillment_calls.
    rewrite Hfind. cbv zeta.
    destruct (shopify_order_id o) as [remote_id|];
      [destruct (truthy_str (Some remote_id)) |];
      rewrite (commit_update_completed (now env) o); simpl;
      rewrite ?app_nil_r; repeat split; reflexivity. }
  destruct H as (H1 & H2 & H3 & H4 & H5). repeat split; try assumption.
  rewrite H2. apply (find_replaced_same _ o); [exact Hfind | reflexivity].
Qed.

Lemma fulfill_order_first_call c remote_id :
  exists rest,
    fst (Shopify.fulfill_order c remote_id) = Shopify.GetOrder remote_id :: rest.
Proof.
  unfold Shopify.fulfill_order.
  destruct (Shopify.requests c (Shopify.GetOrder remote_id))
    as [|code body]; [eexists; reflexivity |].
  destruct (negb (code =? 200)); [eexists; reflexivity |].
  destruct (bind _ _); [| eexists; reflexivity].
  destruct (py_int _); eexists; reflexivity.
Qed.

(** C2, as the code has it. [POST /api/orders/<id>/complete] is rejected
    only when no order has that id: the answer is then the error answer
    (code 500), nothing is sent to the Catalog Service and the store is
    unchanged. For an order that exists, whatever its status, the handler
    sends the fulfillment requests when the order has a non-empty remote
    order id (the first of them asks for that remote order), sets the status
    to [completed] and [completed_at] to the current time, and answers
    success. *)
Theorem complete_ignores_current_status :
  forall env order_id w,
    (find (has_id order_id) (orders w) = None ->
     api_complete_order env order_id w = (Error NotFound, w)
     /\ status_code (Error NotFound) = 500)
    /\
    (forall o,
        find (has_id order_id) (orders w) = Some o ->
        let r := api_complete_order env order_id w in
        let o' := Spec.completed (now env) o in
        fst r = Success
        /\ find (has_id order_id) (orders (snd r)) = Some o'
        /\ status o' = Some "completed"
        /\ completed_at o' = Some (now env)
        /\ remote (snd r) = remote w ++ fulfillment_calls env o
        /\ (forall remote_id,
               shopify_order_id o = Some remote_id -> remote_id <> "" ->
               exists rest,
                 fulfillment_calls env o
                 = Shopify.GetOrder remote_id :: rest)).
Proof.
  intros env order_id w. split.
  - intros Hnone. unfold api_complete_order, get_or_404. rewrite Hnone.
    split; reflexivity.
  - intros o Hfind r o'.
    destruct (api_complete_order_found env order_id w o Hfind)
      as (H1 & _ & H3 & _ & _ & H6).
    repeat split; try assumption.
    intros remote_id Hremote Hne. unfold fulfillment_calls.
    rewrite Hremote. simpl.
    apply String.eqb_neq in Hne. rewrite Hne. simpl.
    apply fulfill_order_first_call.
Qed.

(** Completing an order that is still pending: accepted, and fulfilled
    remotely. *)
Lemma complete_ignores_current_status_witness :
  let o := Sample.kiosk_order "o1" "555" "pending" 5 in
  let r := api_complete_order (Sample.env_at 30 Sample.online) "o1"
             (Sample.store [o]) in
  fst r = Success
  /\ find (has_id "o1") (orders (snd r)) = Some (Spec.completed 30 o).
Proof.
  intros o r.
  pose proof (proj2 (complete_ignores_current_status
                       (Sample.env_at 30 Sample.online) "o1"
                       (Sample.store [o])) o eq_refl) as H.
  exact (conj (proj1 H) (proj1 (proj2 H))).
Defined.

(** C2, as stated, fails: an order already completed at time 10 is
    completed again at time 30. The call is accepted, both fulfillment
    requests go out to the Catalog Service, and [completed_at] changes. *)
Lemma complete_refulfills_completed_order :
  let o := with_completed_at (Some 10)
             (Sample.kiosk_order "o1" "555" "completed" 5) in
  let r := api_complete_order (Sample.env_at 30 Sample.online) "o1"
             (Sample.store [o]) in
  status o = Some "completed"
  /\ fst r = Success
  /\ remote (snd r)
     = [Shopify.GetOrder "555";
        Shopify.PostFulfillments "555" [(JInt 1, JInt 2)] 109514817905]
  /\ option_map completed_at (find (has_id "o1") (orders (snd r)))
     = Some (Some 30).
Proof. vm_compute. repeat split. Qed.

(** C5, as the code has it. When the order is in [processing] and
    [fulfill_order] reports failure, [POST /api/orders/<id>/complete] drops
    the report: it answers success and the order becomes [completed] with
    [completed_at] the current time. *)
Theorem complete_ignores_fulfillment_failure :
  forall env order_id w o remote_id,
    find (has_id order_id) (orders w) = Some o ->
    status o = Some "processing" ->
    shopify_order_id o = Some remote_id ->
    snd (Shopify.fulfill_order (shopify_client env) remote_id) = false ->
    let r := api_complete_order env order_id w in
    let o' := Spec.completed (now env) o in
    fst r = Success
    /\ status_code (fst r) = 200
    /\ find (has_id order_id) (orders (snd r)) = Some o'
    /\ status o' = Some "completed"
    /\ completed_at o' = Some (now env).
Proof.
  intros env order_id w o remote_id Hfind _ _ _ r o'.
  destruct (api_complete_order_found env order_id w o Hfind)
    as (H1 & _ & _ & _ & _ & H6).
  repeat split; try assumption.
  subst r. rewrite H1. reflexivity.
Qed.

(** The Catalog Service is unreachable while a processing order is
    completed. *)
Lemma complete_ignores_fulfillment_failure_witness :
  let o := Sample.kiosk_order "o1" "555" "processing" 5 in
  let r := api_complete_order (Sample.env_at 30 Sample.offline) "o1"
             (Sample.store [o]) in
  fst r = Success
  /\ find (has_id "o1") (orders (snd r)) = Some (Spec.completed 30 o).
Proof.
  intros o r.
  pose proof (complete_ignores_fulfillment_failure
                (Sample.env_at 30 Sample.offline) "o1" (Sample.store [o])
                o "555" eq_refl eq_refl eq_refl eq_refl) as H.
  exact (conj (proj1 H) (proj1 (proj2 (proj2 H)))).
Defined.

(** C5, as stated, fails: the network is down, [fulfill_order] returns
    [False] after its first request, and the processing order is completed
    all the same. *)
Lemma complete_succeeds_when_fulfillment_fails :
  let o := Sample.kiosk_order "o1" "555" "processing" 5 in
  let env := Sample.env_at 30 Sample.offline in
  let r := api_complete_order env "o1" (Sample.store [o]) in
  Shopify.fulfill_order (shopify_client env) "555"
  = ([Shopify.GetOrder "555"], false)
  /\ fst r = Success
  /\ option_map status (find (has_id "o1") (orders (snd r)))
     = Some (Some "completed").
Proof. vm_compute. repeat split. Qed.

(** ** Pickup verification *)

Lemma matches_pickup_iff code o :
  matches_pickup code o = true <->
  pickup_code o = code /\ status o = Some "pending"
  /\ order_type o = Some "wolt".
Proof.
  unfold matches_pickup. rewrite !andb_true_iff, !opt_eqb_eq. tauto.
Qed.

(** C9. [POST /kiosk/verify_pickup] with a code that no pending
    delivery-partner order carries: the kiosk flashes the invalid-code
    message and returns to the code entry page, every table, file and log of
    the store is as before, and this outcome differs from the one the handler
    gives on an exception (the generic error message). *)
Theorem verify_unknown_code_is_invalid_code :
  forall env code w,
    (forall o, In o (orders w) ->
               ~ (pickup_code o = code /\ status o = Some "pending"
                  /\ order_type o = Some "wolt")) ->
    verify_pickup env code w
    = (Redirect "wolt_pickup" (get_translation "invalid_code" "is", "error"), w)
    /\ Redirect "wolt_pickup" (get_translation "invalid_code" "is", "error")
       <> Redirect "wolt_pickup" (get_translation "error" "is", "error").
Proof.
  intros env code w Hnone. split.
  - unfold verify_pickup. rewrite first_filter_none; [reflexivity |].
    intros o Hin. destruct (matches_pickup code o) eqn:E; [| reflexivity].
    apply matches_pickup_iff in E. exfalso. exact (Hnone o Hin E).
  - intros H. vm_compute in H. discriminate H.
Qed.

(** A wrong code, and the right code of an order already picked up. *)
Lemma verify_unknown_code_is_invalid_code_witness :
  let w := Sample.store [Sample.wolt_order "o1" "123456" "pending" 5;
                         Sample.wolt_order "o2" "654321" "processing" 6] in
  verify_pickup (Sample.env_at 30 Sample.offline) (Some "654321") w
  = (Redirect "wolt_pickup" (get_translation "invalid_code" "is", "error"), w).
Proof.
  intros w.
  refine (proj1 (verify_unknown_code_is_invalid_code
                   (Sample.env_at 30 Sample.offline) (Some "654321") w _)).
  intros o [<- | [<- | []]] (Hcode & Hstatus & _); simpl in *; discriminate.
Defined.

(** What [verify_pickup] does on a match whose items decode: the row
    becomes [processing] and nothing else of it changes; the queue file goes
    under [processing/] with the code and the time. *)
Lemma verify_pickup_match env code w o decoded :
  first (filter (matches_pickup code) (orders w)) = Some o ->
  items o = Dumps decoded ->
  let o' := with_status (Some "processing") o in
  let r := verify_pickup env code w in
  fst r = PickupConfirmed (shopify_order_number o)
  /\ orders (snd r) = replaced o' (orders w)
  /\ processed_at o' = processed_at o
  /\ remote (snd r) = remote w
  /\ (disk_ok env = true ->
      exists file rest,
        files (snd r) = file :: rest
        /\ directory (fst file) = "processing"
        /\ q_order_id (snd file) = id o
        /\ q_pickup_code (snd file) = Some code
        /\ q_processing_at (snd file) = Some (now env)).
Proof.
  intros Hfirst Hitems o' r. subst r. unfold verify_pickup.
  rewrite Hfirst. fold o'.
  replace (commit_update o' (orders w)) with (Ok (replaced o' (orders w))).
  2:{ unfold commit_update. reflexivity. }
  replace (items o') with (items o) by reflexivity.
  rewrite Hitems. simpl. unfold save_order_to_queue.
  destruct (disk_ok env); simpl; repeat split; try reflexivity;
    try discriminate.
  intros _. eexists. eexists. repeat split.
Qed.

(** C6 at a failing input. A pending delivery-partner order with code
    123456 is verified at time 30: the customer sees its order number, the
    row becomes [processing] and the queue file under [processing/] records
    the code and the time -- but the row's [processed_at] is still empty,
    where the claim says it is the current time. *)
Theorem verify_pickup_leaves_processed_at_unset :
  let o := Sample.wolt_order "o1" "123456" "pending" 5 in
  let env := Sample.env_at 30 Sample.offline in
  let r := verify_pickup env (Some "123456") (Sample.store [o]) in
  fst r = PickupConfirmed (JStr "W9")
  /\ option_map status (find (has_id "o1") (orders (snd r)))
     = Some (Some "processing")
  /\ option_map processed_at (find (has_id "o1") (orders (snd r)))
     = Some None
  /\ map (fun f => (directory (fst f), q_pickup_code (snd f),
                    q_processing_at (snd f))) (files (snd r))
     = [("processing", Some (Some "123456"), Some 30)]
  /\ option_map processed_at
       (find (has_id "o1")
             (orders (snd (api_next_order env (Sample.store [o])))))
     = Some (Some 30).
Proof. vm_compute. repeat split. Qed.

(** ** Checkout *)

(** An unreachable Catalog Service: [create_order] returns [None]. *)
Lemma create_order_unreachable c cart_items order_type :
  (forall call, Shopify.requests c call = Shopify.Failed) ->
  snd (Shopify.create_order c cart_items order_type) = None.
Proof.
  intros H. unfold Shopify.create_order.
  destruct (Shopify.order_line_items cart_items); [| reflexivity].
  destruct (py_int (Shopify.location_id c)); [| reflexivity].
  simpl. rewrite H. reflexivity.
Qed.

(** A Catalog Service that answers anything but 201: [create_order]
    returns [None]. *)
Lemma create_order_rejected c cart_items order_type :
  (forall call code body,
      Shopify.requests c call = Shopify.Response code body -> code <> 201) ->
  snd (Shopify.create_order c cart_items order_type) = None.
Proof.
  intros H. unfold Shopify.create_order.
  destruct (Shopify.order_line_items cart_items) as [line_items|];
    [| reflexivity].
  destruct (py_int (Shopify.location_id c)) as [location|]; [| reflexivity].
  simpl.
  destruct (Shopify.requests c _) as [|code body] eqn:E; [reflexivity |].
  apply H in E. apply Z.eqb_neq in E. rewrite E. reflexivity.
Qed.

(** C8. [POST /kiosk/complete_order] with a cart that is not empty, when
    [create_order] returns nothing: the kiosk flashes the generic error and
    returns to the checkout page with the cart kept, and the order table and
    the queue files are as before. [create_order] returns nothing when the
    Catalog Service cannot be reached and when it answers with a code other
    than 201. *)
Theorem checkout_aborts_when_creation_fails :
  forall py_repr env session w,
    (cart session <> [] ->
     snd (Shopify.create_order (shopify_client env) (cart session) "kiosk")
     = None ->
     let r := complete_order py_repr env session w in
     fst (fst r)
     = Redirect "kiosk_checkout" (get_translation "error" "is", "error")
     /\ snd (fst r) = session
     /\ orders (snd r) = orders w
     /\ files (snd r) = files w)
    /\ ((forall call,
            Shopify.requests (shopify_client env) call = Shopify.Failed) ->
        snd (Shopify.create_order (shopify_client env) (cart session) "kiosk")
        = None)
    /\ ((forall call code body,
            Shopify.requests (shopify_client env) call
            = Shopify.Response code body -> code <> 201) ->
        snd (Shopify.create_order (shopify_client env) (cart session) "kiosk")
        = None).
Proof.
  intros py_repr env session w. split; [| split].
  - intros Hcart Hnone r. subst r. unfold complete_order.
    destruct (cart session) as [|line rest] eqn:C; [contradiction |].
    destruct (Shopify.create_order _ _ _) as [calls created].
    simpl in Hnone. subst created. repeat split.
  - apply create_order_unreachable.
  - apply create_order_rejected.
Qed.

(** The network is down at checkout. *)
Lemma checkout_aborts_when_creation_fails_witness :
  let session := {| cart := [("41", Sample.skyr)]; test_mode := false |} in
  let w := Sample.store [Sample.kiosk_order "o1" "551" "completed" 5] in
  let r := complete_order (fun _ => "") (Sample.env_at 30 Sample.offline)
             session w in
  fst (fst r) = Redirect "kiosk_checkout" ("Villa", "error")
  /\ orders (snd r) = orders w
  /\ files (snd r) = files w.
Proof.
  intros session w r.
  pose proof (proj1 (checkout_aborts_when_creation_fails
                       (fun _ => "") (Sample.env_at 30 Sample.offline)
                       session w)) as H.
  assert (cart session <> []) as Hcart by discriminate.
  specialize (H Hcart eq_refl).
  exact (conj (proj1 H) (proj2 (proj2 H))).
Defined.

(** C4 at a failing input. The cart holds two units of X, X is on shelf 7
    and the Catalog Service creates order 555, number K1. The checkout
    persists one pending row with remote order id 555 and writes one file
    under [pending/] with the same id, remote ids and items -- and with one
    shelf entry, [7], where the claim says two. The resolution of the spec
    and the loop of [api_next_order] both give [7; 7] on the same items. *)
Theorem checkout_records_one_shelf_entry_per_line :
  forall py_repr,
    let env := Sample.env_at 30 Sample.online in
    let session := {| cart := [("41", Sample.skyr)]; test_mode := false |} in
    let w := Sample.store [] in
    let r := complete_order py_repr env session w in
    fst (fst r) = OrderComplete (get_next_order_number 30) (uuid4 env)
    /\ orders (snd r)
       = [OrderQueue.mk (uuid4 env) (Some "kiosk") (Some "555") (JStr "K1")
            (Dumps (JArr [item_dict Sample.skyr])) (Some "pending") None
            false 30 None None]
    /\ files (snd r)
       = [({| directory := "pending";
              timestamp := {| format := "%Y%m%d_%H%M%S"; moment := 30 |};
              order_id := uuid4 env |},
           {| q_order_id := uuid4 env;
              q_order_type := "kiosk";
              q_shopify_order_id := Some "555";
              q_shopify_order_number := JStr "K1";
              q_items := JArr [item_dict Sample.skyr];
              q_shelf_numbers := Some [7];
              q_pickup_code := None;
              q_created_at := 30;
              q_processing_at := None;
              q_test_order := Some false |})]
    /\ Spec.resolve (shelves w) [Sample.skyr] = [7; 7]
    /\ next_shelf_numbers (shelves w) [item_dict Sample.skyr] [] = Ok [7; 7].
Proof. intros py_repr. vm_compute. repeat split. Qed.

(** ** Status moves *)

Lemma forward_refl s : Spec.forward s s.
Proof. left. reflexivity. Qed.

Lemma forward_trans s1 s2 s3 :
  Spec.forward s1 s2 -> Spec.forward s2 s3 -> Spec.forward s1 s3.
Proof.
  unfold Spec.forward. intros [-> | [-> ->]] [-> | [E ->]]; auto.
Qed.

Lemma advances_refl tbl : Spec.advances tbl tbl.
Proof.
  intros key. destruct (find (has_id key) tbl) as [o|] eqn:E.
  - exists o. split; [reflexivity | apply forward_refl].
  - intros o' H. discriminate H.
Qed.

Lemma advances_trans t1 t2 t3 :
  Spec.advances t1 t2 -> Spec.advances t2 t3 -> Spec.advances t1 t3.
Proof.
  intros H12 H23 key. specialize (H12 key). specialize (H23 key).
  destruct (find (has_id key) t1) as [o1|].
  - destruct H12 as (o2 & F2 & S12). rewrite F2 in H23.
    destruct H23 as (o3 & F3 & S23). exists o3. split; [exact F3 |].
    exact (forward_trans _ _ _ S12 S23).
  - destruct (find (has_id key) t2) as [o2|].
    + destruct H23 as (o3 & F3 & S23). intros o' F'.
      rewrite F3 in F'. injection F' as <-.
      specialize (H12 o2 eq_refl). unfold Spec.forward in S23.
      destruct S23 as [-> | [_ ->]]; auto.
    + exact H23.
Qed.

(** The UPDATE that claims a pending row. *)
Lemma advances_replaced tbl order order' :
  pk_unique tbl = true -> In order tbl ->
  id order' = id order ->
  status order = Some "pending" -> status order' = Some "processing" ->
  Spec.advances tbl (replaced order' tbl).
Proof.
  intros Hpk Hin Hid Hs Hs' key. rewrite find_replaced.
  destruct (find (has_id key) tbl) as [o|] eqn:E; simpl.
  - eexists. split; [reflexivity |].
    destruct (has_id (id order') o) eqn:K; [| apply forward_refl].
    apply has_id_true in K.
    pose proof (find_by_own_id tbl order Hpk Hin) as F.
    destruct (find_has_id _ _ _ E) as [_ Ho].
    assert (key = id order) as -> by congruence.
    rewrite E in F. injection F as ->.
    right. split; assumption.
  - intros o' H. discriminate H.
Qed.

(** The INSERT of a pending row. *)
Lemma advances_insert tbl tbl' o :
  commit_insert o tbl = Ok tbl' -> status o = Some "pending" ->
  Spec.advances tbl tbl' /\ (pk_unique tbl = true -> pk_unique tbl' = true).
Proof.
  unfold commit_insert. intros H Hs.
  destruct (existsb (has_id (id o)) tbl) eqn:X; [discriminate |].
  destruct (match shopify_order_id o with Some _ => _ | None => _ end);
    [discriminate |].
  destruct (negb (valid_order_type (order_type o))); [discriminate |].
  destruct (negb (valid_status (status o))); [discriminate |].
  injection H as <-. split.
  - intros key. destruct (find (has_id key) tbl) as [x|] eqn:E.
    + exists x. split; [apply find_app_one; exact E | apply forward_refl].
    + intros o' F. left.
      assert (In o' (tbl ++ [o])) as Hin by (apply (find_has_id _ _ _ F)).
      destruct (find_has_id _ _ _ F) as [_ Hk].
      apply in_app_or in Hin. destruct Hin as [Hin | [<- | []]]; [| exact Hs].
      exfalso. rewrite find_has_id_none in E. exact (E o' Hin Hk).
  - intros Hpk. apply pk_unique_app_one; assumption.
Qed.

Lemma is_pending_status o : is_pending o = true -> status o = Some "pending".
Proof. unfold is_pending. apply opt_eqb_eq. Qed.

Lemma api_next_order_advances env w :
  pk_unique (orders w) = true ->
  Spec.advances (orders w) (orders (snd (api_next_order env w)))
  /\ pk_unique (orders (snd (api_next_order env w))) = true.
Proof.
  intros Hpk. unfold api_next_order.
  destruct (first (order_by_created_at (filter is_pending (orders w))))
    as [o|] eqn:E; [| split; [apply advances_refl | exact Hpk]].
  apply first_pending_in in E. destruct E as [Hin Hp].
  fold (Spec.claimed (now env) o). rewrite commit_update_claimed.
  assert (forall r : api * World,
             orders (snd r) = replaced (Spec.claimed (now env) o) (orders w) ->
             Spec.advances (orders w) (orders (snd r))
             /\ pk_unique (orders (snd r)) = true) as Hany.
  { intros r ->. split.
    - apply (advances_replaced _ o); auto using is_pending_status.
    - rewrite pk_unique_replaced. exact Hpk. }
  destruct (items_and_shelf_numbers _ _) as [[decoded shelf_numbers]|e];
    apply Hany; reflexivity.
Qed.

Lemma verify_pickup_advances env code w :
  pk_unique (orders w) = true ->
  Spec.advances (orders w) (orders (snd (verify_pickup env code w)))
  /\ pk_unique (orders (snd (verify_pickup env code w))) = true.
Proof.
  intros Hpk. unfold verify_pickup.
  destruct (first (filter (matches_pickup code) (orders w))) as [o|] eqn:E;
    [| split; [apply advances_refl | exact Hpk]].
  apply first_filter_some in E. destruct E as [Hin Hm].
  apply matches_pickup_iff in Hm. destruct Hm as (_ & Hs & _).
  set (o' := with_status (Some "processing") o).
  replace (commit_update o' (orders w)) with (Ok (replaced o' (orders w)))
    by reflexivity.
  assert (forall r : page * World,
             orders (snd r) = replaced o' (orders w) ->
             Spec.advances (orders w) (orders (snd r))
             /\ pk_unique (orders (snd r)) = true) as Hany.
  { intros r ->. split.
    - apply (advances_replaced _ o); auto.
    - rewrite pk_unique_replaced. exact Hpk. }
  destruct (json_loads (items o')) as [decoded|e];
    [| apply Hany; reflexivity].
  destruct (save_order_to_queue _ _ _ _ _) as [saved fs].
  apply Hany. reflexivity.
Qed.

Lemma complete_order_advances py_repr env session w :
  pk_unique (orders w) = true ->
  Spec.advances (orders w)
                (orders (snd (complete_order py_repr env session w)))
  /\ pk_unique (orders (snd (complete_order py_repr env session w))) = true.
Proof.
  intros Hpk.
  assert (forall r : page * Session * World,
             orders (snd r) = orders w ->
             Spec.advances (orders w) (orders (snd r))
             /\ pk_unique (orders (snd r)) = true) as Hsame.
  { intros r ->. split; [apply advances_refl | exact Hpk]. }
  unfold complete_order.
  destruct (cart session) as [|line rest]; [apply Hsame; reflexivity |].
  destruct (Shopify.create_order _ _ _) as [calls [order_data|]];
    [| apply Hsame; reflexivity].
  destruct (negb (truthy order_data)); [apply Hsame; reflexivity |].
  destruct (bind _ _) as [[remote_id remote_number]|e];
    [| apply Hsame; reflexivity].
  destruct (save_order_to_queue _ _ _ _ _) as [saved fs].
  match goal with
  | |- context [commit_insert ?o ?tbl] =>
      destruct (commit_insert o tbl) as [tbl'|e] eqn:C;
      [apply advances_insert in C; [| reflexivity] | apply Hsame; reflexivity]
  end.
  simpl in *. destruct C as [Hadv Hk]. split; [exact Hadv | exact (Hk Hpk)].
Qed.

Lemma handle_advances py_repr env r w :
  Spec.creates_or_claims r = true ->
  pk_unique (orders w) = true ->
  Spec.advances (orders w) (orders (handle py_repr env r w))
  /\ pk_unique (orders (handle py_repr env r w)) = true.
Proof.
  destruct r; simpl; intros Hr Hpk; try discriminate Hr.
  - apply complete_order_advances. exact Hpk.
  - apply verify_pickup_advances. exact Hpk.
  - apply api_next_order_advances. exact Hpk.
Qed.

Lemma find_replaced_other key o tbl :
  id o <> key -> find (has_id key) (replaced o tbl) = find (has_id key) tbl.
Proof.
  intros Hother. rewrite find_replaced.
  destruct (find (has_id key) tbl) as [r|] eqn:E; [| reflexivity].
  simpl. destruct (find_has_id _ _ _ E) as [_ Hr].
  destruct (has_id (id o) r) eqn:K; [| reflexivity].
  apply has_id_true in K. congruence.
Qed.

(** A completion and a status update write at most the row they name. *)
Lemma api_complete_order_orders env order_id w :
  orders (snd (api_complete_order env order_id w)) = orders w
  \/ exists o',
       id o' = order_id
       /\ orders (snd (api_complete_order env order_id w))
          = replaced o' (orders w).
Proof.
  destruct (find (has_id order_id) (orders w)) as [o|] eqn:E.
  - right. destruct (api_complete_order_found env order_id w o E)
      as (_ & H & _).
    exists (Spec.completed (now env) o).
    split; [exact (proj2 (find_has_id _ _ _ E)) | exact H].
  - left. unfold api_complete_order, get_or_404. rewrite E. reflexivity.
Qed.

Lemma api_update_order_status_orders env order_id body w :
  orders (snd (api_update_order_status env order_id body w)) = orders w
  \/ exists o',
       id o' = order_id
       /\ orders (snd (api_update_order_status env order_id body w))
          = replaced o' (orders w).
Proof.
  unfold api_update_order_status, get_or_404.
  destruct (find (has_id order_id) (orders w)) as [o|] eqn:E; cbn [bind];
    [| left; reflexivity].
  destruct (find_has_id _ _ _ E) as [_ Hid].
  destruct (dict_get body "status") as [chosen|]; cbn [bind];
    [| left; reflexivity].
  destruct (dict_get body "message") as [message|]; cbn [bind];
    [| left; reflexivity].
  destruct (bind_text chosen) as [column|]; cbn [bind];
    [| left; reflexivity].
  cbv zeta.
  match goal with
  | |- context [commit_update ?row (orders w)] =>
      assert (id row = order_id) as Hrow
        by (destruct (opt_eqb column (Some "completed"));
            [| destruct (opt_eqb column (Some "processing"))]; exact Hid);
      unfold commit_update; destruct (valid_status (status row));
      [right; exists row; split; [exact Hrow | reflexivity]
      | left; reflexivity]
  end.
Qed.

Lemma written_row_other key order_id tbl tbl' :
  order_id <> key ->
  tbl' = tbl
  \/ (exists o', id o' = order_id /\ tbl' = replaced o' tbl) ->
  find (has_id key) tbl' = find (has_id key) tbl
  /\ pk_unique tbl' = pk_unique tbl.
Proof.
  intros Hother [-> | (o' & Hid & ->)]; [split; reflexivity |].
  split; [| apply pk_unique_replaced].
  apply find_replaced_other. congruence.
Qed.

Lemma moved_trans c1 c2 s1 s2 s3 :
  Spec.moved c1 s1 s2 -> Spec.moved c2 s2 s3 ->
  Spec.moved (c1 || c2) s1 s3.
Proof.
  unfold Spec.moved, Spec.forward.
  intros [[-> | [-> ->]] | [-> ->]] [[-> | [E ->]] | [-> ->]];
    try discriminate E; rewrite ?orb_true_r; auto.
Qed.

(** One request, seen from an order that it does not re-status. *)
Lemma handle_moves py_repr env r w key :
  pk_unique (orders w) = true ->
  Spec.sets_status key r = false ->
  pk_unique (orders (handle py_repr env r w)) = true
  /\ match find (has_id key) (orders w) with
     | Some o =>
         exists o',
           find (has_id key) (orders (handle py_repr env r w)) = Some o'
           /\ Spec.moved (Spec.completes key r) (status o) (status o')
     | None =>
         forall o',
           find (has_id key) (orders (handle py_repr env r w)) = Some o' ->
           status o' = Some "pending" \/ status o' = Some "processing"
     end.
Proof.
  intros Hpk Hset.
  assert (forall tbl',
             find (has_id key) tbl' = find (has_id key) (orders w) ->
             match find (has_id key) (orders w) with
             | Some o =>
                 exists o',
                   find (has_id key) tbl' = Some o'
                   /\ Spec.moved (Spec.completes key r) (status o) (status o')
             | None =>
                 forall o',
                   find (has_id key) tbl' = Some o' ->
                   status o' = Some "pending" \/ status o' = Some "processing"
             end) as Hsame.
  { intros tbl' ->. destruct (find (has_id key) (orders w)) as [o|].
    - exists o. split; [reflexivity | left; apply forward_refl].
    - intros o' H. discriminate H. }
  destruct (Spec.creates_or_claims r) eqn:Hr.
  - destruct (handle_advances py_repr env r w Hr Hpk) as [Hstep Hpk'].
    split; [exact Hpk' |]. specialize (Hstep key).
    destruct (find (has_id key) (orders w)) as [o|]; [| exact Hstep].
    destruct Hstep as (o' & Hfind & Hforward).
    exists o'. split; [exact Hfind | left; exact Hforward].
  - destruct r as [session | code | | order_id | order_id body];
      try discriminate Hr; cbn [handle].
    + destruct (String.eqb order_id key) eqn:K.
      * apply String.eqb_eq in K. subst order_id.
        cbn [Spec.completes]. rewrite String.eqb_refl.
        destruct (find (has_id key) (orders w)) as [o|] eqn:E.
        -- destruct (api_complete_order_found env key w o E)
             as (_ & Horders & _ & _ & _ & Hfind).
           split; [rewrite Horders, pk_unique_replaced; exact Hpk |].
           eexists. split; [exact Hfind |]. right. split; reflexivity.
        -- unfold api_complete_order, get_or_404. rewrite E. cbn [snd].
           split; [exact Hpk |]. intros o' H. rewrite E in H.
           discriminate H.
      * apply String.eqb_neq in K.
        destruct (written_row_other key order_id (orders w) _ K
                    (api_complete_order_orders env order_id w))
          as [Hfind Hpk'].
        split; [rewrite Hpk'; exact Hpk | exact (Hsame _ Hfind)].
    + cbn [Spec.sets_status] in Hset. apply String.eqb_neq in Hset.
      destruct (written_row_other key order_id (orders w) _ Hset
                  (api_update_order_status_orders env order_id body w))
        as [Hfind Hpk'].
      split; [rewrite Hpk'; exact Hpk | exact (Hsame _ Hfind)].
Qed.

(** A sequence of requests, seen from an order that none of them
    re-statuses. *)
Lemma run_moves py_repr rs :
  forall w key,
    pk_unique (orders w) = true ->
    existsb (fun er => Spec.sets_status key (snd er)) rs = false ->
    match find (has_id key) (orders w) with
    | Some o =>
        exists o',
          find (has_id key) (orders (run py_repr rs w)) = Some o'
          /\ Spec.moved (existsb (fun er => Spec.completes key (snd er)) rs)
                        (status o) (status o')
    | None =>
        forall o',
          find (has_id key) (orders (run py_repr rs w)) = Some o' ->
          Spec.moved (existsb (fun er => Spec.completes key (snd er)) rs)
                     (Some "pending") (status o')
    end.
Proof.
  induction rs as [|[env r] rs IH]; intros w key Hpk Hset.
  - cbn [run existsb].
    destruct (find (has_id key) (orders w)) as [o|].
    + exists o. split; [reflexivity | left; apply forward_refl].
    + intros o' H. discriminate H.
  - cbn [run existsb snd] in *. apply orb_false_iff in Hset.
    destruct Hset as [Hr Hrs].
    destruct (handle_moves py_repr env r w key Hpk Hr) as [Hpk' Hstep].
    specialize (IH (handle py_repr env r w) key Hpk' Hrs).
    destruct (find (has_id key) (orders w)) as [o|].
    + destruct Hstep as (o1 & Hfind1 & Hmoved1). rewrite Hfind1 in IH.
      destruct IH as (o' & Hfind & Hmoved). exists o'.
      split; [exact Hfind | exact (moved_trans _ _ _ _ _ Hmoved1 Hmoved)].
    + destruct (find (has_id key) (orders (handle py_repr env r w)))
        as [o1|].
      * intros o' Hfind. destruct IH as (o'' & Hfind' & Hmoved).
        assert (o'' = o') as -> by congruence.
        apply (moved_trans (Spec.completes key r) _ _ (status o1));
          [| exact Hmoved].
        left. destruct (Hstep o1 eq_refl) as [-> | ->];
          [left; reflexivity | right; split; reflexivity].
      * intros o' Hfind. specialize (IH o' Hfind).
        apply (moved_trans (Spec.completes key r) _ _ (Some "pending"));
          [left; left; reflexivity | exact IH].
Qed.

(** C1, as the code has it. Take any sequence of checkouts, pickup
    verifications, claims, completions and status updates, run on a store
    whose primary key holds, and an order that no status update of the
    sequence names. That order keeps its status, or moves from [pending] to
    [processing], or -- only when a completion of the sequence names it --
    ends [completed]; an order that appears during the sequence ends
    [pending] or [processing], or [completed] under the same condition. The
    two remaining requests do not look at the current status: completion
    sets [completed] on any order it finds, a failed one included, and a
    status update sets whatever status the caller names among the four the
    table allows. *)
Theorem status_moves_by_request :
  forall py_repr,
    (forall rs w key,
        pk_unique (orders w) = true ->
        existsb (fun er => Spec.sets_status key (snd er)) rs = false ->
        match find (has_id key) (orders w) with
        | Some o =>
            exists o',
              find (has_id key) (orders (run py_repr rs w)) = Some o'
              /\ (status o' = status o
                  \/ (status o = Some "pending"
                      /\ status o' = Some "processing")
                  \/ (existsb (fun er => Spec.completes key (snd er)) rs
                      = true
                      /\ status o' = Some "completed"))
        | None =>
            forall o',
              find (has_id key) (orders (run py_repr rs w)) = Some o' ->
              status o' = Some "pending"
              \/ status o' = Some "processing"
              \/ (existsb (fun er => Spec.completes key (snd er)) rs = true
                  /\ status o' = Some "completed")
        end)
    /\
    (forall env key w o,
        find (has_id key) (orders w) = Some o ->
        exists o',
          find (has_id key)
               (orders (handle py_repr env (ApiCompleteOrder key) w))
          = Some o'
          /\ status o' = Some "completed")
    /\
    (forall env key s w o,
        find (has_id key) (orders w) = Some o ->
        valid_status (Some s) = true ->
        exists o',
          find (has_id key)
               (orders (handle py_repr env
                          (ApiUpdateOrderStatus key
                             (JObj [("status", JStr s)])) w))
          = Some o'
          /\ status o' = Some s).
Proof.
  intros py_repr. split; [| split].
  - intros rs w key Hpk Hset.
    pose proof (run_moves py_repr rs w key Hpk Hset) as H.
    destruct (find (has_id key) (orders w)) as [o|].
    + destruct H as (o' & Hfind & [[Hsame | Hclaim] | Hdone]);
        exists o'; (split; [exact Hfind |]); auto.
    + intros o' Hfind.
      destruct (H o' Hfind) as [[Hsame | [_ Hclaim]] | Hdone]; auto.
  - intros env key w o Hfind. simpl.
    destruct (api_complete_order_found env key w o Hfind)
      as (_ & _ & _ & _ & _ & H).
    eexists. split; [exact H | reflexivity].
  - intros env key s w o Hfind Hvalid. simpl.
    unfold api_update_order_status, get_or_404. rewrite Hfind.
    cbn [bind dict_get assoc String.eqb Ascii.eqb Bool.eqb bind_text].
    assert (forall o', id o' = id o -> status o' = Some s ->
              exists o'',
                find (has_id key)
                     (orders (snd match commit_update o' (orders w) with
                                  | Ok tbl => (Success, set_orders tbl w)
                                  | Raise e => (Error e, w)
                                  end)) = Some o''
                /\ status o'' = Some s) as Hany.
    { intros o' Hid Hs. unfold commit_update. rewrite Hs, Hvalid. simpl.
      exists o'. split; [| exact Hs].
      apply (find_replaced_same _ o); assumption. }
    destruct (opt_eqb (Some s) (Some "completed"));
      [| destruct (opt_eqb (Some s) (Some "processing"))];
      apply Hany; reflexivity.
Qed.

(** A pickup, a claim, a checkout, the completion of the claimed order and
    a status update that sends it back to [pending]: the order picked up,
    which the last two requests do not name, went from [pending] to
    [processing] and stayed there. *)
Lemma status_moves_by_request_witness :
  let w := Sample.store [Sample.wolt_order "o1" "123456" "pending" 5;
                         Sample.kiosk_order "o2" "552" "pending" 6] in
  let env := Sample.env_at 30 Sample.online in
  let rs := [(env, VerifyPickup (Some "123456"));
             (env, ApiNextOrder);
             (env, CompleteOrder {| cart := [("41", Sample.skyr)];
                                    test_mode := false |});
             (env, ApiCompleteOrder "o2");
             (env, ApiUpdateOrderStatus "o2"
                     (JObj [("status", JStr "pending")]))] in
  exists o',
    find (has_id "o1") (orders (run (fun _ => "") rs w)) = Some o'
    /\ (status o' = Some "pending"
        \/ (Some "pending" = Some "pending"
            /\ status o' = Some "processing")
        \/ (false = true /\ status o' = Some "completed")).
Proof.
  intros w env rs.
  exact (proj1 (status_moves_by_request (fun _ => "")) rs w "o1"
               eq_refl eq_refl).
Defined.

(** C1, as stated, fails: a status update with body [{"status":
    "pending"}] on a completed order is accepted and the order is pending
    again; the same on a failed order. *)
Lemma set_status_moves_completed_back_to_pending :
  let env := Sample.env_at 30 Sample.offline in
  let back := ApiUpdateOrderStatus "o1" (JObj [("status", JStr "pending")]) in
  let after (state : string) :=
    option_map status
      (find (has_id "o1")
            (orders (run (fun _ => "") [(env, back)]
                         (Sample.store
                            [Sample.kiosk_order "o1" "555" state 5])))) in
  fst (api_update_order_status env "o1" (JObj [("status", JStr "pending")])
         (Sample.store [Sample.kiosk_order "o1" "555" "completed" 5]))
  = Success
  /\ after "completed" = Some (Some "pending")
  /\ after "failed" = Some (Some "pending").
Proof. vm_compute. repeat split. Qed.

(** * Further properties of the code *)

(** ** What each request touches *)

Lemma api_next_order_some env w o :
  first (order_by_created_at (filter is_pending (orders w))) = Some o ->
  api_next_order env w
  = (match items_and_shelf_numbers (shelves w) o with
     | Ok (decoded, shelf_numbers) =>
         NextOrder (id o) (order_type o) shelf_numbers decoded
     | Raise e => Error e
     end,
     set_orders (replaced (Spec.claimed (now env) o) (orders w)) w).
Proof.
  intros Hfirst. unfold api_next_order. rewrite Hfirst.
  fold (Spec.claimed (now env) o). rewrite commit_update_claimed.
  replace (items_and_shelf_numbers
             (shelves (set_orders
                         (replaced (Spec.claimed (now env) o) (orders w)) w))
             (Spec.claimed (now env) o))
    with (items_and_shelf_numbers (shelves w) o) by reflexivity.
  destruct (items_and_shelf_numbers (shelves w) o) as [[decoded numbers]|e];
    reflexivity.
Qed.

Lemma api_next_order_none env w :
  first (order_by_created_at (filter is_pending (orders w))) = None ->
  api_next_order env w = (NoOrders, w).
Proof. intros H. unfold api_next_order. rewrite H. reflexivity. Qed.

Lemma verify_pickup_frame env code w :
  shelves (snd (verify_pickup env code w)) = shelves w
  /\ remote (snd (verify_pickup env code w)) = remote w.
Proof.
  unfold verify_pickup.
  destruct (first (filter (matches_pickup code) (orders w))) as [o|];
    [| split; reflexivity].
  destruct (commit_update _ _) as [tbl|e]; [| split; reflexivity].
  destruct (json_loads _) as [decoded|e]; [| split; reflexivity].
  destruct (save_order_to_queue _ _ _ _ _) as [saved fs]. split; reflexivity.
Qed.

Lemma complete_order_frame py_repr env session w :
  shelves (snd (complete_order py_repr env session w)) = shelves w
  /\ exists calls,
       remote (snd (complete_order py_repr env session w)) = remote w ++ calls.
Proof.
  unfold complete_order.
  destruct (cart session) as [|line rest];
    [split; [reflexivity | exists []; simpl; rewrite app_nil_r; reflexivity] |].
  destruct (Shopify.create_order _ _ _) as [calls [order_data|]];
    [| split; [reflexivity | exists calls; reflexivity]].
  destruct (negb (truthy order_data));
    [split; [reflexivity | exists calls; reflexivity] |].
  destruct (bind _ _) as [[remote_id remote_number]|e];
    [| split; [reflexivity | exists calls; reflexivity]].
  destruct (save_order_to_queue _ _ _ _ _) as [saved fs].
  destruct (commit_insert _ _) as [tbl|e];
    split; try reflexivity; exists calls; reflexivity.
Qed.

Lemma api_update_order_status_frame env order_id body w :
  shelves (snd (api_update_order_status env order_id body w)) = shelves w
  /\ files (snd (api_update_order_status env order_id body w)) = files w
  /\ remote (snd (api_update_order_status env order_id body w)) = remote w.
Proof.
  unfold api_update_order_status.
  destruct (bind _ _) as [tbl|e]; repeat split; reflexivity.
Qed.

Lemma api_next_order_frame env w :
  shelves (snd (api_next_order env w)) = shelves w
  /\ files (snd (api_next_order env w)) = files w
  /\ remote (snd (api_next_order env w)) = remote w.
Proof.
  destruct (first (order_by_created_at (filter is_pending (orders w))))
    as [o|] eqn:E.
  - rewrite (api_next_order_some env w o E). repeat split; reflexivity.
  - rewrite (api_next_order_none env w E). repeat split; reflexivity.
Qed.

Lemma api_complete_order_frame env order_id w :
  shelves (snd (api_complete_order env order_id w)) = shelves w
  /\ files (snd (api_complete_order env order_id w)) = files w
  /\ exists calls,
       remote (snd (api_complete_order env order_id w)) = remote w ++ calls.
Proof.
  destruct (find (has_id order_id) (orders w)) as [o|] eqn:E.
  - destruct (api_complete_order_found env order_id w o E)
      as (_ & _ & H3 & H4 & H5 & _).
    repeat split; try assumption. eexists. exact H3.
  - unfold api_complete_order, get_or_404. rewrite E. simpl.
    repeat split. exists []. rewrite app_nil_r. reflexivity.
Qed.

(** X1. Which part of the store a request can touch. No request changes
    the shelf table. Queue files are written by the checkout and by pickup
    verification only: a claim, a completion and a status update leave the
    [./orders] tree as it is. The Catalog Service is contacted by the
    checkout and by completion only, and the log of requests sent to it only
    grows. *)
Theorem requests_touch_only_their_part :
  forall py_repr env r w,
    let w' := handle py_repr env r w in
    shelves w' = shelves w
    /\ (exists calls, remote w' = remote w ++ calls)
    /\ match r with
       | CompleteOrder _ => True
       | VerifyPickup _ => remote w' = remote w
       | ApiNextOrder => files w' = files w /\ remote w' = remote w
       | ApiCompleteOrder _ => files w' = files w
       | ApiUpdateOrderStatus _ _ => files w' = files w /\ remote w' = remote w
       end.
Proof.
  intros py_repr env r w w'. subst w'.
  destruct r as [session | code | | order_id | order_id body]; simpl.
  - destruct (complete_order_frame py_repr env session w) as [H1 H2]. auto.
  - destruct (verify_pickup_frame env code w) as [H1 H2].
    repeat split; try assumption.
    exists []. rewrite app_nil_r. exact H2.
  - destruct (api_next_order_frame env w) as (H1 & H2 & H3).
    repeat split; try assumption.
    exists []. rewrite app_nil_r. exact H3.
  - destruct (api_complete_order_frame env order_id w) as (H1 & H2 & H3). auto.
  - destruct (api_update_order_status_frame env order_id body w)
      as (H1 & H2 & H3).
    repeat split; try assumption.
    exists []. rewrite app_nil_r. exact H3.
Qed.

(** ** Polling the queue *)

Lemma filter_length_middle {A} (f : A -> bool) before x x' after :
  f x = true -> f x' = false ->
  List.length (filter f (before ++ x' :: after))
  = Nat.pred (List.length (filter f (before ++ x :: after))).
Proof.
  intros Hx Hx'. rewrite !filter_app. simpl. rewrite Hx, Hx'.
  rewrite !List.length_app. simpl. rewrite Nat.add_succ_r. reflexivity.
Qed.

Lemma pending_after_claim now o tbl :
  pk_unique tbl = true -> In o tbl -> is_pending o = true ->
  List.length (filter is_pending (replaced (Spec.claimed now o) tbl))
  = Nat.pred (List.length (filter is_pending tbl)).
Proof.
  intros Hpk Hin Hp. apply in_split in Hin.
  destruct Hin as (before & after & ->).
  rewrite (replaced_middle before o after (Spec.claimed now o) Hpk eq_refl).
  apply filter_length_middle; [exact Hp | reflexivity].
Qed.

Lemma first_order_by_none rows :
  first (order_by_created_at rows) = None -> rows = [].
Proof.
  destruct rows as [|o rows]; [reflexivity |]. simpl.
  rewrite first_insert_by_created_at.
  destruct (first (order_by_created_at rows)) as [m|];
    [destruct (created_at o <=? created_at m) |]; discriminate.
Qed.

Lemma api_next_order_pending env w :
  pk_unique (orders w) = true ->
  (fst (api_next_order env w) = NoOrders
   <-> filter is_pending (orders w) = [])
  /\ List.length (filter is_pending (orders (snd (api_next_order env w))))
     = Nat.pred (List.length (filter is_pending (orders w)))
  /\ pk_unique (orders (snd (api_next_order env w))) = true.
Proof.
  intros Hpk.
  destruct (first (order_by_created_at (filter is_pending (orders w))))
    as [o|] eqn:E.
  - rewrite (api_next_order_some env w o E). simpl.
    destruct (first_pending_in _ _ E) as [Hin Hp].
    split; [| split].
    + split.
      * destruct (items_and_shelf_numbers _ _) as [[d n]|e]; discriminate.
      * intros Hnil. rewrite Hnil in E. discriminate E.
    + apply pending_after_claim; assumption.
    + rewrite pk_unique_replaced. exact Hpk.
  - rewrite (api_next_order_none env w E). simpl.
    apply first_order_by_none in E. rewrite E.
    split; [| split]; [split; reflexivity | reflexivity | exact Hpk].
Qed.

(** X2. Polling drains the queue one order at a time. On a store whose
    primary key holds, [GET /api/orders/next] answers [no_orders] exactly
    when no order is pending; otherwise it takes exactly one order out of
    the pending ones, whether it answers with the order or with an error.
    After as many polls as there were pending orders, or more, none is
    pending. *)
Theorem polling_drains_the_queue :
  forall py_repr w,
    pk_unique (orders w) = true ->
    (forall env,
        (fst (api_next_order env w) = NoOrders
         <-> filter is_pending (orders w) = [])
        /\ List.length (filter is_pending (orders (snd (api_next_order env w))))
           = Nat.pred (List.length (filter is_pending (orders w))))
    /\ (forall envs,
           (List.length (filter is_pending (orders w)) <= List.length envs)%nat ->
           filter is_pending
             (orders (run py_repr (map (fun env => (env, ApiNextOrder)) envs) w))
           = []).
Proof.
  intros py_repr w Hpk. split.
  - intros env. destruct (api_next_order_pending env w Hpk) as (H1 & H2 & _).
    split; assumption.
  - intros envs. revert w Hpk.
    induction envs as [|env envs IH]; intros w Hpk Hlen; simpl in *.
    + destruct (filter is_pending (orders w)); [reflexivity |].
      simpl in Hlen. lia.
    + destruct (api_next_order_pending env w Hpk) as (_ & H2 & H3).
      apply IH; [exact H3 |]. rewrite H2. lia.
Qed.

(** Three pending orders, three polls. *)
Lemma polling_drains_the_queue_witness :
  let w := Sample.store [Sample.kiosk_order "o1" "551" "pending" 5;
                         Sample.kiosk_order "o2" "552" "pending" 20;
                         Sample.wolt_order "o3" "123456" "pending" 10] in
  let env := Sample.env_at 30 Sample.offline in
  filter is_pending
    (orders (run (fun _ => "")
                 (map (fun e => (e, ApiNextOrder)) [env; env; env]) w))
  = [].
Proof.
  intros w env.
  refine (proj2 (polling_drains_the_queue (fun _ => "") w eq_refl)
                [env; env; env] _).
  simpl. lia.
Defined.

(** ** Claim, then complete *)

Lemma find_after_claim now o tbl :
  pk_unique tbl = true -> In o tbl ->
  find (has_id (id o)) (replaced (Spec.claimed now o) tbl)
  = Some (Spec.claimed now o).
Proof.
  intros Hpk Hin.
  apply (find_replaced_same _ o);
    [apply find_by_own_id; assumption | reflexivity].
Qed.

(** X3. One pending order from claim to completion. When the poll selects
    order [o], whose items column holds a JSON list of items, each an object
    with a ['sku'] and a ['quantity'] entry among whatever else it holds, and
    the device then reports completion of the id it was given: the poll
    answers with the order and its shelf numbers, the completion answers
    success, and the row ends [completed] with [processed_at] the time of the
    poll and [completed_at] the time of the completion. The poll sends
    nothing to the Catalog Service. The completion sends the requests of one
    call of [fulfill_order] when the order has a remote order id that is not
    empty, and nothing when it has none or an empty one. *)
Theorem claim_then_complete :
  forall env1 env2 w o stored lines,
    pk_unique (orders w) = true ->
    first (order_by_created_at (filter is_pending (orders w))) = Some o ->
    items o = json_dumps (JArr stored) ->
    Forall2 Spec.reads_as stored lines ->
    let polled := api_next_order env1 w in
    let done := api_complete_order env2 (id o) (snd polled) in
    let row := Spec.completed (now env2) (Spec.claimed (now env1) o) in
    fst polled
    = NextOrder (id o) (order_type o) (Spec.resolve (shelves w) lines)
                (JArr stored)
    /\ fst done = Success
    /\ find (has_id (id o)) (orders (snd done)) = Some row
    /\ status row = Some "completed"
    /\ processed_at row = Some (now env1)
    /\ completed_at row = Some (now env2)
    /\ remote (snd polled) = remote w
    /\ remote (snd done)
       = remote w
         ++ match shopify_order_id o with
            | Some remote_id =>
                if String.eqb remote_id ""
                then []
                else fst (Shopify.fulfill_order (shopify_client env2)
                            remote_id)
            | None => []
            end.
Proof.
  intros env1 env2 w o stored lines Hpk Hfirst Hitems Hlines polled done row.
  destruct (first_pending_in _ _ Hfirst) as [Hin _].
  assert (polled
          = (NextOrder (id o) (order_type o) (Spec.resolve (shelves w) lines)
                       (JArr stored),
             set_orders (replaced (Spec.claimed (now env1) o) (orders w)) w))
    as Hpolled.
  { subst polled. rewrite (api_next_order_some env1 w o Hfirst).
    unfold items_and_shelf_numbers. rewrite Hitems.
    cbn [json_dumps json_loads bind iter].
    rewrite (next_shelf_numbers_lines _ _ _ Hlines). reflexivity. }
  assert (find (has_id (id o)) (orders (snd polled))
          = Some (Spec.claimed (now env1) o)) as Hfound.
  { rewrite Hpolled. simpl. apply find_after_claim; assumption. }
  destruct (api_complete_order_found env2 (id o) (snd polled) _ Hfound)
    as (H1 & _ & H3 & _ & _ & H6).
  repeat split.
  - rewrite Hpolled. reflexivity.
  - exact H1.
  - exact H6.
  - rewrite Hpolled. reflexivity.
  - subst done. rewrite H3, Hpolled. cbn [snd remote set_orders].
    f_equal. unfold fulfillment_calls.
    change (shopify_order_id (Spec.claimed (now env1) o))
      with (shopify_order_id o).
    destruct (shopify_order_id o) as [remote_id|]; [| reflexivity].
    cbn [truthy_str]. destruct (String.eqb remote_id ""); reflexivity.
Qed.

(** An order stored with the keys of its items in the order of the session
    cookie is polled at 30 and completed at 40. *)
Lemma claim_then_complete_witness :
  let stored :=
    [JObj [ ("price", JFloat 100); ("quantity", JInt 2);
            ("sku", JStr "X"); ("title", JStr "Skyr") ]] in
  let o :=
    OrderQueue.mk "o1" (Some "kiosk") (Some "555") (JStr "K1")
      (json_dumps (JArr stored)) (Some "pending") None false 5 None None in
  let w := Sample.store [o] in
  let polled := api_next_order (Sample.env_at 30 Sample.online) w in
  let done := api_complete_order (Sample.env_at 40 Sample.online) "o1"
                (snd polled) in
  fst polled = NextOrder "o1" (Some "kiosk") [7; 7] (JArr stored)
  /\ fst done = Success
  /\ find (has_id "o1") (orders (snd done))
     = Some (Spec.completed 40 (Spec.claimed 30 o)).
Proof.
  intros stored o w polled done.
  pose proof (claim_then_complete (Sample.env_at 30 Sample.online)
                (Sample.env_at 40 Sample.online) w o stored [Sample.skyr]
                eq_refl eq_refl eq_refl
                ltac:(repeat constructor)) as H.
  exact (conj (proj1 H) (conj (proj1 (proj2 H)) (proj1 (proj2 (proj2 H))))).
Defined.

(** ** A claim and a pickup of the same order *)

Lemma in_replaced o' tbl x :
  In x (replaced o' tbl) -> x = o' \/ (In x tbl /\ id x <> id o').
Proof.
  unfold replaced. rewrite in_map_iff. intros (r & Hx & Hin).
  destruct (has_id (id o') r) eqn:E.
  - left. symmetry. exact Hx.
  - right. subst x. split; [exact Hin | apply has_id_false; exact E].
Qed.

(** X4. The poll also hands out delivery-partner orders that wait for
    their pickup code. Once the poll has claimed order [o], the code of [o]
    is answered as an invalid code (unless another pending delivery-partner
    order carries the same code), and the store stays as the poll left
    it. *)
Theorem claimed_order_cannot_be_picked_up :
  forall env env' w o code,
    pk_unique (orders w) = true ->
    first (order_by_created_at (filter is_pending (orders w))) = Some o ->
    (forall x, In x (orders w) -> matches_pickup code x = true -> x = o) ->
    let w' := snd (api_next_order env w) in
    verify_pickup env' code w'
    = (Redirect "wolt_pickup" (get_translation "invalid_code" "is", "error"),
       w').
Proof.
  intros env env' w o code Hpk Hfirst Honly w'.
  subst w'. rewrite (api_next_order_some env w o Hfirst). simpl.
  unfold verify_pickup. simpl. rewrite first_filter_none; [reflexivity |].
  intros x Hx. apply in_replaced in Hx.
  destruct Hx as [-> | [Hin Hid]].
  - unfold matches_pickup. simpl. rewrite andb_false_r. reflexivity.
  - destruct (matches_pickup code x) eqn:M; [| reflexivity].
    exfalso. apply Hid. rewrite (Honly x Hin M). reflexivity.
Qed.

(** The retrieval device polls before the courier types the code. *)
Lemma claimed_order_cannot_be_picked_up_witness :
  let w := Sample.store [Sample.wolt_order "o1" "123456" "pending" 5] in
  let w' := snd (api_next_order (Sample.env_at 30 Sample.offline) w) in
  verify_pickup (Sample.env_at 31 Sample.offline) (Some "123456") w'
  = (Redirect "wolt_pickup" (get_translation "invalid_code" "is", "error"),
     w').
Proof.
  intros w w'.
  refine (claimed_order_cannot_be_picked_up
            (Sample.env_at 30 Sample.offline)
            (Sample.env_at 31 Sample.offline) w
            (Sample.wolt_order "o1" "123456" "pending" 5) (Some "123456")
            eq_refl eq_refl _).
  intros x [<- | []] _. reflexivity.
Defined.

(** X5. Pickup verification commits before it decodes. When the code
    matches order [o] and the items column of [o] does not hold JSON, the
    kiosk shows the generic error, writes no queue file and sends nothing to
    the Catalog Service, and yet [o] is [processing]: the same code is
    invalid from then on. *)
Theorem verify_error_leaves_processing :
  forall env code w o,
    pk_unique (orders w) = true ->
    first (filter (matches_pickup code) (orders w)) = Some o ->
    items o = NotJson ->
    (forall x, In x (orders w) -> matches_pickup code x = true -> x = o) ->
    let r := verify_pickup env code w in
    fst r = Redirect "wolt_pickup" (get_translation "error" "is", "error")
    /\ find (has_id (id o)) (orders (snd r))
       = Some (with_status (Some "processing") o)
    /\ files (snd r) = files w
    /\ remote (snd r) = remote w
    /\ (forall env',
           fst (verify_pickup env' code (snd r))
           = Redirect "wolt_pickup"
               (get_translation "invalid_code" "is", "error")).
Proof.
  intros env code w o Hpk Hfirst Hitems Honly r.
  destruct (first_filter_some _ _ _ Hfirst) as [Hin _].
  assert (r = (Redirect "wolt_pickup" (get_translation "error" "is", "error"),
               set_orders
                 (replaced (with_status (Some "processing") o) (orders w)) w))
    as Hr.
  { subst r. unfold verify_pickup. rewrite Hfirst.
    replace (commit_update (with_status (Some "processing") o) (orders w))
      with (Ok (replaced (with_status (Some "processing") o) (orders w)))
      by reflexivity.
    replace (items (with_status (Some "processing") o)) with (items o)
      by reflexivity.
    rewrite Hitems. reflexivity. }
  rewrite Hr. simpl. repeat split.
  - apply (find_replaced_same _ o);
      [apply find_by_own_id; assumption | reflexivity].
  - intros env'. unfold verify_pickup. simpl.
    rewrite first_filter_none; [reflexivity |].
    intros x Hx. apply in_replaced in Hx.
    destruct Hx as [-> | [Hx Hid]].
    + unfold matches_pickup. simpl. rewrite andb_false_r. reflexivity.
    + destruct (matches_pickup code x) eqn:M; [| reflexivity].
      exfalso. apply Hid. rewrite (Honly x Hx M). reflexivity.
Qed.

(** A delivery-partner order whose items were stored as plain text. *)
Lemma verify_error_leaves_processing_witness :
  let broken :=
    OrderQueue.mk "o1" (Some "wolt") (Some "777") (JStr "W9") NotJson
      (Some "pending") (Some "123456") false 10 None None in
  let r := verify_pickup (Sample.env_at 30 Sample.offline) (Some "123456")
             (Sample.store [broken]) in
  fst r = Redirect "wolt_pickup" ("Villa", "error")
  /\ find (has_id "o1") (orders (snd r))
     = Some (with_status (Some "processing") broken).
Proof.
  intros broken r.
  assert (forall x, In x (orders (Sample.store [broken])) ->
                    matches_pickup (Some "123456") x = true -> x = broken)
    as Honly.
  { intros x [<- | []] _. reflexivity. }
  pose proof (verify_error_leaves_processing
                (Sample.env_at 30 Sample.offline) (Some "123456")
                (Sample.store [broken]) broken eq_refl eq_refl eq_refl Honly)
    as H.
  exact (conj (proj1 H) (proj1 (proj2 H))).
Defined.

(** ** The two writes of the checkout *)

(** What [create_order] has seen when it returns an order: one request,
    answered by a dict that has an order number. *)
Lemma create_order_some c cart_items order_type calls order_data :
  Shopify.create_order c cart_items order_type = (calls, Some order_data) ->
  (exists line_items location,
      calls = [Shopify.PostOrders line_items location order_type])
  /\ exists kvs number,
       order_data = JObj kvs /\ assoc "order_number" kvs = Some number.
Proof.
  unfold Shopify.create_order.
  destruct (Shopify.order_line_items cart_items) as [line_items|];
    [| discriminate].
  destruct (py_int (Shopify.location_id c)) as [location|]; [| discriminate].
  destruct (Shopify.requests c _) as [|code body]; [discriminate |].
  destruct (code =? 201); [| discriminate].
  destruct (json_loads body) as [b|]; simpl; [| discriminate].
  destruct (getitem b "order") as [order|]; simpl; [| discriminate].
  destruct order as [| | | | |  | kvs]; simpl; try discriminate.
  destruct (assoc "order_number" kvs) as [number|] eqn:N; simpl;
    [| discriminate].
  intros [= <- <-]. split; eauto.
Qed.

(** X6. The checkout writes the queue file first and the row second, and
    neither write waits for the other. When the Catalog Service has created
    the order but its id is already the remote id of a row, the insert is
    refused: the customer sees the generic error and no row is added, while
    the file written under [pending/] stays. When instead the file cannot be
    written, the checkout goes on: the row is inserted as [pending] and the
    customer sees the confirmation, with no file. *)
Theorem checkout_writes_are_independent :
  forall py_repr env session w calls order_data remote_id,
    cart session <> [] ->
    Shopify.create_order (shopify_client env) (cart session) "kiosk"
    = (calls, Some order_data) ->
    dict_get order_data "id" = Ok remote_id ->
    let r := complete_order py_repr env session w in
    let remote_text := py_str py_repr remote_id in
    let taken :=
      existsb (fun x => opt_eqb (shopify_order_id x) (Some remote_text))
              (orders w) in
    (taken = true -> disk_ok env = true ->
     fst (fst r)
     = Redirect "kiosk_checkout" (get_translation "error" "is", "error")
     /\ orders (snd r) = orders w
     /\ exists file rest,
          files (snd r) = file :: rest
          /\ directory (fst file) = "pending"
          /\ q_order_id (snd file) = uuid4 env
          /\ q_shopify_order_id (snd file) = Some remote_text)
    /\ (taken = false -> existsb (has_id (uuid4 env)) (orders w) = false ->
        disk_ok env = false ->
        fst (fst r) = OrderComplete (get_next_order_number (now env)) (uuid4 env)
        /\ files (snd r) = files w
        /\ exists row,
             orders (snd r) = orders w ++ [row]
             /\ id row = uuid4 env
             /\ status row = Some "pending"
             /\ shopify_order_id row = Some remote_text).
Proof.
  intros py_repr env session w calls order_data remote_id Hcart Hcreate Hid
         r remote_text taken.
  destruct (create_order_some _ _ _ _ _ Hcreate)
    as (_ & kvs & number & -> & Hnumber).
  assert (truthy (JObj kvs) = true) as Htruthy.
  { destruct kvs; [discriminate Hnumber | reflexivity]. }
  assert (dict_get (JObj kvs) "order_number" = Ok number) as Hnum.
  { simpl. rewrite Hnumber. reflexivity. }
  subst r. unfold complete_order.
  destruct (cart session) as [|line rest] eqn:C; [contradiction |].
  rewrite Hcreate, Htruthy, Hid, Hnum.
  cbn [negb bind]. fold remote_text. unfold save_order_to_queue.
  split.
  - intros Htaken Hdisk. rewrite Hdisk. unfold commit_insert.
    cbn [id shopify_order_id set_files orders files fst snd].
    change (orders (sent calls w)) with (orders w).
    fold taken. rewrite Htaken.
    destruct (existsb (has_id (uuid4 env)) (orders w));
      simpl; (split; [reflexivity |]); (split; [reflexivity |]);
      eexists; eexists; repeat split.
  - intros Htaken Hfresh Hdisk. rewrite Hdisk. unfold commit_insert.
    cbn [id shopify_order_id set_files orders files fst snd
         order_type status].
    change (orders (sent calls w)) with (orders w).
    fold taken. rewrite Htaken, Hfresh. simpl.
    split; [reflexivity |]. split; [reflexivity |].
    eexists. repeat split.
Qed.

(** The Catalog Service answers with id 555 while a row already holds that
    remote id. *)
Lemma checkout_writes_are_independent_witness :
  let session := {| cart := [("41", Sample.skyr)]; test_mode := false |} in
  let w := Sample.store [Sample.kiosk_order "o1" "555" "completed" 5] in
  let r := complete_order (fun _ => "") (Sample.env_at 30 Sample.online)
             session w in
  fst (fst r) = Redirect "kiosk_checkout" ("Villa", "error")
  /\ orders (snd r) = orders w
  /\ exists file rest,
       files (snd r) = file :: rest
       /\ directory (fst file) = "pending"
       /\ q_order_id (snd file) = "3f2b8c1e-0000-4000-8000-000000000001"
       /\ q_shopify_order_id (snd file) = Some "555".
Proof.
  intros session w r.
  assert (cart session <> []) as Hcart by discriminate.
  exact (proj1 (checkout_writes_are_independent
                  (fun _ => "") (Sample.env_at 30 Sample.online) session w
                  _ _ (JStr "555") Hcart eq_refl eq_refl)
               eq_refl eq_refl).
Defined.

(** ** Status updates *)

Lemma api_update_order_status_found env key kvs w o v column :
  find (has_id key) (orders w) = Some o ->
  assoc "status" kvs = v ->
  bind_text (match v with Some x => x | None => JNull end) = Ok column ->
  valid_status column = true ->
  let o' :=
    let updated := with_status column o in
    if opt_eqb column (Some "completed")
    then with_completed_at (Some (now env)) updated
    else if opt_eqb column (Some "processing")
    then with_processed_at (Some (now env)) updated
    else updated in
  api_update_order_status env key (JObj kvs) w
  = (Success, set_orders (replaced o' (orders w)) w)
  /\ find (has_id key) (orders (set_orders (replaced o' (orders w)) w))
     = Some o'.
Proof.
  intros Hfind Hv Hbind Hvalid o'.
  assert (status o' = column) as Hs.
  { subst o'. cbv zeta.
    destruct (opt_eqb column (Some "completed"));
      [| destruct (opt_eqb column (Some "processing"))]; reflexivity. }
  assert (id o' = id o) as Hid.
  { subst o'. cbv zeta.
    destruct (opt_eqb column (Some "completed"));
      [| destruct (opt_eqb column (Some "processing"))]; reflexivity. }
  split.
  - unfold api_update_order_status, get_or_404. rewrite Hfind.
    cbn [bind dict_get]. rewrite Hv.
    assert ((match v with Some x => Ok x | None => Ok JNull end)
            = Ok (match v with Some x => x | None => JNull end)) as ->
        by (destruct v; reflexivity).
    cbn [bind].
    destruct (assoc "message" kvs); cbn [bind]; rewrite Hbind; cbn [bind];
      fold o'; unfold commit_update; rewrite Hs, Hvalid; reflexivity.
  - simpl. apply (find_replaced_same _ o); assumption.
Qed.

(** X7. An accepted status update. For a body whose status is one of the
    four strings the table allows, [POST /api/orders/<id>/status] answers
    success and sets that status on the order, whatever it was. It stamps
    [completed_at] only for [completed] and [processed_at] only for
    [processing], and never clears a stamp: an order sent back to [pending]
    keeps the [completed_at] it had. *)
Theorem status_update_sets_and_stamps :
  forall env key kvs s w o,
    find (has_id key) (orders w) = Some o ->
    assoc "status" kvs = Some (JStr s) ->
    valid_status (Some s) = true ->
    let r := api_update_order_status env key (JObj kvs) w in
    fst r = Success
    /\ exists o',
         find (has_id key) (orders (snd r)) = Some o'
         /\ status o' = Some s
         /\ completed_at o'
            = (if String.eqb s "completed" then Some (now env)
               else completed_at o)
         /\ processed_at o'
            = (if String.eqb s "processing" then Some (now env)
               else processed_at o)
         /\ created_at o' = created_at o
         /\ items o' = items o
         /\ pickup_code o' = pickup_code o
         /\ shopify_order_id o' = shopify_order_id o.
Proof.
  intros env key kvs s w o Hfind Hstatus Hvalid r.
  destruct (api_update_order_status_found env key kvs w o _ (Some s)
              Hfind Hstatus eq_refl Hvalid) as [Hrun Hfound].
  subst r. rewrite Hrun. split; [reflexivity |].
  eexists. split; [exact Hfound |].
  cbn [opt_eqb].
  destruct (String.eqb s "completed") eqn:C.
  - apply String.eqb_eq in C. subst s. repeat split.
  - destruct (String.eqb s "processing"); repeat split.
Qed.

(** A completed order is sent back to pending. *)
Lemma status_update_sets_and_stamps_witness :
  let o := with_completed_at (Some 10)
             (Sample.kiosk_order "o1" "555" "completed" 5) in
  let r := api_update_order_status (Sample.env_at 30 Sample.offline) "o1"
             (JObj [("status", JStr "pending")]) (Sample.store [o]) in
  exists o',
    find (has_id "o1") (orders (snd r)) = Some o'
    /\ status o' = Some "pending"
    /\ completed_at o' = Some 10.
Proof.
  intros o r.
  destruct (proj2 (status_update_sets_and_stamps
                     (Sample.env_at 30 Sample.offline) "o1"
                     [("status", JStr "pending")] "pending"
                     (Sample.store [o]) o eq_refl eq_refl eq_refl))
    as (o' & Hfound & Hs & Hc & _).
  exists o'. repeat split; assumption.
Defined.

(** X8. A refused status update leaves the store as it was and answers
    with the error body (code 500): when no order has the id, when the body
    is not a JSON object, and when the status is a string outside the four
    the table allows. *)
Theorem status_update_refusals :
  forall env key body w,
    (find (has_id key) (orders w) = None ->
     api_update_order_status env key body w = (Error NotFound, w))
    /\ (forall o,
           find (has_id key) (orders w) = Some o ->
           (forall kvs, body <> JObj kvs) ->
           api_update_order_status env key body w = (Error AttributeError, w))
    /\ (forall o kvs s,
           find (has_id key) (orders w) = Some o ->
           body = JObj kvs ->
           assoc "status" kvs = Some (JStr s) ->
           valid_status (Some s) = false ->
           api_update_order_status env key body w
           = (Error (IntegrityError "valid_status"), w))
    /\ status_code (Error NotFound) = 500.
Proof.
  intros env key body w. repeat split.
  - intros Hnone. unfold api_update_order_status, get_or_404.
    rewrite Hnone. reflexivity.
  - intros o Hfind Hbody. unfold api_update_order_status, get_or_404.
    rewrite Hfind.
    destruct body; try reflexivity. exfalso. exact (Hbody kvs eq_refl).
  - intros o kvs s Hfind -> Hstatus Hvalid.
    unfold api_update_order_status, get_or_404. rewrite Hfind.
    cbn [bind dict_get]. rewrite Hstatus. cbn [bind].
    assert (forall o', status o' = Some s ->
              commit_update o' (orders w)
              = Raise (IntegrityError "valid_status")) as Hrefused.
    { intros o' Hs. unfold commit_update. rewrite Hs, Hvalid. reflexivity. }
    destruct (assoc "message" kvs); cbn [bind bind_text opt_eqb];
      (destruct (String.eqb s "completed");
       [| destruct (String.eqb s "processing")]);
      rewrite Hrefused; reflexivity.
Qed.

(** The status 'done' is not one of the four. *)
Lemma status_update_refusals_witness :
  let w := Sample.store [Sample.kiosk_order "o1" "555" "processing" 5] in
  api_update_order_status (Sample.env_at 30 Sample.offline) "o1"
    (JObj [("status", JStr "done")]) w
  = (Error (IntegrityError "valid_status"), w).
Proof.
  intros w.
  exact (proj1 (proj2 (proj2 (status_update_refusals
                                (Sample.env_at 30 Sample.offline) "o1"
                                (JObj [("status", JStr "done")]) w)))
               _ _ "done" eq_refl eq_refl eq_refl eq_refl).
Defined.

(** X9. A status update whose body carries no status, or a null one, is
    accepted: NULL passes the CHECK. The order then has no status at all; it
    is not pending, so neither the poll nor a pickup code selects it, and its
    stamps are untouched. *)
Theorem status_update_without_status_erases_it :
  forall env key kvs w o,
    find (has_id key) (orders w) = Some o ->
    (assoc "status" kvs = None \/ assoc "status" kvs = Some JNull) ->
    let r := api_update_order_status env key (JObj kvs) w in
    let o' := with_status None o in
    fst r = Success
    /\ find (has_id key) (orders (snd r)) = Some o'
    /\ status o' = None
    /\ is_pending o' = false
    /\ (forall code, matches_pickup code o' = false)
    /\ processed_at o' = processed_at o
    /\ completed_at o' = completed_at o.
Proof.
  intros env key kvs w o Hfind Hstatus r o'.
  assert (api_update_order_status env key (JObj kvs) w
          = (Success, set_orders (replaced o' (orders w)) w)
          /\ find (has_id key)
                  (orders (set_orders (replaced o' (orders w)) w))
             = Some o') as [Hrun Hfound].
  { destruct Hstatus as [H | H];
      exact (api_update_order_status_found env key kvs w o _ None
               Hfind H eq_refl eq_refl). }
  subst r. rewrite Hrun. repeat split; try assumption.
  intros code. unfold matches_pickup. simpl.
  rewrite andb_false_r. reflexivity.
Qed.

(** An empty JSON object as the body. *)
Lemma status_update_without_status_erases_it_witness :
  let o := Sample.kiosk_order "o1" "555" "pending" 5 in
  let r := api_update_order_status (Sample.env_at 30 Sample.offline) "o1"
             (JObj []) (Sample.store [o]) in
  fst r = Success
  /\ find (has_id "o1") (orders (snd r)) = Some (with_status None o).
Proof.
  intros o r.
  pose proof (status_update_without_status_erases_it
                (Sample.env_at 30 Sample.offline) "o1" [] (Sample.store [o])
                o eq_refl (or_introl eq_refl)) as H.
  exact (conj (proj1 H) (proj1 (proj2 H))).
Defined.

(** ** The requests of the Shopify client *)

Lemma order_line_items_bad_id cart_items product_id item :
  In (product_id, item) cart_items -> py_int product_id = None ->
  exists e, Shopify.order_line_items cart_items = Raise e.
Proof.
  induction cart_items as [|[key present] rest IH]; simpl; [intros [] |].
  intros [[= -> ->] | Hin] Hbad.
  - rewrite Hbad. eexists. reflexivity.
  - destruct (py_int key); [| eexists; reflexivity].
    destruct (IH Hin Hbad) as [e ->]. eexists. reflexivity.
Qed.

Lemma order_line_items_ok cart_items line_items :
  Shopify.order_line_items cart_items = Ok line_items ->
  map (fun x => Some (fst (fst x))) line_items
  = map (fun entry => py_int (fst entry)) cart_items
  /\ map (fun x => (snd (fst x), snd x)) line_items
     = map (fun entry => (Shopify.quantity (snd entry),
                          Shopify.price (snd entry))) cart_items.
Proof.
  revert line_items.
  induction cart_items as [|[key item] rest IH]; simpl; intros line_items.
  - intros [= <-]. split; reflexivity.
  - destruct (py_int key) as [variant_id|]; [| discriminate].
    destruct (Shopify.order_line_items rest) as [tail|]; simpl;
      [| discriminate].
    intros [= <-]. destruct (IH tail eq_refl) as [H1 H2].
    simpl. rewrite H1, H2. split; reflexivity.
Qed.

(** X10. [create_order] sends at most one request. It sends none, and
    returns nothing, when a product id of the cart or the configured
    location id is not an integer. When it returns an order, it has sent one
    request whose line items carry, in cart order, the integer of each
    product id with the quantity and price of the item, the answer had code
    201, and the order is the dict under 'order' of the body, with an order
    number. *)
Theorem create_order_requests :
  forall c cart_items order_type,
    let sent_and_order := Shopify.create_order c cart_items order_type in
    (List.length (fst sent_and_order) <= 1)%nat
    /\ (forall product_id item,
           In (product_id, item) cart_items -> py_int product_id = None ->
           sent_and_order = ([], None))
    /\ (py_int (Shopify.location_id c) = None -> sent_and_order = ([], None))
    /\ (forall order_data,
           snd sent_and_order = Some order_data ->
           exists line_items location body,
             fst sent_and_order
             = [Shopify.PostOrders line_items location order_type]
             /\ py_int (Shopify.location_id c) = Some location
             /\ map (fun x => Some (fst (fst x))) line_items
                = map (fun entry => py_int (fst entry)) cart_items
             /\ map (fun x => (snd (fst x), snd x)) line_items
                = map (fun entry => (Shopify.quantity (snd entry),
                                     Shopify.price (snd entry))) cart_items
             /\ Shopify.requests c
                  (Shopify.PostOrders line_items location order_type)
                = Shopify.Response 201 body
             /\ bind (json_loads body) (fun b => getitem b "order")
                = Ok order_data
             /\ exists number, getitem order_data "order_number" = Ok number).
Proof.
  intros c cart_items order_type sent_and_order. subst sent_and_order.
  unfold Shopify.create_order. repeat split.
  - destruct (Shopify.order_line_items cart_items); [| simpl; lia].
    destruct (py_int (Shopify.location_id c)); simpl; lia.
  - intros product_id item Hin Hbad.
    destruct (order_line_items_bad_id _ _ _ Hin Hbad) as [e ->]. reflexivity.
  - intros ->. destruct (Shopify.order_line_items cart_items); reflexivity.
  - intros order_data.
    destruct (Shopify.order_line_items cart_items) as [line_items|] eqn:L;
      [| discriminate].
    destruct (py_int (Shopify.location_id c)) as [location|];
      [| discriminate].
    simpl.
    destruct (Shopify.requests c _) as [|code body] eqn:R; [discriminate |].
    destruct (code =? 201) eqn:C; [| discriminate].
    apply Z.eqb_eq in C. subst code.
    destruct (json_loads body) as [b|] eqn:J; simpl; [| discriminate].
    destruct (getitem b "order") as [order|] eqn:O; simpl; [| discriminate].
    destruct (getitem order "order_number") as [number|] eqn:N; simpl;
      [| discriminate].
    intros [= <-]. destruct (order_line_items_ok _ _ L) as [H1 H2].
    exists line_items, location, body. repeat split; try assumption.
    + rewrite J. exact O.
    + exists number. exact N.
Qed.

(** A product id that is not a number: nothing is sent. *)
Lemma create_order_requests_witness :
  Shopify.create_order
    {| Shopify.location_id := "109514817905";
       Shopify.requests := Sample.online |}
    [("41", Sample.skyr); ("gid-42", Sample.skyr)] "kiosk"
  = ([], None).
Proof.
  refine (proj1 (proj2 (create_order_requests _ _ _)) "gid-42" Sample.skyr _ _).
  - right. left. reflexivity.
  - reflexivity.
Defined.

(** X11. [fulfill_order] first asks for the remote order and posts the
    fulfillment only after that answer: it sends that one request, or that
    one followed by one fulfillment of the same order. It returns [True]
    only when the fulfillment was posted and answered with code 201. When
    [get_order] finds no such remote order, [fulfill_order] stops after its
    first request and returns [False]. *)
Theorem fulfill_order_requests :
  forall c remote_id,
    let sent_and_result := Shopify.fulfill_order c remote_id in
    (fst sent_and_result = [Shopify.GetOrder remote_id]
     \/ exists line_items location,
          fst sent_and_result
          = [Shopify.GetOrder remote_id;
             Shopify.PostFulfillments remote_id line_items location])
    /\ (snd sent_and_result = true ->
        exists line_items location body,
          fst sent_and_result
          = [Shopify.GetOrder remote_id;
             Shopify.PostFulfillments remote_id line_items location]
          /\ Shopify.requests c
               (Shopify.PostFulfillments remote_id line_items location)
             = Shopify.Response 201 body)
    /\ (snd (Shopify.get_order c remote_id) = None ->
        sent_and_result = ([Shopify.GetOrder remote_id], false)).
Proof.
  intros c remote_id sent_and_result. subst sent_and_result.
  unfold Shopify.fulfill_order, Shopify.get_order. simpl.
  assert (forall P : Prop,
             ([Shopify.GetOrder remote_id] = [Shopify.GetOrder remote_id]
              \/ P)) as Hstop by (intros P; left; reflexivity).
  destruct (Shopify.requests c (Shopify.GetOrder remote_id))
    as [|code body] eqn:G;
    [repeat split; try apply Hstop; discriminate |].
  destruct (code =? 200) eqn:C; simpl;
    [| repeat split; try apply Hstop; discriminate].
  destruct (json_loads body) as [b|]; simpl;
    [| repeat split; try apply Hstop; discriminate].
  destruct (getitem b "order") as [order|]; simpl;
    [| repeat split; try apply Hstop; discriminate].
  destruct (bind (getitem order "line_items") _) as [line_items|];
    [| repeat split; try apply Hstop; discriminate].
  destruct (py_int (Shopify.location_id c)) as [location|];
    [| repeat split; try apply Hstop; discriminate].
  simpl. repeat split.
  - right. eauto.
  - destruct (Shopify.requests c (Shopify.PostFulfillments _ _ _))
      as [|code' body'] eqn:P; [discriminate |].
    intros H. apply Z.eqb_eq in H. subst code'. eauto.
  - discriminate.
Qed.

(** The remote order is unknown (the service answers 404). *)
Lemma fulfill_order_requests_witness :
  let c := {| Shopify.location_id := "109514817905";
              Shopify.requests := fun _ => Shopify.Response 404 NotJson |} in
  Shopify.fulfill_order c "555" = ([Shopify.GetOrder "555"], false).
Proof.
  intros c.
  exact (proj2 (proj2 (fulfill_order_requests c "555")) eq_refl).
Defined.

(** ** The constraints of [order_queue] *)

Lemma map_replaced {B} (f : OrderQueue.t -> B) o o' tbl :
  pk_unique tbl = true -> In o tbl -> id o' = id o -> f o' = f o ->
  map f (replaced o' tbl) = map f tbl.
Proof.
  intros Hpk Hin Hid Hf. apply in_split in Hin.
  destruct Hin as (before & after & ->).
  rewrite (replaced_middle before o after o' Hpk Hid).
  rewrite !map_app. simpl. rewrite Hf. reflexivity.
Qed.

Lemma forallb_replaced (p : OrderQueue.t -> bool) o' tbl :
  forallb p tbl = true -> p o' = true -> forallb p (replaced o' tbl) = true.
Proof.
  intros Hall Ho'. unfold replaced. rewrite forallb_forall in *.
  intros x Hx. apply in_map_iff in Hx. destruct Hx as (r & <- & Hr).
  destruct (has_id (id o') r); [exact Ho' | exact (Hall r Hr)].
Qed.

(** The UPDATE of a row that keeps its id, remote id and order type and
    sets an allowed status keeps the constraints. *)
Lemma table_ok_replaced o o' tbl :
  Spec.table_ok tbl = true -> In o tbl ->
  id o' = id o -> shopify_order_id o' = shopify_order_id o ->
  order_type o' = order_type o -> valid_status (status o') = true ->
  Spec.table_ok (replaced o' tbl) = true.
Proof.
  unfold Spec.table_ok. rewrite !andb_true_iff.
  intros [[Hpk Hremote] Hvalid] Hin Hid Hsid Htype Hstatus.
  repeat split.
  - rewrite pk_unique_replaced. exact Hpk.
  - rewrite (map_replaced shopify_order_id o o' tbl Hpk Hin Hid Hsid).
    exact Hremote.
  - apply forallb_replaced; [exact Hvalid |].
    unfold Spec.row_valid. rewrite Hstatus, Htype. simpl.
    rewrite forallb_forall in Hvalid. specialize (Hvalid o Hin).
    unfold Spec.row_valid in Hvalid. apply andb_true_iff in Hvalid.
    apply Hvalid.
Qed.

Lemma unique_some_app_one l x :
  Spec.unique_some l = true ->
  match x with
  | Some r => existsb (fun y => opt_eqb y (Some r)) l = false
  | None => True
  end ->
  Spec.unique_some (l ++ [x]) = true.
Proof.
  induction l as [|[a|] l IH]; simpl.
  - intros _ _. destruct x; reflexivity.
  - rewrite !andb_true_iff, !negb_true_iff. intros [Ha Hl] Hx.
    assert (match x with
            | Some r => existsb (fun y => opt_eqb y (Some r)) l = false
            | None => True
            end) as Hx'.
    { destruct x as [r|]; [| exact I]. simpl in Hx.
      apply orb_false_iff in Hx. apply Hx. }
    split; [| exact (IH Hl Hx')].
    rewrite existsb_app, Ha. simpl. rewrite orb_false_r.
    destruct x as [r|]; [| reflexivity]. simpl in Hx.
    apply orb_false_iff in Hx. destruct Hx as [Hx _].
    simpl. exact Hx.
  - intros Hl Hx. apply IH; [exact Hl |].
    destruct x as [r|]; [| exact I]. simpl in Hx. exact Hx.
Qed.

Lemma existsb_map {A B} (f : A -> B) (p : B -> bool) (l : list A) :
  existsb p (map f l) = existsb (fun a => p (f a)) l.
Proof.
  induction l as [|a l IH]; simpl; [reflexivity |]. rewrite IH. reflexivity.
Qed.

(** An INSERT that goes through keeps the constraints. *)
Lemma table_ok_insert o tbl tbl' :
  commit_insert o tbl = Ok tbl' ->
  Spec.table_ok tbl = true -> Spec.table_ok tbl' = true.
Proof.
  unfold commit_insert, Spec.table_ok. rewrite !andb_true_iff.
  intros H [[Hpk Hremote] Hvalid].
  destruct (existsb (has_id (id o)) tbl) eqn:Hfresh; [discriminate |].
  destruct (match shopify_order_id o with Some _ => _ | None => _ end)
    eqn:Htaken; [discriminate |].
  destruct (valid_order_type (order_type o)) eqn:Htype; [| discriminate].
  destruct (valid_status (status o)) eqn:Hstatus; [| discriminate].
  injection H as <-. repeat split.
  - apply pk_unique_app_one; assumption.
  - rewrite map_app. simpl. apply unique_some_app_one; [exact Hremote |].
    destruct (shopify_order_id o) as [r|]; [| exact I].
    rewrite existsb_map. exact Htaken.
  - rewrite forallb_app, Hvalid. simpl.
    unfold Spec.row_valid. rewrite Hstatus, Htype. reflexivity.
Qed.

Lemma table_ok_pk tbl : Spec.table_ok tbl = true -> pk_unique tbl = true.
Proof.
  unfold Spec.table_ok. rewrite !andb_true_iff. intros [[H _] _]. exact H.
Qed.

Lemma handle_table_ok py_repr env r w :
  Spec.table_ok (orders w) = true ->
  Spec.table_ok (orders (handle py_repr env r w)) = true.
Proof.
  intros Hok.
  destruct r as [session | code | | order_id | order_id body]; simpl.
  - unfold complete_order.
    destruct (cart session) as [|line rest]; [exact Hok |].
    destruct (Shopify.create_order _ _ _) as [calls [order_data|]];
      [| exact Hok].
    destruct (negb (truthy order_data)); [exact Hok |].
    destruct (bind _ _) as [[remote_id remote_number]|e]; [| exact Hok].
    destruct (save_order_to_queue _ _ _ _ _) as [saved fs].
    match goal with
    | |- context [commit_insert ?o ?tbl] =>
        destruct (commit_insert o tbl) as [tbl'|e] eqn:C; [| exact Hok]
    end.
    simpl in *. exact (table_ok_insert _ _ _ C Hok).
  - unfold verify_pickup.
    destruct (first (filter (matches_pickup code) (orders w))) as [o|] eqn:E;
      [| exact Hok].
    apply first_filter_some in E. destruct E as [Hin _].
    replace (commit_update (with_status (Some "processing") o) (orders w))
      with (Ok (replaced (with_status (Some "processing") o) (orders w)))
      by reflexivity.
    assert (Spec.table_ok
              (replaced (with_status (Some "processing") o) (orders w))
            = true) as Hok'
        by (apply (table_ok_replaced o); auto).
    destruct (json_loads _) as [decoded|e]; [| exact Hok'].
    destruct (save_order_to_queue _ _ _ _ _) as [saved fs]. exact Hok'.
  - destruct (first (order_by_created_at (filter is_pending (orders w))))
      as [o|] eqn:E.
    + rewrite (api_next_order_some env w o E). simpl.
      apply first_pending_in in E. destruct E as [Hin _].
      apply (table_ok_replaced o); auto.
    + rewrite (api_next_order_none env w E). exact Hok.
  - destruct (find (has_id order_id) (orders w)) as [o|] eqn:E.
    + destruct (api_complete_order_found env order_id w o E)
        as (_ & -> & _).
      apply find_has_id in E. destruct E as [Hin _].
      apply (table_ok_replaced o); auto.
    + unfold api_complete_order, get_or_404. rewrite E. exact Hok.
  - unfold api_update_order_status, get_or_404.
    destruct (find (has_id order_id) (orders w)) as [o|] eqn:E;
      [| exact Hok].
    apply find_has_id in E. destruct E as [Hin _]. cbn [bind].
    destruct (dict_get body "status") as [v|]; cbn [bind]; [| exact Hok].
    destruct (dict_get body "message") as [m|]; cbn [bind]; [| exact Hok].
    destruct (bind_text v) as [column|]; cbn [bind]; [| exact Hok].
    match goal with
    | |- context [commit_update ?o' ?tbl] =>
        assert (id o' = id o /\ shopify_order_id o' = shopify_order_id o
                /\ order_type o' = order_type o) as (H1 & H2 & H3)
          by (destruct (opt_eqb column (Some "completed"));
              [| destruct (opt_eqb column (Some "processing"))];
              repeat split);
        unfold commit_update;
        destruct (valid_status (status o')) eqn:V; [| exact Hok];
        simpl; apply (table_ok_replaced o); assumption
    end.
Qed.

(** X12. The constraints of the order table hold along every sequence of
    requests, whatever they are and however they end: no two rows share an
    id, no two rows share a remote order id, and every row has an order type
    of kiosk or wolt (or none) and a status among the four (or none). *)
Theorem requests_keep_the_constraints :
  forall py_repr rs w,
    Spec.table_ok (orders w) = true ->
    Spec.table_ok (orders (run py_repr rs w)) = true.
Proof.
  intros py_repr rs. induction rs as [|[env r] rs IH]; intros w Hok; simpl.
  - exact Hok.
  - apply IH. apply handle_table_ok. exact Hok.
Qed.

(** A checkout, a poll, a status update to a status that does not exist, a
    completion. *)
Lemma requests_keep_the_constraints_witness :
  let env := Sample.env_at 30 Sample.online in
  let w := Sample.store [Sample.wolt_order "o1" "123456" "pending" 5] in
  let rs := [(env, CompleteOrder {| cart := [("41", Sample.skyr)];
                                    test_mode := false |});
             (env, ApiNextOrder);
             (env, ApiUpdateOrderStatus "o1" (JObj [("status", JStr "done")]));
             (env, ApiCompleteOrder "o1")] in
  Spec.table_ok (orders (run (fun _ => "") rs w)) = true.
Proof.
  intros env w rs.
  exact (requests_keep_the_constraints (fun _ => "") rs w eq_refl).
Defined.

(** ** Queue files *)

Lemma path_eqb_eq (a b : Utils.path) : path_eqb a b = true <-> a = b.
Proof.
  destruct a as [da [fa ma] ia], b as [db [fb mb] ib].
  unfold path_eqb. simpl.
  rewrite !andb_true_iff, !String.eqb_eq, Z.eqb_eq. split.
  - intros [[[-> ->] ->] ->]. reflexivity.
  - intros [= -> -> -> ->]. auto.
Qed.

Lemma path_eqb_refl (a : Utils.path) : path_eqb a a = true.
Proof. apply path_eqb_eq. reflexivity. Qed.

Lemma path_eqb_neq (a b : Utils.path) : path_eqb a b = false <-> a <> b.
Proof.
  split.
  - intros H E. apply path_eqb_eq in E. congruence.
  - intros H. destruct (path_eqb a b) eqn:E; [| reflexivity].
    apply path_eqb_eq in E. contradiction.
Qed.

Lemma load_filter_other (keep : Utils.path -> bool) q fs :
  keep q = true ->
  load_order_from_queue q (filter (fun e => keep (fst e)) fs)
  = load_order_from_queue q fs.
Proof.
  intros Hq. unfold load_order_from_queue.
  induction fs as [|[p d] fs IH]; simpl; [reflexivity |].
  destruct (path_eqb p q) eqn:E.
  - apply path_eqb_eq in E. subst p. rewrite Hq. simpl.
    rewrite path_eqb_refl. reflexivity.
  - destruct (keep p); simpl; [rewrite E |]; exact IH.
Qed.

Lemma load_filter_gone (keep : Utils.path -> bool) q fs :
  keep q = false ->
  load_order_from_queue q (filter (fun e => keep (fst e)) fs) = None.
Proof.
  intros Hq. unfold load_order_from_queue.
  induction fs as [|[p d] fs IH]; simpl; [reflexivity |].
  destruct (keep p) eqn:K; simpl; [| exact IH].
  destruct (path_eqb p q) eqn:E; [| exact IH].
  apply path_eqb_eq in E. subst p. congruence.
Qed.

Lemma load_after_save now data status fs q :
  let path :=
    {| directory := status;
       timestamp := {| format := "%Y%m%d_%H%M%S"; moment := now |};
       order_id := q_order_id data |} in
  save_order_to_queue true now data status fs
  = (Some path, snd (save_order_to_queue true now data status fs))
  /\ load_order_from_queue q
       (snd (save_order_to_queue true now data status fs))
     = if path_eqb path q then Some data else load_order_from_queue q fs.
Proof.
  intros path. split; [reflexivity |].
  unfold save_order_to_queue. fold path. cbn [snd].
  unfold load_order_from_queue at 1. simpl.
  destruct (path_eqb path q) eqn:E; [reflexivity |].
  apply (load_filter_other (fun p => negb (path_eqb p path))).
  rewrite negb_true_iff. apply path_eqb_neq. apply path_eqb_neq in E.
  congruence.
Qed.

(** X13. A saved queue file can be read back, and saving touches no other
    file. [save_order_to_queue] returns the path made of the status, the time
    and the order id; [load_order_from_queue] on that path gives the data
    saved, and on any other path what it gave before. Two orders saved in the
    same second under the same status get two files, each with its own data;
    saving the same order again in the same second replaces its file. When
    the write fails nothing is returned and nothing changes. *)
Theorem saved_file_reads_back :
  forall now status fs data,
    let saved := save_order_to_queue true now data status fs in
    (exists path,
        fst saved = Some path
        /\ directory path = status
        /\ order_id path = q_order_id data
        /\ load_order_from_queue path (snd saved) = Some data
        /\ (forall other, other <> path ->
              load_order_from_queue other (snd saved)
              = load_order_from_queue other fs))
    /\ (forall data',
           let again := save_order_to_queue true now data' status (snd saved) in
           exists path path',
             fst saved = Some path /\ fst again = Some path'
             /\ load_order_from_queue path' (snd again) = Some data'
             /\ (q_order_id data' <> q_order_id data ->
                 path' <> path
                 /\ load_order_from_queue path (snd again) = Some data)
             /\ (q_order_id data' = q_order_id data -> path' = path))
    /\ save_order_to_queue false now data status fs = (None, fs).
Proof.
  intros now status fs data saved. subst saved. repeat split.
  - eexists. split; [reflexivity |]. repeat split.
    + rewrite (proj2 (load_after_save now data status fs _)).
      rewrite path_eqb_refl. reflexivity.
    + intros other Hother.
      rewrite (proj2 (load_after_save now data status fs other)).
      apply not_eq_sym, path_eqb_neq in Hother. rewrite Hother. reflexivity.
  - intros data' again. subst again.
    eexists. eexists. split; [reflexivity |]. split; [reflexivity |].
    repeat split.
    + rewrite (proj2 (load_after_save now data' status _ _)).
      rewrite path_eqb_refl. reflexivity.
    + intros E. injection E as E. contradiction.
    + rewrite (proj2 (load_after_save now data' status _ _)).
      destruct (path_eqb _ _) eqn:E.
      * apply path_eqb_eq in E. injection E as E. contradiction.
      * rewrite (proj2 (load_after_save now data status fs _)).
        rewrite path_eqb_refl. reflexivity.
    + intros ->. reflexivity.
Qed.

(** X14. Moving a queue file. [move_order_file] of a file that exists to a
    status whose directory exists returns the same file name under the new
    status; the data is then read under the new path and no longer under the
    old one (when the status differs), and every other file reads as before.
    When the file does not exist, or when [./orders] has no directory of
    that status, it returns nothing and every file stays where it was. Of
    the four statuses of an order, [pending], [processing] and [completed]
    have a directory made by [create_order_directories] and [failed] has
    none: with those directories, a file cannot be moved to [failed]. *)
Theorem moved_file_reads_under_new_status :
  forall isdir src dest_status fs,
    let moved := move_order_file isdir src dest_status fs in
    let dest :=
      {| directory := dest_status; timestamp := timestamp src;
         order_id := order_id src |} in
    (forall data,
        load_order_from_queue src fs = Some data ->
        isdir dest_status = true ->
        fst moved = Some dest
        /\ load_order_from_queue dest (snd moved) = Some data
        /\ (directory src <> dest_status ->
            load_order_from_queue src (snd moved) = None)
        /\ (forall other, other <> src -> other <> dest ->
              load_order_from_queue other (snd moved)
              = load_order_from_queue other fs))
    /\ (load_order_from_queue src fs = None \/ isdir dest_status = false ->
        moved = (None, fs))
    /\ map order_directory
           ["pending"; "processing"; "completed"; "archive"; "failed"]
       = [true; true; true; true; false]
    /\ move_order_file order_directory src "failed" fs = (None, fs).
Proof.
  intros isdir src dest_status fs moved dest. subst moved.
  split; [| split; [| split]].
  - intros data Hload Hdir. unfold move_order_file. rewrite Hload, Hdir.
    fold dest. cbn [fst snd]. split; [reflexivity |]. split; [| split].
    + unfold load_order_from_queue at 1. simpl.
      rewrite path_eqb_refl. reflexivity.
    + intros Hdiffer. unfold load_order_from_queue at 1. simpl.
      assert (path_eqb dest src = false) as ->.
      { apply path_eqb_neq. intros E. apply Hdiffer.
        rewrite <- E. reflexivity. }
      apply (load_filter_gone
               (fun p => (negb (path_eqb p src) && negb (path_eqb p dest))%bool)).
      rewrite path_eqb_refl. reflexivity.
    + intros other Hsrc Hdest. unfold load_order_from_queue at 1. simpl.
      assert (path_eqb dest other = false) as ->
          by (apply path_eqb_neq; congruence).
      apply (load_filter_other
               (fun p => (negb (path_eqb p src) && negb (path_eqb p dest))%bool)).
      apply path_eqb_neq in Hsrc, Hdest. rewrite Hsrc, Hdest. reflexivity.
  - intros [Hnone | Hdir]; unfold move_order_file.
    + rewrite Hnone. reflexivity.
    + rewrite Hdir. destruct (load_order_from_queue src fs); reflexivity.
  - reflexivity.
  - unfold move_order_file.
    destruct (load_order_from_queue src fs); reflexivity.
Qed.

(** The pending file of a checkout is moved to [processing/]; it cannot be
    moved to [failed/]. *)
Lemma moved_file_reads_under_new_status_witness :
  let data :=
    {| q_order_id := "o1"; q_order_type := "kiosk";
       q_shopify_order_id := Some "555"; q_shopify_order_number := JStr "K1";
       q_items := JArr []; q_shelf_numbers := Some [7];
       q_pickup_code := None; q_created_at := 30; q_processing_at := None;
       q_test_order := Some false |} in
  let src :=
    {| directory := "pending";
       timestamp := {| format := "%Y%m%d_%H%M%S"; moment := 30 |};
       order_id := "o1" |} in
  let moved :=
    move_order_file order_directory src "processing" [(src, data)] in
  load_order_from_queue src (snd moved) = None
  /\ load_order_from_queue
       {| directory := "processing"; timestamp := timestamp src;
          order_id := "o1" |} (snd moved)
     = Some data
  /\ move_order_file order_directory src "failed" [(src, data)]
     = (None, [(src, data)]).
Proof.
  intros data src moved.
  pose proof (proj1 (moved_file_reads_under_new_status order_directory
                       src "processing" [(src, data)])
                    data eq_refl eq_refl) as H.
  pose proof (proj1 (proj2 (moved_file_reads_under_new_status
                              order_directory src "failed" [(src, data)]))
                    (or_intror eq_refl)) as Hfailed.
  assert (directory src <> "processing") as Hdir by discriminate.
  exact (conj (proj1 (proj2 (proj2 H)) Hdir)
              (conj (proj1 (proj2 H)) Hfailed)).
Defined.

(** ** Shelf numbers *)

Lemma compatibility_small n :
  check_shelf_compatibility n (Some "small") = ((1 <=? n) && (n <=? 15))%bool.
Proof. reflexivity. Qed.

Lemma compatibility_medium n :
  check_shelf_compatibility n (Some "medium")
  = ((16 <=? n) && (n <=? 30))%bool.
Proof. reflexivity. Qed.

Lemma compatibility_large n :
  check_shelf_compatibility n (Some "large") = ((31 <=? n) && (n <=? 40))%bool.
Proof. reflexivity. Qed.

Lemma compatibility_sizes n size :
  check_shelf_compatibility n size = true ->
  size = Some "small" \/ size = Some "medium" \/ size = Some "large".
Proof.
  unfold check_shelf_compatibility.
  destruct (opt_eqb size (Some "small")) eqn:S;
    [apply opt_eqb_eq in S; auto |].
  destruct (opt_eqb size (Some "medium")) eqn:M;
    [apply opt_eqb_eq in M; auto |].
  destruct (opt_eqb size (Some "large")) eqn:L;
    [apply opt_eqb_eq in L; auto |].
  discriminate.
Qed.

Lemma compatibility_range n size :
  check_shelf_compatibility n size = true -> 1 <= n <= 40.
Proof.
  intros Hsize.
  destruct (compatibility_sizes n size Hsize) as [-> | [-> | ->]];
    [rewrite compatibility_small in Hsize
    | rewrite compatibility_medium in Hsize
    | rewrite compatibility_large in Hsize]; lia.
Qed.

(** X15. The three size zones split the shelves 1 to 40. A shelf number
    from 1 to 40 is compatible with exactly one box size (small up to 15,
    medium up to 30, large above); a number outside 1 to 40 is compatible
    with none; and a box size other than the three names, a missing one
    included, is compatible with no shelf. *)
Theorem shelf_zones_partition :
  forall n,
    (1 <= n <= 40 ->
     exists size,
       In size ["small"; "medium"; "large"]
       /\ check_shelf_compatibility n (Some size) = true
       /\ forall other,
            check_shelf_compatibility n other = true -> other = Some size)
    /\ (forall size,
           check_shelf_compatibility n size = true ->
           1 <= n <= 40
           /\ (size = Some "small" \/ size = Some "medium"
               \/ size = Some "large")).
Proof.
  intros n. split.
  - intros Hn.
    assert (n <= 15 \/ 16 <= n <= 30 \/ 31 <= n) as [H | [H | H]] by lia.
    + exists "small". split; [simpl; auto |]. split.
      * rewrite compatibility_small. lia.
      * intros other Hother.
        destruct (compatibility_sizes n other Hother) as [-> | [-> | ->]];
          [reflexivity | |];
          [rewrite compatibility_medium in Hother
          | rewrite compatibility_large in Hother]; lia.
    + exists "medium". split; [simpl; auto |]. split.
      * rewrite compatibility_medium. lia.
      * intros other Hother.
        destruct (compatibility_sizes n other Hother) as [-> | [-> | ->]];
          [| reflexivity |];
          [rewrite compatibility_small in Hother
          | rewrite compatibility_large in Hother]; lia.
    + exists "large". split; [simpl; auto |]. split.
      * rewrite compatibility_large. lia.
      * intros other Hother.
        destruct (compatibility_sizes n other Hother) as [-> | [-> | ->]];
          [| | reflexivity];
          [rewrite compatibility_small in Hother
          | rewrite compatibility_medium in Hother]; lia.
  - intros size Hsize. split;
      [exact (compatibility_range n size Hsize)
      | exact (compatibility_sizes n size Hsize)].
Qed.

(** X16. [validate_shelf_number] and the other two shelf checks agree.
    Whatever it accepts has an [int()] within the CHECK of the shelf table,
    1 to 40; every shelf number [check_shelf_compatibility] accepts for some
    box size is accepted, as an integer; a value [int()] rejects (a word,
    None, a list) gives [False]. A float counts by its truncation, so 40.5 is
    accepted and 0.5 is not, and the only values that make the function
    raise are the infinite floats. *)
Theorem validate_shelf_number_agrees :
  (forall x,
      validate_shelf_number x = Some true ->
      exists n, int_of x = IntOk n /\ shelf_number_range n = true)
  /\ (forall n size,
         check_shelf_compatibility n size = true ->
         validate_shelf_number (JInt n) = Some true)
  /\ (forall x,
         int_of x = IntValueError \/ int_of x = IntTypeError ->
         validate_shelf_number x = Some false)
  /\ (forall x,
         validate_shelf_number x = None ->
         exists f, x = JFloat f /\ int_of_float f = IntOverflowError)
  /\ validate_shelf_number (JFloat 40.5%float) = Some true
  /\ validate_shelf_number (JFloat 0.5%float) = Some false
  /\ validate_shelf_number (JFloat infinity) = None
  /\ validate_shelf_number (JStr " 7 ") = Some true
  /\ validate_shelf_number (JStr "seven") = Some false
  /\ validate_shelf_number JNull = Some false.
Proof.
  split; [| split; [| split; [| split]]].
  - intros x. unfold validate_shelf_number, shelf_number_range.
    destruct (int_of x) as [n| | |]; try discriminate.
    intros [= H]. exists n. split; [reflexivity | exact H].
  - intros n size Hsize.
    pose proof (compatibility_range n size Hsize) as Hn.
    unfold validate_shelf_number. simpl. f_equal. lia.
  - intros x [H | H]; unfold validate_shelf_number; rewrite H; reflexivity.
  - intros x. unfold validate_shelf_number.
    destruct (int_of x) as [n| | |] eqn:E; try discriminate. intros _.
    destruct x as [| b | n | f | s | l | kvs]; simpl in E;
      try discriminate; [exists f; split; [reflexivity | exact E] |].
    destruct (py_int s); discriminate.
  - vm_compute. repeat split.
Qed.

(** ** File names *)

Lemma safe_after_replacement c :
  unsafe_char (if unsafe_char c then 95%N else c) = false.
Proof. destruct (unsafe_char c) eqn:E; [reflexivity | exact E]. Qed.

Lemma replacement_of_safe l :
  Forall (fun c => unsafe_char c = false) l ->
  map (fun c => if unsafe_char c then 95%N else c) l = l.
Proof.
  induction 1 as [|c l Hc _ IH]; simpl; [reflexivity |].
  rewrite Hc, IH. reflexivity.
Qed.

Lemma sanitized_chars filename :
  Forall (fun c => unsafe_char c = false) (sanitize_filename filename).
Proof.
  unfold sanitize_filename.
  rewrite firstn_map. apply Forall_forall. intros c Hc.
  apply in_map_iff in Hc. destruct Hc as (c0 & <- & _).
  apply safe_after_replacement.
Qed.

(** X17. [sanitize_filename] gives a name of at most 100 characters (as
    many as the input has when that is fewer), counted as characters and not
    as bytes of an encoding, in which none of the nine characters it replaces
    is left and every other character is the one of the input at the same
    place. A name of at most 100 characters that is free of the nine comes
    back unchanged, whatever its characters are, and sanitizing twice is
    sanitizing once. *)
Theorem sanitize_filename_is_safe :
  forall filename,
    List.length (sanitize_filename filename)
    = Nat.min 100 (List.length filename)
    /\ Forall (fun c => unsafe_char c = false) (sanitize_filename filename)
    /\ (forall k c,
           (k < 100)%nat -> nth_error filename k = Some c ->
           nth_error (sanitize_filename filename) k
           = Some (if unsafe_char c then 95%N else c))
    /\ sanitize_filename (sanitize_filename filename)
       = sanitize_filename filename
    /\ ((List.length filename <= 100)%nat ->
        Forall (fun c => unsafe_char c = false) filename ->
        sanitize_filename filename = filename).
Proof.
  intros filename. split; [| split; [| split; [| split]]].
  - unfold sanitize_filename. rewrite length_firstn, length_map. reflexivity.
  - apply sanitized_chars.
  - intros k c Hk Hc. unfold sanitize_filename.
    rewrite nth_error_firstn.
    destruct (Nat.ltb_spec k 100) as [_ | Hge]; [| lia].
    rewrite nth_error_map, Hc. reflexivity.
  - pose proof (sanitized_chars filename) as Hsafe.
    unfold sanitize_filename at 1.
    rewrite (replacement_of_safe _ Hsafe).
    unfold sanitize_filename. rewrite firstn_firstn. reflexivity.
  - intros Hlen Hsafe. unfold sanitize_filename.
    rewrite (replacement_of_safe _ Hsafe).
    apply firstn_all2. exact Hlen.
Qed.

(** A path typed into a file name; and a name of 61 times the letter e with
    an acute accent (code point 233, two bytes in UTF-8), which comes back
    whole. *)
Lemma sanitize_filename_is_safe_witness :
  sanitize_filename (str_of_ascii "orders/pending/a:b?.json")
  = str_of_ascii "orders_pending_a_b_.json"
  /\ sanitize_filename (repeat 233%N 61) = repeat 233%N 61.
Proof.
  split; [reflexivity |].
  apply (proj2 (proj2 (proj2 (proj2 (sanitize_filename_is_safe
                                       (repeat 233%N 61)))))).
  - simpl. lia.
  - apply Forall_forall. intros c Hc. apply repeat_spec in Hc. subst c.
    reflexivity.
Defined.

(** ** Retries *)

Lemma total_app a b : Spec.total (a ++ b) = Spec.total a + Spec.total b.
Proof.
  unfold Spec.total. induction a as [|x a IH]; simpl; [reflexivity |].
  rewrite IH. lia.
Qed.

Lemma total_backoff delay k : Spec.total (Spec.backoff delay k) = delay * (2 ^ Z.of_nat k - 1).
Proof.
  unfold Spec.backoff. induction k as [|k IH]; [simpl; lia |].
  rewrite seq_S, map_app, total_app, IH.
  cbn [map Spec.total fold_right Nat.add].
  rewrite Nat2Z.inj_succ, Z.pow_succ_r by lia. lia.
Qed.

(** The loop from attempt [start] on, while the attempts before [k] fail
    and neither is the last one. *)
Lemma retry_loop_until {A} (func : nat -> result A) max_retries delay k :
  0 <= delay ->
  (forall j, (j < k)%nat -> exists e, func j = Raise e) ->
  Z.of_nat k <= max_retries - 1 ->
  forall len start slept,
    (start <= k)%nat -> (k < start + len)%nat ->
    retry_loop func max_retries delay (seq start len) slept
    = retry_loop func max_retries delay (seq k (start + len - k))
        (slept ++ map (fun attempt => delay * 2 ^ Z.of_nat attempt)
                      (seq start (k - start))).
Proof.
  intros Hdelay Hfail Hk len.
  induction len as [|len IH]; intros start slept Hstart Hlen; [lia |].
  destruct (Nat.eq_dec start k) as [-> | Hne].
  - replace (k + S len - k)%nat with (S len) by lia.
    rewrite Nat.sub_diag. simpl. rewrite app_nil_r. reflexivity.
  - simpl. destruct (Hfail start) as [e ->]; [lia |].
    assert ((Z.of_nat start =? max_retries - 1) = false) as ->
        by (apply Z.eqb_neq; lia).
    assert ((delay * 2 ^ Z.of_nat start <? 0) = false) as ->.
    { apply Z.ltb_ge. apply Z.mul_nonneg_nonneg; [exact Hdelay |].
      apply Z.pow_nonneg. lia. }
    rewrite IH by lia.
    replace (S start + len - k)%nat with (start + S len - k)%nat by lia.
    replace (k - start)%nat with (S (k - S start)) by lia.
    simpl. rewrite <- app_assoc. reflexivity.
Qed.

(** X18. [retry_operation] returns what the first successful call
    returns. When the calls before attempt [k] raise and attempt [k], within
    [max_retries], succeeds, the result is that of attempt [k]; before it the
    function has slept [k] times, [delay] doubled each time, which adds up to
    [delay * (2^k - 1)]; it makes no further call. *)
Theorem retry_returns_first_success :
  forall (A : Type) (func : nat -> result A) max_retries delay k a,
    0 <= delay ->
    (forall j, (j < k)%nat -> exists e, func j = Raise e) ->
    func k = Ok a ->
    Z.of_nat k < max_retries ->
    retry_operation func max_retries delay
    = (Ok (Some a), Spec.backoff delay k)
    /\ Spec.total (snd (retry_operation func max_retries delay))
       = delay * (2 ^ Z.of_nat k - 1)
    /\ forall func',
         (forall j, (j <= k)%nat -> func' j = func j) ->
         retry_operation func' max_retries delay
         = retry_operation func max_retries delay.
Proof.
  intros A func max_retries delay k a Hdelay Hfail Hok Hk.
  assert (forall f : nat -> result A,
             (forall j, (j <= k)%nat -> f j = func j) ->
             retry_operation f max_retries delay
             = (Ok (Some a), Spec.backoff delay k)) as Hany.
  { intros f Hf. unfold retry_operation.
    rewrite (retry_loop_until f max_retries delay k Hdelay); try lia.
    - replace (0 + Z.to_nat max_retries - k)%nat
        with (S (Z.to_nat max_retries - S k)) by lia.
      simpl. rewrite (Hf k (Nat.le_refl k)), Hok.
      rewrite Nat.sub_0_r. reflexivity.
    - intros j Hj. rewrite (Hf j) by lia. exact (Hfail j Hj). }
  assert (retry_operation func max_retries delay
          = (Ok (Some a), Spec.backoff delay k)) as Hrun
      by (apply Hany; reflexivity).
  split; [exact Hrun |]. split.
  - rewrite Hrun. apply total_backoff.
  - intros func' Hsame. rewrite Hrun. apply Hany. exact Hsame.
Qed.

(** The third of three attempts succeeds: sleeps of 1 and 2 seconds. *)
Lemma retry_returns_first_success_witness :
  retry_operation
    (fun attempt => if (attempt <? 2)%nat then Raise TypeError else Ok 7)
    3 1
  = (Ok (Some 7), [1; 2]).
Proof.
  refine (proj1 (retry_returns_first_success Z _ 3 1 2%nat 7 _ _ _ _)).
  - lia.
  - intros j Hj. exists TypeError.
    destruct j as [|[|j]]; [reflexivity | reflexivity | lia].
  - reflexivity.
  - lia.
Defined.

(** X19. [retry_operation] gives up after [max_retries] calls. When all
    of them raise, it raises what the last call raised and has slept between
    the calls only, [max_retries - 1] times; with [max_retries] at most 0 it
    makes no call and returns [None]; and with a negative [delay] the first
    failure that is not the last attempt ends in the ValueError of
    [time.sleep]. *)
Theorem retry_gives_up :
  forall (A : Type) (func : nat -> result A) max_retries delay,
    (forall errors : nat -> exn,
        0 <= delay -> 1 <= max_retries ->
        (forall j, Z.of_nat j < max_retries -> func j = Raise (errors j)) ->
        retry_operation func max_retries delay
        = (Raise (errors (Z.to_nat (max_retries - 1))),
           Spec.backoff delay (Z.to_nat (max_retries - 1))))
    /\ (max_retries <= 0 ->
        retry_operation func max_retries delay = (Ok None, []))
    /\ (forall e,
           delay < 0 -> 2 <= max_retries -> func 0%nat = Raise e ->
           retry_operation func max_retries delay = (Raise ValueError, [])).
Proof.
  intros A func max_retries delay. split; [| split].
  - intros errors Hdelay Hmax Hfail. unfold retry_operation.
    set (k := Z.to_nat (max_retries - 1)).
    rewrite (retry_loop_until func max_retries delay k Hdelay); try lia.
    + replace (0 + Z.to_nat max_retries - k)%nat with 1%nat by lia.
      simpl. rewrite (Hfail k) by lia.
      assert ((Z.of_nat k =? max_retries - 1) = true) as ->
          by (apply Z.eqb_eq; lia).
      rewrite Nat.sub_0_r. reflexivity.
    + intros j Hj. exists (errors j). apply Hfail. lia.
  - intros Hmax. unfold retry_operation.
    replace (Z.to_nat max_retries) with 0%nat by lia. reflexivity.
  - intros e Hdelay Hmax Hfail. unfold retry_operation.
    replace (Z.to_nat max_retries) with (S (Z.to_nat max_retries - 1)) by lia.
    cbn [seq retry_loop]. rewrite Hfail.
    assert ((Z.of_nat 0 =? max_retries - 1) = false) as ->
        by (apply Z.eqb_neq; lia).
    assert ((delay * 2 ^ Z.of_nat 0 <? 0) = true) as ->
        by (apply Z.ltb_lt; simpl; lia).
    reflexivity.
Qed.

(** Three attempts, all failing: the last error comes out after sleeps of 1
    and 2 seconds. *)
Lemma retry_gives_up_witness :
  retry_operation
    (fun attempt => (Raise (KeyError (str_of_int (Z.of_nat attempt)))
                     : result Z)) 3 1
  = (Raise (KeyError "2"), [1; 2]).
Proof.
  refine (proj1 (retry_gives_up Z _ 3 1)
                (fun attempt => KeyError (str_of_int (Z.of_nat attempt)))
                _ _ _).
  - lia.
  - lia.
  - intros j _. reflexivity.
Defined.

(** ** The cart *)

Lemma cart_add_assoc product_id item cart_items :
  assoc product_id (cart_add product_id item cart_items)
  = Some match assoc product_id cart_items with
         | Some present => add_quantity (Shopify.quantity item) present
         | None => item
         end.
Proof.
  induction cart_items as [|[key present] rest IH]; simpl.
  - rewrite String.eqb_refl. reflexivity.
  - destruct (String.eqb key product_id) eqn:E; simpl; rewrite E;
      [reflexivity | exact IH].
Qed.

Lemma cart_add_other product_id item cart_items other :
  other <> product_id ->
  assoc other (cart_add product_id item cart_items) = assoc other cart_items.
Proof.
  intros Hother. induction cart_items as [|[key present] rest IH]; simpl.
  - apply String.eqb_neq in Hother. rewrite String.eqb_sym, Hother.
    reflexivity.
  - destruct (String.eqb key product_id) eqn:E; simpl.
    + apply String.eqb_eq in E. subst key.
      apply not_eq_sym, String.eqb_neq in Hother. rewrite Hother.
      reflexivity.
    + destruct (String.eqb key other); [reflexivity | exact IH].
Qed.

Lemma cart_add_keys product_id item cart_items :
  map fst (cart_add product_id item cart_items)
  = if existsb (fun key => String.eqb key product_id) (map fst cart_items)
    then map fst cart_items
    else map fst cart_items ++ [product_id].
Proof.
  induction cart_items as [|[key present] rest IH]; simpl; [reflexivity |].
  destruct (String.eqb key product_id) eqn:E; simpl; [reflexivity |].
  rewrite IH. destruct (existsb _ (map fst rest)); reflexivity.
Qed.

Lemma cart_add_nodup product_id item cart_items :
  NoDup (map fst cart_items) ->
  NoDup (map fst (cart_add product_id item cart_items)).
Proof.
  intros Hnodup. rewrite cart_add_keys.
  destruct (existsb _ (map fst cart_items)) eqn:E; [exact Hnodup |].
  apply NoDup_app; [exact Hnodup | repeat constructor; intros [] |].
  intros key Hkey [Heq | []].
  assert (existsb (fun k => String.eqb k product_id) (map fst cart_items)
          = true) as Hin.
  { apply existsb_exists. exists key. split;
      [exact Hkey | apply String.eqb_eq; symmetry; exact Heq]. }
  congruence.
Qed.

Lemma cart_add_removed product_id item cart_items :
  filter (fun entry => negb (String.eqb (fst entry) product_id))
         (cart_add product_id item cart_items)
  = filter (fun entry => negb (String.eqb (fst entry) product_id)) cart_items.
Proof.
  induction cart_items as [|[key present] rest IH]; simpl.
  - rewrite String.eqb_refl. reflexivity.
  - destruct (String.eqb key product_id) eqn:E; simpl; rewrite E; simpl;
      [reflexivity | rewrite IH; reflexivity].
Qed.

(** X20. Adding to the cart. When the price is a number and the quantity
    an integer (1 when the form has none), [add_to_cart] flashes nothing and
    the cart then holds the product: with the quantity added to the one it
    had when it was there already -- its sku, title and price stay those of
    the first time, whatever the form says now -- and as a new last entry
    otherwise. Every other product is as before and no product is listed
    twice. Any integer is taken as a quantity, zero and negative ones too. *)
Theorem add_to_cart_accumulates :
  forall py_float product_id sku title price_text quantity session
         price_value n,
    py_float price_text = Some price_value ->
    match quantity with
    | None => Some 1
    | Some quantity_text => py_int quantity_text
    end = Some n ->
    let r := add_to_cart py_float product_id sku title (Some price_text)
               quantity session in
    fst r = None
    /\ test_mode (snd r) = test_mode session
    /\ assoc product_id (cart (snd r))
       = Some match assoc product_id (cart session) with
              | Some present =>
                  {| Shopify.sku := Shopify.sku present;
                     Shopify.title := Shopify.title present;
                     Shopify.price := Shopify.price present;
                     Shopify.quantity := Shopify.quantity present + n |}
              | None =>
                  {| Shopify.sku := sku; Shopify.title := title;
                     Shopify.price := price_value; Shopify.quantity := n |}
              end
    /\ (forall other,
           other <> product_id ->
           assoc other (cart (snd r)) = assoc other (cart session))
    /\ map fst (cart (snd r))
       = (if existsb (fun key => String.eqb key product_id)
                     (map fst (cart session))
          then map fst (cart session)
          else map fst (cart session) ++ [product_id])
    /\ (NoDup (map fst (cart session)) -> NoDup (map fst (cart (snd r)))).
Proof.
  intros py_float product_id sku title price_text quantity session
         price_value n Hprice Hquantity r.
  subst r. unfold add_to_cart. rewrite Hprice, Hquantity. simpl.
  repeat split.
  - rewrite cart_add_assoc.
    destruct (assoc product_id (cart session)); reflexivity.
  - intros other Hother. apply cart_add_other. exact Hother.
  - apply cart_add_keys.
  - apply cart_add_nodup.
Qed.

(** Two units of a product already in the cart, at another price: the
    quantity grows, the price stays. *)
Lemma add_to_cart_accumulates_witness :
  let session := {| cart := [("41", Sample.skyr)]; test_mode := false |} in
  let r := add_to_cart (fun _ => Some 250%float) "41" (Some "X")
             (Some "Skyr") (Some "250") (Some "-3") session in
  assoc "41" (cart (snd r))
  = Some {| Shopify.sku := Some "X"; Shopify.title := Some "Skyr";
            Shopify.price := 100%float; Shopify.quantity := 2 + -3 |}.
Proof.
  intros session r.
  exact (proj1 (proj2 (proj2 (add_to_cart_accumulates
                                (fun _ => Some 250%float) "41" (Some "X")
                                (Some "Skyr") "250" (Some "-3") session
                                250%float (-3) eq_refl eq_refl)))).
Defined.

(** X21. Removing from the cart, and a refused addition. After
    [remove_from_cart] the product is not in the cart and every other product
    is as before, in the same order; without a product id the cart is
    unchanged. Removing a product right after adding it gives the cart that
    removing it from the original cart gives. An addition whose price is
    missing or not a number, or whose quantity is not an integer, flashes the
    error and leaves the session as it was. *)
Theorem remove_from_cart_removes :
  forall py_float product_id session,
    assoc product_id (cart (remove_from_cart (Some product_id) session)) = None
    /\ (forall other,
           other <> product_id ->
           assoc other (cart (remove_from_cart (Some product_id) session))
           = assoc other (cart session))
    /\ remove_from_cart None session = session
    /\ (forall sku title price quantity,
           remove_from_cart (Some product_id)
             (snd (add_to_cart py_float product_id sku title price quantity
                     session))
           = remove_from_cart (Some product_id) session)
    /\ (forall sku title price quantity,
           fst (add_to_cart py_float product_id sku title price quantity
                  session) <> None ->
           add_to_cart py_float product_id sku title price quantity session
           = (Some (get_translation "error" "is", "error"), session)).
Proof.
  intros py_float product_id session. repeat split.
  - simpl. induction (cart session) as [|[key present] rest IH]; simpl;
      [reflexivity |].
    destruct (String.eqb key product_id) eqn:E; simpl; [exact IH |].
    rewrite E. exact IH.
  - intros other Hother. simpl.
    induction (cart session) as [|[key present] rest IH]; simpl;
      [reflexivity |].
    destruct (String.eqb key product_id) eqn:E; simpl.
    + apply String.eqb_eq in E. subst key.
      apply not_eq_sym, String.eqb_neq in Hother. rewrite Hother. exact IH.
    + destruct (String.eqb key other); [reflexivity | exact IH].
  - intros sku title price quantity. unfold add_to_cart.
    destruct price as [price_text|]; [| reflexivity].
    destruct (py_float price_text); [| reflexivity].
    destruct (match quantity with Some _ => _ | None => _ end);
      [| reflexivity].
    unfold remove_from_cart. simpl. rewrite cart_add_removed. reflexivity.
  - intros sku title price quantity. unfold add_to_cart.
    destruct price as [price_text|]; [| reflexivity].
    destruct (py_float price_text); [| reflexivity].
    destruct (match quantity with Some _ => _ | None => _ end);
      [| reflexivity].
    simpl. intros H. contradiction.
Qed.

(** ** Fulfillment by hand *)

(** X22. The admin route that fulfils an order by hand does to the store
    exactly what [POST /api/orders/<id>/complete] does -- the same requests
    to the Catalog Service, the same row set to [completed], no check of the
    current status -- when an admin is logged in; otherwise it redirects to
    the login page and touches nothing. *)
Theorem manual_fulfillment_is_completion :
  forall py_repr env order_id w,
    snd (App.fulfill_order py_repr env true order_id w)
    = snd (api_complete_order env order_id w)
    /\ (fst (api_complete_order env order_id w) = Success <->
        exists message,
          fst (App.fulfill_order py_repr env true order_id w)
          = AdminRedirect "admin_orders" (Some (message, "success")))
    /\ App.fulfill_order py_repr env false order_id w
       = (AdminRedirect "admin_login" None, w).
Proof.
  intros py_repr env order_id w. split; [| split]; [| | reflexivity].
  - unfold App.fulfill_order, api_complete_order. cbn [negb].
    destruct (get_or_404 order_id (orders w)) as [o|e]; [| reflexivity].
    cbv zeta.
    match goal with
    | |- context [commit_update ?row ?tbl] =>
        destruct (commit_update row tbl) as [tbl'|e]; reflexivity
    end.
  - unfold App.fulfill_order, api_complete_order. cbn [negb].
    destruct (get_or_404 order_id (orders w)) as [o|e].
    + cbv zeta.
      match goal with
      | |- context [commit_update ?row ?tbl] =>
          destruct (commit_update row tbl) as [tbl'|e]
      end; simpl.
      * split; [intros _; eexists; reflexivity | reflexivity].
      * split; [discriminate | intros [message H]; discriminate H].
    + simpl. split; [discriminate | intros [message H]; discriminate H].
Qed.

(** ** Shelf assignment *)

(** What the upsert leaves in the shelf table. *)
Lemma upsert_shelf_rows env n sku name shelf_table :
  let shelf_table' := upsert_shelf env n sku name shelf_table in
  (exists row,
      In row shelf_table'
      /\ ShelfMapping.shelf_number row = n
      /\ ShelfMapping.sku row = sku
      /\ ShelfMapping.product_name row = name
      /\ ShelfMapping.active row = true)
  /\ (forall row,
         In row shelf_table' -> ShelfMapping.shelf_number row = n ->
         ShelfMapping.sku row = sku /\ ShelfMapping.product_name row = name
         /\ ShelfMapping.active row = true)
  /\ (forall row,
         ShelfMapping.shelf_number row <> n ->
         (In row shelf_table' <-> In row shelf_table))
  /\ (NoDup (map ShelfMapping.shelf_number shelf_table) ->
      NoDup (map ShelfMapping.shelf_number shelf_table')).
Proof.
  intros shelf_table'. subst shelf_table'.
  pose (is_shelf := fun s : ShelfMapping.t =>
                      ShelfMapping.shelf_number s =? n).
  pose (update := fun s : ShelfMapping.t =>
                    if is_shelf s
                    then ShelfMapping.mk (ShelfMapping.shelf_number s) sku name
                           (ShelfMapping.current_stock s) true (now env)
                    else s).
  assert (upsert_shelf env n sku name shelf_table
          = match first (filter is_shelf shelf_table) with
            | Some _ => map update shelf_table
            | None =>
                shelf_table ++
                [ShelfMapping.mk n sku name 0 true (utcnow env)]
            end) as -> by reflexivity.
  assert (forall x, is_shelf x = true <-> ShelfMapping.shelf_number x = n)
    as Hshelf by (intros x; apply Z.eqb_eq).
  assert (forall x, ShelfMapping.shelf_number (update x)
                    = ShelfMapping.shelf_number x) as Hnumber.
  { intros x. unfold update. destruct (is_shelf x); reflexivity. }
  assert (forall x, ShelfMapping.shelf_number x = n ->
                    ShelfMapping.sku (update x) = sku
                    /\ ShelfMapping.product_name (update x) = name
                    /\ ShelfMapping.active (update x) = true) as Hset.
  { intros x Hx. apply Hshelf in Hx. unfold update. rewrite Hx. auto. }
  assert (forall x, ShelfMapping.shelf_number x <> n -> update x = x)
    as Hkeep.
  { intros x Hx. unfold update. destruct (is_shelf x) eqn:S; [| reflexivity].
    apply Hshelf in S. contradiction. }
  clearbody update. clearbody is_shelf.
  destruct (first (filter is_shelf shelf_table)) as [r|] eqn:E.
  - apply first_filter_some in E. destruct E as [Hr Hn]. apply Hshelf in Hn.
    split; [| split; [| split]].
    + exists (update r). split; [apply in_map; exact Hr |].
      rewrite Hnumber. split; [exact Hn | exact (Hset r Hn)].
    + intros row Hin Hrow. apply in_map_iff in Hin.
      destruct Hin as (x & <- & Hx). apply Hset.
      rewrite <- Hnumber. exact Hrow.
    + intros row Hrow. split.
      * intros Hin. apply in_map_iff in Hin. destruct Hin as (x & <- & Hx).
        rewrite Hnumber in Hrow. rewrite (Hkeep x Hrow). exact Hx.
      * intros Hin. apply in_map_iff. exists row.
        split; [exact (Hkeep row Hrow) | exact Hin].
    + intros Hnodup. rewrite map_map.
      erewrite map_ext; [exact Hnodup | exact Hnumber].
  - pose proof (first_filter_none_all _ _ E) as Hnone.
    assert (forall x, In x shelf_table -> ShelfMapping.shelf_number x <> n)
      as Hfresh.
    { intros x Hx Hn'. apply Hshelf in Hn'. rewrite (Hnone x Hx) in Hn'.
      discriminate Hn'. }
    split; [| split; [| split]].
    + eexists. split; [apply in_or_app; right; left; reflexivity |].
      simpl. auto.
    + intros row Hin Hrow. apply in_app_or in Hin.
      destruct Hin as [Hin | [<- | []]]; [| simpl; auto].
      exfalso. exact (Hfresh row Hin Hrow).
    + intros row Hrow. split.
      * intros Hin. apply in_app_or in Hin.
        destruct Hin as [Hin | [<- | []]]; [exact Hin |].
        simpl in Hrow. contradiction.
      * intros Hin. apply in_or_app. left. exact Hin.
    + intros Hnodup. rewrite map_app. simpl.
      apply NoDup_app; [exact Hnodup | repeat constructor; intros [] |].
      intros a Ha [<- | []]. apply in_map_iff in Ha.
      destruct Ha as (x & Hx & Hin). exact (Hfresh x Hin Hx).
Qed.

(** X23. An accepted shelf assignment. When [POST /admin/shelves/assign]
    answers success for shelf [n]: the form held an integer from 1 to 40, the
    shelf is compatible with the box size of the SKU (medium when the SKU had
    no metadata, which is then created); the shelf table has a row numbered
    [n], every row numbered [n] carries the SKU and the name of the form and
    is active, the rows with other numbers are the same as before, and shelf
    numbers that were unique stay unique. Shelf resolution then finds a
    shelf for that SKU. *)
Theorem assign_shelf_assigns :
  forall env logged_in form_number form_sku form_name shelf_table metadata
         n shelf_table' metadata',
    assign_shelf env logged_in form_number form_sku form_name shelf_table
      metadata
    = (Assigned n, shelf_table', metadata') ->
    logged_in = true
    /\ (exists text, form_number = Some text /\ py_int text = Some n)
    /\ 1 <= n <= 40
    /\ (exists row,
           In row shelf_table' /\ ShelfMapping.shelf_number row = n)
    /\ (forall row,
           In row shelf_table' -> ShelfMapping.shelf_number row = n ->
           ShelfMapping.sku row = form_sku
           /\ ShelfMapping.product_name row = form_name
           /\ ShelfMapping.active row = true)
    /\ (forall row,
           ShelfMapping.shelf_number row <> n ->
           (In row shelf_table' <-> In row shelf_table))
    /\ (NoDup (map ShelfMapping.shelf_number shelf_table) ->
        NoDup (map ShelfMapping.shelf_number shelf_table'))
    /\ (exists shelf,
           first_active_shelf shelf_table' form_sku = Some shelf
           /\ ShelfMapping.sku shelf = form_sku)
    /\ ((metadata' = metadata
         /\ exists meta,
              In meta metadata
              /\ Some (ProductMetadata.sku meta) = form_sku
              /\ check_shelf_compatibility n (ProductMetadata.box_size meta)
                 = true)
        \/ (exists sku,
               form_sku = Some sku
               /\ metadata' = metadata ++ [default_metadata env sku]
               /\ 16 <= n <= 30)).
Proof.
  intros env logged_in form_number form_sku form_name shelf_table metadata
         n shelf_table' metadata'.
  unfold assign_shelf.
  destruct logged_in; [| discriminate]. cbn [negb].
  destruct form_number as [text|]; [| discriminate].
  destruct (py_int text) as [number|] eqn:Hint; [| discriminate].
  set (found := first (filter _ metadata)).
  destruct (check_shelf_compatibility number _) eqn:Hcompat;
    [| discriminate].
  cbn [negb].
  assert (1 <= number <= 40) as Hrange
      by exact (compatibility_range _ _ Hcompat).
  destruct (match found, form_sku with
            | Some _, _ => Ok metadata
            | None, Some sku => _
            | None, None => _
            end) as [meta_after|] eqn:Hmeta; [| discriminate].
  destruct (shelf_number_range number); [| discriminate].
  intros [= <- <- <-].
  destruct (upsert_shelf_rows env number form_sku form_name shelf_table)
    as ((row & Hrow & Hnum & Hsku & Hname & Hactive) & Hall & Hother & Hnodup).
  split; [reflexivity |]. split; [eauto |]. split; [exact Hrange |].
  split; [eauto |]. split; [exact Hall |]. split; [exact Hother |].
  split; [exact Hnodup |]. split.
  - pose proof (first_active_shelf_lowest
                  (upsert_shelf env number form_sku form_name shelf_table)
                  form_sku) as Hlowest.
    destruct (first_active_shelf _ form_sku) as [shelf|].
    + exists shelf. split; [reflexivity | apply Hlowest].
    + rewrite (Hlowest row Hrow Hsku) in Hactive. discriminate Hactive.
  - subst found.
    destruct (first (filter _ metadata)) as [meta|] eqn:F.
    + left. injection Hmeta as <-. split; [reflexivity |].
      apply first_filter_some in F. destruct F as [Hin Hm].
      apply opt_eqb_eq in Hm. eauto.
    + right. destruct form_sku as [sku|]; [| discriminate].
      injection Hmeta as <-. exists sku.
      rewrite compatibility_medium in Hcompat. repeat split; lia.
Qed.

(** Shelf 20 is given to a SKU that has no metadata yet. *)
Lemma assign_shelf_assigns_witness :
  let r := assign_shelf (Sample.env_at 30 Sample.offline) true (Some "20")
             (Some "Y") (Some "Harðfiskur") [Sample.shelf_7] [] in
  exists shelf,
    first_active_shelf (snd (fst r)) (Some "Y") = Some shelf
    /\ ShelfMapping.sku shelf = Some "Y".
Proof.
  intros r.
  exact (proj1 (proj2 (proj2 (proj2 (proj2 (proj2 (proj2 (proj2
           (assign_shelf_assigns (Sample.env_at 30 Sample.offline) true
              (Some "20") (Some "Y") (Some "Harðfiskur") [Sample.shelf_7] []
              20 _ _ eq_refl))))))))).
Defined.

(** X24. A refused shelf assignment changes nothing. Whenever
    [POST /admin/shelves/assign] answers anything but success, the shelf
    table and the metadata table are as before -- metadata created on the
    way is dropped. It is refused without a login; when the shelf number is
    missing or not an integer; when the shelf does not suit the box size of
    the SKU, which for a SKU without metadata means any shelf outside 16 to
    30; and when the form has no SKU. *)
Theorem assign_shelf_refusals :
  forall env logged_in form_number form_sku form_name shelf_table metadata,
    let r := assign_shelf env logged_in form_number form_sku form_name
               shelf_table metadata in
    ((forall n, fst (fst r) <> Assigned n) ->
     snd (fst r) = shelf_table /\ snd r = metadata)
    /\ (logged_in = false -> fst (fst r) = ToLogin)
    /\ (logged_in = true ->
        match form_number with
        | None => True
        | Some text => py_int text = None
        end ->
        exists e, fst (fst r) = AssignError e)
    /\ (forall text n,
           logged_in = true -> form_number = Some text ->
           py_int text = Some n ->
           (forall meta, In meta metadata ->
                         Some (ProductMetadata.sku meta) <> form_sku) ->
           ~ 16 <= n <= 30 ->
           fst (fst r) = NotCompatible)
    /\ (logged_in = true -> form_sku = None ->
        forall n, fst (fst r) <> Assigned n).
Proof.
  intros env logged_in form_number form_sku form_name shelf_table metadata r.
  subst r. unfold assign_shelf.
  split; [| split; [| split; [| split]]].
  - destruct logged_in; cbn [negb]; [| split; reflexivity].
    destruct form_number as [text|]; [| split; reflexivity].
    destruct (py_int text) as [n|]; [| split; reflexivity].
    destruct (check_shelf_compatibility n _); cbn [negb];
      [| split; reflexivity].
    destruct (match first _, form_sku with
              | Some _, _ => Ok metadata
              | None, Some sku => _
              | None, None => _
              end); [| split; reflexivity].
    destruct (shelf_number_range n); [| split; reflexivity].
    simpl. intros H. exfalso. exact (H n eq_refl).
  - intros ->. reflexivity.
  - intros -> Hbad. cbn [negb].
    destruct form_number as [text|]; [| eexists; reflexivity].
    rewrite Hbad. eexists. reflexivity.
  - intros text n -> -> Hint Hnometa Hzone. cbn [negb]. rewrite Hint.
    rewrite first_filter_none.
    + rewrite compatibility_medium.
      assert (((16 <=? n) && (n <=? 30))%bool = false) as -> by lia.
      reflexivity.
    + intros meta Hin. destruct (opt_eqb _ form_sku) eqn:E; [| reflexivity].
      apply opt_eqb_eq in E. exfalso. exact (Hnometa meta Hin E).
  - intros -> -> n. cbn [negb].
    destruct form_number as [text|]; [| discriminate].
    destruct (py_int text) as [m|]; [| discriminate].
    rewrite first_filter_none by (intros meta _; reflexivity).
    destruct (check_shelf_compatibility m _); cbn [negb]; discriminate.
Qed.

(** A SKU without metadata is sent to shelf 7, a shelf for small boxes. *)
Lemma assign_shelf_refusals_witness :
  assign_shelf (Sample.env_at 30 Sample.offline) true (Some "7") (Some "Y")
    (Some "Harðfiskur") [Sample.shelf_7] []
  = (NotCompatible, [Sample.shelf_7], []).
Proof.
  pose proof (assign_shelf_refusals (Sample.env_at 30 Sample.offline) true
                (Some "7") (Some "Y") (Some "Harðfiskur") [Sample.shelf_7] [])
    as (Hsame & _ & _ & Hzone & _).
  assert (fst (fst (assign_shelf (Sample.env_at 30 Sample.offline) true
                      (Some "7") (Some "Y") (Some "Harðfiskur")
                      [Sample.shelf_7] [])) = NotCompatible) as Hanswer.
  { apply (Hzone "7" 7); try reflexivity; [intros meta [] | lia]. }
  reflexivity.
Defined.

(** ** The product cache *)

Lemma timedelta_seconds_days microseconds days :
  Shopify.timedelta_seconds (microseconds + days * 86400000000)
  = Shopify.timedelta_seconds microseconds.
Proof.
  unfold Shopify.timedelta_seconds. rewrite Z.mod_add by lia. reflexivity.
Qed.

(** X25. The age of the product cache is read from [timedelta.seconds],
    which drops whole days. A cache that is not empty is valid during the
    first 300 seconds after it was filled and invalid for the rest of that
    day -- and the same again on every later day: shifting the clock by any
    number of whole days does not change the answer of [_is_cache_valid]. An
    empty or cleared cache is never valid. *)
Theorem cache_validity_ignores_whole_days :
  forall now cache,
    (forall days,
        Shopify._is_cache_valid (now + days * 86400000000) cache
        = Shopify._is_cache_valid now cache)
    /\ (forall stamp elapsed,
           Shopify.cache_timestamp cache = Some stamp ->
           Shopify.product_cache cache <> [] ->
           0 <= elapsed < 86400000000 ->
           Shopify._is_cache_valid (stamp + elapsed) cache
           = (elapsed <? 300000000))
    /\ (Shopify.product_cache cache = [] ->
        Shopify._is_cache_valid now cache = false)
    /\ Shopify._is_cache_valid now (Shopify.clear_cache cache) = false.
Proof.
  intros now cache. split; [| split; [| split]].
  - intros days. unfold Shopify._is_cache_valid.
    destruct (Shopify.cache_timestamp cache) as [stamp|]; [| reflexivity].
    destruct (Shopify.product_cache cache); [reflexivity |].
    replace (now + days * 86400000000 - stamp)
      with (now - stamp + days * 86400000000) by lia.
    rewrite timedelta_seconds_days. reflexivity.
  - intros stamp elapsed Hstamp Hcache Helapsed.
    unfold Shopify._is_cache_valid. rewrite Hstamp.
    destruct (Shopify.product_cache cache); [contradiction |].
    replace (stamp + elapsed - stamp) with elapsed by lia.
    unfold Shopify.timedelta_seconds, Shopify.cache_duration.
    rewrite Z.mod_small by lia.
    destruct (elapsed <? 300000000) eqn:E.
    + apply Z.ltb_lt in E. apply Z.ltb_lt.
      apply Z.div_lt_upper_bound; lia.
    + apply Z.ltb_ge in E. apply Z.ltb_ge.
      apply Z.div_le_lower_bound; lia.
  - intros Hempty. unfold Shopify._is_cache_valid. rewrite Hempty.
    destruct (Shopify.cache_timestamp cache); reflexivity.
  - reflexivity.
Qed.

(** A cache filled at time 0 is read one day and ten seconds later. *)
Lemma cache_validity_ignores_whole_days_witness :
  Shopify._is_cache_valid (86400000000 + 10000000)
    {| Shopify.product_cache := [("41", JNull)];
       Shopify.cache_timestamp := Some 0 |}
  = true.
Proof.
  rewrite (proj1 (cache_validity_ignores_whole_days 10000000
                    {| Shopify.product_cache := [("41", JNull)];
                       Shopify.cache_timestamp := Some 0 |}) 1
           : Shopify._is_cache_valid (86400000000 + 10000000) _ = _).
  exact (proj1 (proj2 (cache_validity_ignores_whole_days 0
                         {| Shopify.product_cache := [("41", JNull)];
                            Shopify.cache_timestamp := Some 0 |}))
               0 10000000 eq_refl ltac:(discriminate) ltac:(lia)).
Defined.

(** ** Fetching products *)

Lemma dict_set_same key v kvs : assoc key (Shopify.dict_set key v kvs) = Some v.
Proof.
  induction kvs as [|[k old] rest IH]; simpl.
  - rewrite String.eqb_refl. reflexivity.
  - destruct (String.eqb k key) eqn:E; simpl; rewrite E;
      [reflexivity | exact IH].
Qed.

Lemma dict_set_other key v kvs other :
  other <> key ->
  assoc other (Shopify.dict_set key v kvs) = assoc other kvs.
Proof.
  intros Hother. induction kvs as [|[k old] rest IH]; simpl.
  - apply String.eqb_neq in Hother. rewrite String.eqb_sym, Hother.
    reflexivity.
  - destruct (String.eqb k key) eqn:E; simpl.
    + apply String.eqb_eq in E. subst k.
      apply not_eq_sym, String.eqb_neq in Hother. rewrite Hother.
      reflexivity.
    + destruct (String.eqb k other); [reflexivity | exact IH].
Qed.

Lemma product_of_edge_some py_float edge key product :
  Shopify.product_of_edge py_float edge = Ok (Some (key, product)) ->
  Spec.stocked key product.
Proof.
  unfold Shopify.product_of_edge.
  destruct (getitem edge "node") as [node|]; cbn [bind]; [| discriminate].
  destruct (getitem node "available") as [available|]; cbn [bind];
    [| discriminate].
  destruct (Shopify.positive available) as [[|]|] eqn:P; cbn [bind];
    try discriminate.
  repeat match goal with
         | |- context [bind ?c _] =>
             destruct c; cbn [bind]; try discriminate
         end.
  intros [= <- <-]. split; [reflexivity |].
  exists available. split; [reflexivity | exact P].
Qed.

Lemma stocked_has_product_id key other product :
  Spec.stocked key product ->
  Spec.has_product_id other product = String.eqb key other.
Proof.
  intros [Hid _]. unfold Spec.has_product_id. rewrite Hid. reflexivity.
Qed.

Lemma last_with_id_app key before after :
  Spec.last_with_id key (before ++ after)
  = match Spec.last_with_id key after with
    | Some later => Some later
    | None => Spec.last_with_id key before
    end.
Proof.
  induction before as [|product before IH]; simpl.
  - destruct (Spec.last_with_id key after); reflexivity.
  - rewrite IH. destruct (Spec.last_with_id key after); reflexivity.
Qed.

Lemma last_with_id_none key products :
  Forall (fun product => Spec.has_product_id key product = false) products ->
  Spec.last_with_id key products = None.
Proof.
  induction 1 as [|product products Hproduct _ IH]; simpl; [reflexivity |].
  rewrite IH, Hproduct. reflexivity.
Qed.

(** The last product with the id of a product of the list: there is one,
    and it is that product when no later one shares the id. *)
Lemma last_with_id_of_member key before product after :
  Spec.has_product_id key product = true ->
  exists last,
    Spec.last_with_id key (before ++ product :: after) = Some last
    /\ (Forall (fun later => Spec.has_product_id key later = false) after ->
        last = product).
Proof.
  intros Hid. rewrite last_with_id_app. simpl. rewrite Hid.
  destruct (Spec.last_with_id key after) as [later|] eqn:E.
  - exists later. split; [reflexivity |].
    intros Hnone. rewrite (last_with_id_none _ _ Hnone) in E. discriminate E.
  - exists product. split; reflexivity.
Qed.

(** What the loop of [get_products] does to the cache and returns. *)
Lemma collect_products_spec py_float edges :
  forall products cached out cached',
    Shopify.collect_products py_float edges products cached = (out, cached') ->
    (forall key v,
        assoc key cached = Some v ->
        exists v', assoc key cached' = Some v'
                   /\ (v' = v \/ Spec.stocked key v'))
    /\ match out with
       | Ok products' =>
           exists fresh,
             products' = products ++ fresh
             /\ Forall (fun product => exists key, Spec.stocked key product)
                       fresh
             /\ (forall key,
                    assoc key cached'
                    = match Spec.last_with_id key fresh with
                      | Some product => Some product
                      | None => assoc key cached
                      end)
       | Raise _ => True
       end.
Proof.
  induction edges as [|edge edges IH]; intros products cached out cached';
    simpl.
  - intros [= <- <-]. split; [eauto |].
    exists []. rewrite app_nil_r.
    split; [reflexivity | split; [constructor | reflexivity]].
  - destruct (Shopify.product_of_edge py_float edge)
      as [[[key product]|]|e] eqn:E.
    + intros Hrest. apply product_of_edge_some in E.
      destruct (IH _ _ _ _ Hrest) as [Hkeep Hout].
      assert (forall k v,
                 assoc k (Shopify.dict_set key product cached) = Some v ->
                 exists v', assoc k cached' = Some v'
                            /\ (v' = v \/ Spec.stocked k v')) as Hkeep'
          by exact Hkeep.
      split.
      * intros k v Hk. destruct (String.eqb k key) eqn:K.
        -- apply String.eqb_eq in K. subst k.
           destruct (Hkeep' key product (dict_set_same _ _ _))
             as (v' & Hv' & [-> | Hs]); eauto.
        -- apply String.eqb_neq in K.
           apply Hkeep'. rewrite dict_set_other by exact K. exact Hk.
      * destruct out as [products'|]; [| exact I].
        destruct Hout as (fresh & -> & Hfresh & Hcached).
        exists (product :: fresh). rewrite <- app_assoc.
        split; [reflexivity |].
        split; [constructor; [exists key; exact E | exact Hfresh] |].
        intros k. rewrite Hcached. simpl.
        destruct (Spec.last_with_id k fresh); [reflexivity |].
        rewrite (stocked_has_product_id key k product E).
        destruct (String.eqb key k) eqn:K.
        -- apply String.eqb_eq in K. subst k. apply dict_set_same.
        -- apply String.eqb_neq in K. apply dict_set_other. congruence.
    + apply IH.
    + intros [= <- <-]. split; [eauto | exact I].
Qed.

(** X26. [get_products] sends no request while the cache is valid and
    answers with the cached products. Otherwise it sends one request; when
    that fails, is answered with a code other than 200, with a body that is
    not JSON, or with a JSON object that has an 'errors' entry, it returns no
    product and leaves the cache and its time stamp as they were, so the next
    call asks again. *)
Theorem get_products_failures_keep_the_cache :
  forall py_float now location graphql cache,
    let post := Shopify.ProductsWithInventory location in
    (Shopify._is_cache_valid now cache = true ->
     Shopify.get_products py_float now location graphql cache
     = ([], map snd (Shopify.product_cache cache), cache))
    /\ (Shopify._is_cache_valid now cache = false ->
        (graphql post = Shopify.Failed
         \/ (exists code body,
                graphql post = Shopify.Response code body
                /\ (code <> 200
                    \/ json_loads body = Raise JSONDecodeError
                    \/ exists kvs v,
                         json_loads body = Ok (JObj kvs)
                         /\ assoc "errors" kvs = Some v))) ->
        Shopify.get_products py_float now location graphql cache
        = ([post], [], cache)).
Proof.
  intros py_float now location graphql cache post. split.
  - intros Hvalid. unfold Shopify.get_products. rewrite Hvalid. reflexivity.
  - intros Hinvalid Hfail. unfold Shopify.get_products. rewrite Hinvalid.
    fold post.
    destruct Hfail as [-> | (code & body & -> & Hbody)]; [reflexivity |].
    destruct (code =? 200) eqn:C; [| reflexivity]. simpl.
    destruct Hbody as [Hcode | [-> | (kvs & v & -> & ->)]];
      [| reflexivity | reflexivity].
    apply Z.eqb_eq in C. contradiction.
Qed.

(** The service answers 503 while the cache is empty. *)
Lemma get_products_failures_keep_the_cache_witness :
  let cache := {| Shopify.product_cache := [];
                  Shopify.cache_timestamp := None |} in
  Shopify.get_products (fun _ => None) 0 "109514817905"
    (fun _ => Shopify.Response 503 NotJson) cache
  = ([Shopify.ProductsWithInventory "109514817905"], [], cache).
Proof.
  intros cache.
  refine (proj2 (get_products_failures_keep_the_cache (fun _ => None) 0
                   "109514817905" (fun _ => Shopify.Response 503 NotJson)
                   cache) eq_refl _).
  right. exists 503, NotJson. split; [reflexivity |]. left. discriminate.
Defined.

(** X27. A fetch of [get_products] never evicts. Every product it
    returns has stock (its 'available' is above zero). After a fetch that
    went through, the cache holds under each id the last product returned
    with that id -- for a returned product, that is the product itself when
    no later one shares its id, and the later one otherwise, as when two
    inventory levels belong to the same variant -- and under every other id
    what it held before. Whether the fetch went through or not, every id
    cached before is still cached after, with the old data unless the fetch
    cached a product with stock under that id: a product that has sold out
    is served again from the cache by the next call within five minutes.
    When the loop raises half way the call returns nothing, the entries
    cached so far stay, and the time stamp is not renewed. *)
Theorem get_products_never_evicts :
  forall py_float now location graphql cache sent products cache',
    Shopify.get_products py_float now location graphql cache
    = (sent, products, cache') ->
    Shopify._is_cache_valid now cache = false ->
    (forall key v,
        assoc key (Shopify.product_cache cache) = Some v ->
        exists v',
          assoc key (Shopify.product_cache cache') = Some v'
          /\ (v' = v \/ Spec.stocked key v'))
    /\ (forall before product after,
           products = before ++ product :: after ->
           exists key last,
             Spec.stocked key product
             /\ Spec.last_with_id key products = Some last
             /\ assoc key (Shopify.product_cache cache') = Some last
             /\ (Forall (fun later => Spec.has_product_id key later = false)
                        after ->
                 last = product))
    /\ ((Shopify.cache_timestamp cache' = Some now
         /\ forall key,
              assoc key (Shopify.product_cache cache')
              = match Spec.last_with_id key products with
                | Some product => Some product
                | None => assoc key (Shopify.product_cache cache)
                end)
        \/ (products = []
            /\ Shopify.cache_timestamp cache'
               = Shopify.cache_timestamp cache)).
Proof.
  intros py_float now location graphql cache sent products cache' Hrun
         Hinvalid.
  unfold Shopify.get_products in Hrun. rewrite Hinvalid in Hrun.
  set (goal :=
         (forall key v,
             assoc key (Shopify.product_cache cache) = Some v ->
             exists v',
               assoc key (Shopify.product_cache cache') = Some v'
               /\ (v' = v \/ Spec.stocked key v'))
         /\ (forall before product after,
                products = before ++ product :: after ->
                exists key last,
                  Spec.stocked key product
                  /\ Spec.last_with_id key products = Some last
                  /\ assoc key (Shopify.product_cache cache') = Some last
                  /\ (Forall
                        (fun later => Spec.has_product_id key later = false)
                        after ->
                      last = product))
         /\ ((Shopify.cache_timestamp cache' = Some now
              /\ forall key,
                   assoc key (Shopify.product_cache cache')
                   = match Spec.last_with_id key products with
                     | Some product => Some product
                     | None => assoc key (Shopify.product_cache cache)
                     end)
             \/ (products = []
                 /\ Shopify.cache_timestamp cache'
                    = Shopify.cache_timestamp cache))).
  assert ((sent, products, cache')
          = ([Shopify.ProductsWithInventory location], [], cache) -> goal)
    as Hsame.
  { intros [= -> -> ->]. split; [eauto |]. split; [| right; auto].
    intros [|x before] product after H; discriminate H. }
  destruct (graphql _) as [|code body]; [apply Hsame; congruence |].
  destruct (negb (code =? 200)); [apply Hsame; congruence |].
  destruct (json_loads body) as [data|]; [| apply Hsame; congruence].
  destruct data as [| | | | | | kvs]; try (apply Hsame; congruence).
  destruct (assoc "errors" kvs); [apply Hsame; congruence |].
  destruct (bind _ _) as [levels|]; [| apply Hsame; congruence].
  destruct (Shopify.collect_products py_float levels []
              (Shopify.product_cache cache)) as [out cached] eqn:C.
  destruct (collect_products_spec _ _ _ _ _ _ C) as [Hkeep Hout].
  subst goal.
  destruct out as [found|e]; injection Hrun as <- <- <-; simpl.
  - destruct Hout as (fresh & -> & Hfresh & Hcached). simpl.
    split; [exact Hkeep |]. split; [| left; split; [reflexivity | exact Hcached]].
    intros before product after ->.
    rewrite Forall_forall in Hfresh.
    destruct (Hfresh product (in_elt _ _ _)) as [key Hstocked].
    destruct (last_with_id_of_member key before product after) as
      (last & Hlast & Honly).
    { rewrite (stocked_has_product_id key key product Hstocked).
      apply String.eqb_refl. }
    exists key, last. rewrite Hcached, Hlast. auto.
  - split; [exact Hkeep |]. split; [| right; auto].
    intros [|x before] product after H; discriminate H.
Qed.

(** Product 40 was cached earlier and is not in the answer any more; the
    answer has two inventory levels of variant 41. Both are returned, the
    cache keeps product 40 and holds the second of the two under 41. *)
Lemma get_products_never_evicts_witness :
  let cache := {| Shopify.product_cache := [("40", JNull)];
                  Shopify.cache_timestamp := None |} in
  let r := Shopify.get_products (fun _ => Some 100%float) 500 "109514817905"
             (fun _ => Shopify.Response 200 (Dumps Sample.inventory_twice))
             cache in
  List.length (snd (fst r)) = 2%nat
  /\ map fst (Shopify.product_cache (snd r)) = ["40"; "41"]
  /\ assoc "41" (Shopify.product_cache (snd r)) = nth_error (snd (fst r)) 1
  /\ assoc "41" (Shopify.product_cache (snd r)) <> nth_error (snd (fst r)) 0
  /\ exists v',
       assoc "40" (Shopify.product_cache (snd r)) = Some v'
       /\ (v' = JNull \/ Spec.stocked "40" v').
Proof.
  intros cache r.
  split; [reflexivity |]. split; [reflexivity |]. split; [reflexivity |].
  split; [discriminate |].
  exact (proj1 (get_products_never_evicts (fun _ => Some 100%float) 500
                  "109514817905"
                  (fun _ => Shopify.Response 200
                              (Dumps Sample.inventory_twice))
                  cache (fst (fst r)) (snd (fst r)) (snd r)
                  eq_refl eq_refl)
               "40" JNull eq_refl).
Defined.
